(** * resyncinator: a shallow embedding of [resyncinator.py]

    The script retimes the [.vgs] audio tracks of a PS2 Guitar Hero disc:
    it unpacks every [MAIN.HDR]/[MAIN*.ARK] pair, converts each eligible
    track to WAV, trims or pads the WAV by a number of milliseconds,
    converts it back and repacks the archive.

    Modelling conventions.
    - A path is the list of its components below the root; the file
      system is a finite map from paths to nodes (a directory or a file).
    - Python code with effects is a function from a [world] (file system
      and the lines printed so far) to an outcome (a value or a raised
      exception) and a new world.
    - The external programs ([arkhelper], [RockAudio], [7z]) are one
      section variable [system]: given the command and the file system it
      returns the exit status and the file system it leaves.
    - [int(framerate * abs(delay_ms) / 1000.0)] is computed with the
      binary64 operations of [SpecFloat].
    - Names and text are strings of code points below 256; memory is not
      bounded.
    - A PCM container is kept as what [wave] reads from it: the format
      fields and the bytes of the data chunk, all of them present (a file
      cut short of its declared size is outside the model).
    - [rglob] and [glob] yield in the order of the map's keys; Python
      yields in the order the operating system lists a directory. *)

From Stdlib Require Import ZArith List String Ascii Bool Lia.
From Stdlib Require Import Floats.SpecFloat.
From stdpp Require Import base gmap strings list fin_maps pretty.

Local Open Scope string_scope.
Local Open Scope list_scope.
Local Open Scope Z_scope.

(* ===================================================================== *)
(** * Python strings *)
(* ===================================================================== *)

Module PyStr.

(** [str.lower] on one code point below 256: A-Z and the Latin-1
    capitals (except the multiplication sign) move up by 32. *)
Definition lower_char (c : ascii) : ascii :=
  let n := N_of_ascii c in
  if ((65 <=? n) && (n <=? 90))%N then ascii_of_N (n + 32)
  else if ((192 <=? n) && (n <=? 222) && negb (n =? 215))%N
       then ascii_of_N (n + 32)
       else c.

Fixpoint lower (s : string) : string :=
  match s with
  | EmptyString => EmptyString
  | String c s' => String (lower_char c) (lower s')
  end.

(** [c in "0123456789"], which is what [\d] matches below code point 256. *)
Definition is_digit (c : ascii) : bool :=
  let n := N_of_ascii c in ((48 <=? n) && (n <=? 57))%N.

(** [name.rfind('.')] as a split: the text before and after the last dot. *)
Fixpoint rsplit_dot (s : string) : option (string * string) :=
  match s with
  | EmptyString => None
  | String c s' =>
      match rsplit_dot s' with
      | Some (a, b) => Some (String c a, b)
      | None => if Ascii.eqb c "." then Some (EmptyString, s') else None
      end
  end.

(** One [*]-only [fnmatch] pattern against a name, case-sensitively. *)
Fixpoint fnmatch (pat : string) (s : string) : bool :=
  match pat with
  | EmptyString => match s with EmptyString => true | _ => false end
  | String "*" pat' =>
      (fix star (s : string) : bool :=
         fnmatch pat' s
         || match s with
            | EmptyString => false
            | String _ s' => star s'
            end) s
  | String c pat' =>
      match s with
      | String c' s' => Ascii.eqb c c' && fnmatch pat' s'
      | EmptyString => false
      end
  end.

(** The line feed. *)
Definition nl : string := String (ascii_of_N 10) EmptyString.

(** [c.isspace()] below code point 256 *)
Definition is_space (c : ascii) : bool :=
  let n := N_of_ascii c in
  (((9 <=? n) && (n <=? 13)) || ((28 <=? n) && (n <=? 32)) || (n =? 133) || (n =? 160))%N.

Fixpoint lstrip (s : string) : string :=
  match s with
  | EmptyString => EmptyString
  | String c s' => if is_space c then lstrip s' else s
  end.

Definition rev_string (s : string) : string :=
  string_of_list_ascii (rev (list_ascii_of_string s)).

Definition rstrip (s : string) : string := rev_string (lstrip (rev_string s)).

(** [s.strip()] *)
Definition strip (s : string) : string := rstrip (lstrip s).

(** The digits of [int(s)]: decimal digits, single underscores only
    between two digits. *)
Fixpoint digits_value (acc : Z) (s : string) (after_digit : bool) : option Z :=
  match s with
  | EmptyString => if after_digit then Some acc else None
  | String c s' =>
      if is_digit c then digits_value (10 * acc + (Z.of_N (N_of_ascii c) - 48)) s' true
      else if Ascii.eqb c "_" then
        if after_digit then
          match s' with
          | EmptyString => None
          | _ => digits_value acc s' false
          end
        else None
      else None
  end.

(** The number of decimal digits in [s]. *)
Fixpoint count_digits (s : string) : Z :=
  match s with
  | EmptyString => 0
  | String c s' => (if is_digit c then 1 else 0) + count_digits s'
  end.

(** [int(s)] for a string: [None] stands for [ValueError], which
    CPython 3.11 also raises for more than 4300 digits
    ([sys.int_info.default_max_str_digits]). *)
Definition parse_int (s : string) : option Z :=
  if 4300 <? count_digits s then None
  else
    match strip s with
    | String "-" r => option_map Z.opp (digits_value 0 r false)
    | String "+" r => digits_value 0 r false
    | r => digits_value 0 r false
    end.

(** [str.upper] on one code point below 256, for the code points whose
    capital is again below 256: a-z and the Latin-1 small letters except
    the division sign move down by 32. The three others (U+00B5, U+00DF,
    U+00FF) have capitals outside this range, none of them an ASCII
    character; they are left as they are. *)
Definition upper_char (c : ascii) : ascii :=
  let n := N_of_ascii c in
  if ((97 <=? n) && (n <=? 122))%N then ascii_of_N (n - 32)
  else if ((224 <=? n) && (n <=? 254) && negb (n =? 247))%N
       then ascii_of_N (n - 32)
       else c.

Fixpoint upper (s : string) : string :=
  match s with
  | EmptyString => EmptyString
  | String c s' => String (upper_char c) (upper s')
  end.

(** [s.startswith(p)] *)
Definition startswith (s p : string) : bool := String.prefix p s.

(** [s.split(sep)] for a separator of one character *)
Fixpoint split_on (sep : ascii) (s : string) : list string :=
  match s with
  | EmptyString => [EmptyString]
  | String c s' =>
      if Ascii.eqb c sep then EmptyString :: split_on sep s'
      else match split_on sep s' with
           | p :: ps => String c p :: ps
           | [] => [String c EmptyString]
           end
  end.

(** The lines a text file yields when iterated, each with its line feed. *)
Fixpoint lines (s : string) : list string :=
  match s with
  | EmptyString => []
  | String c s' =>
      if Ascii.eqb c (ascii_of_N 10) then String c EmptyString :: lines s'
      else match lines s' with
           | l :: ls => String c l :: ls
           | [] => [String c EmptyString]
           end
  end.

(** [sep.join(l)] *)
Fixpoint join (sep : string) (l : list string) : string :=
  match l with
  | [] => ""
  | [x] => x
  | x :: l' => x +:+ sep +:+ join sep l'
  end.

End PyStr.

(* ===================================================================== *)
(** * [pathlib.Path] *)
(* ===================================================================== *)

(** An absolute path, as the list of its components below the root. *)
Abbreviation Path := (list string).

(** [p.parts]: the root anchor, then the components. *)
Definition parts (p : Path) : list string := "/" :: p.

(** [p.name] *)
Definition name (p : Path) : string := default "" (last p).

(** [p.parent] (the root is its own parent) *)
Definition parent (p : Path) : Path := removelast p.

(** [p / s] for a single component [s] *)
Definition joinpath (p : Path) (s : string) : Path := p ++ [s].

(** [str(p)] *)
Definition path_str (p : Path) : string := "/" +:+ PyStr.join "/" p.

(** [PurePath.stem] of a file name: the name without its last suffix; a
    name that starts with its only dot, or ends with a dot, has no suffix. *)
Definition stem_of (n : string) : string :=
  match PyStr.rsplit_dot n with
  | Some (a, b) =>
      match a, b with
      | EmptyString, _ => n
      | _, EmptyString => n
      | _, _ => a
      end
  | None => n
  end.

Definition stem (p : Path) : string := stem_of (name p).

(* ===================================================================== *)
(** * binary64 arithmetic of [offset_frames] *)
(* ===================================================================== *)

Module Float64.

Abbreviation prec := 53%Z (only parsing).
Abbreviation emax := 1024%Z (only parsing).

(** Conversion of a Python [int] to [float]: round to nearest, ties to
    even; the result is an infinity when the integer is out of range. *)
Definition float_of_int (z : Z) : spec_float := binary_normalize prec emax z 0 false.

(** The magnitude of a finite float, truncated to an integer. *)
Definition trunc_mag (m : positive) (e : Z) : Z :=
  match e with
  | Zneg k => Z.shiftr (Zpos m) (Zpos k)
  | _ => Z.shiftl (Zpos m) e
  end.

(** [int(x)] on a float: truncation toward zero; [None] on an infinity
    or a NaN. *)
Definition int_of_float (x : spec_float) : option Z :=
  match x with
  | S754_zero _ => Some 0
  | S754_finite s m e => Some (if s then - trunc_mag m e else trunc_mag m e)
  | _ => None
  end.

(** The literal [1000.0]. *)
Definition f1000 : spec_float := S754_finite false 8796093022208000 (-43).

End Float64.

(* ===================================================================== *)
(** * Worlds, exceptions and the state-and-exception monad *)
(* ===================================================================== *)

(** A PCM WAVE container as the [wave] module reads it: the format fields
    of the header and the bytes of the data chunk, which are all there:
    the declared size of the chunk is the number of its bytes. *)
Record wav := Wav {
  nchannels : Z;
  sampwidth : Z;
  framerate : Z;
  frames : list Byte.byte
}.

(** What a file holds: a PCM WAVE container, or any other bytes. *)
Inductive content :=
| WavData (w : wav)
| Blob (b : list Byte.byte).

Inductive node :=
| Dir
| File (c : content).

(** The external commands the script runs, with their arguments. *)
Inductive command :=
| Ark2Dir (exe hdr out : Path)
| Dir2Ark (exe dir out : Path) (base size : string)
| Convert (exe src dst : Path)
| SevenZipX (exe iso outdir : Path).

(** The argument vector handed to [subprocess.run]. *)
Definition argv (c : command) : list string :=
  match c with
  | Ark2Dir exe hdr out => [path_str exe; "ark2dir"; path_str hdr; path_str out; "-a"]
  | Dir2Ark exe dir out base size =>
      [path_str exe; "dir2ark"; path_str dir; path_str out; "-n"; base; "-s"; size]
  | Convert exe src dst => [path_str exe; "convert"; path_str src; path_str dst]
  | SevenZipX exe iso outdir => [path_str exe; "x"; path_str iso; "-o" +:+ path_str outdir; "-y"]
  end.

Definition executable (c : command) : Path :=
  match c with
  | Ark2Dir exe _ _ | Dir2Ark exe _ _ _ _ | Convert exe _ _ | SevenZipX exe _ _ => exe
  end.

Inductive exn :=
| ValueError (msg : string)
| OverflowError (msg : string)
| WaveError (msg : string)
| StructError (msg : string)
| EOFError
| FileNotFoundError (p : Path)
| FileExistsError (p : Path)
| IsADirectoryError (p : Path)
| NotADirectoryError (p : Path)
| PermissionError (p : Path)
| DirectoryNotEmpty (p : Path)
| OSError (msg : string)
| CalledProcessError (cmd : command) (returncode : Z)
| SystemExit (code : Z).

(** [isinstance(e, Exception)]: everything but [SystemExit]. *)
Definition is_Exception (e : exn) : bool :=
  match e with
  | SystemExit _ => false
  | _ => true
  end.

Definition is_CalledProcessError (e : exn) : bool :=
  match e with
  | CalledProcessError _ _ => true
  | _ => false
  end.

(** What the run leaves on the terminal and which programs it started. *)
Inductive event :=
| Printed (line : string)
| PrintedExn (before : string) (e : exn) (after : string)
| Prompted (text : string)
| Ran (cmd : command).

Record world := World {
  files : gmap Path node;
  stdout : list event
}.

Inductive outcome (A : Type) :=
| Return (a : A)
| Raise (e : exn).
Arguments Return {A} a.
Arguments Raise {A} e.

(** Computations over a state [S] that may raise. *)
Definition ST (S A : Type) : Type := S -> outcome A * S.

Definition ret {S A} (a : A) : ST S A := fun s => (Return a, s).

Definition raise {S A} (e : exn) : ST S A := fun s => (Raise e, s).

Definition bind {S A B} (m : ST S A) (k : A -> ST S B) : ST S B :=
  fun s =>
    match m s with
    | (Return a, s') => k a s'
    | (Raise e, s') => (Raise e, s')
    end.

Declare Scope py_scope.
Delimit Scope py_scope with py.
Notation "x <- m ;; k" := (bind m (fun x => k))
  (at level 100, m at next level, right associativity) : py_scope.
Notation "m ;; k" := (bind m (fun _ => k))
  (at level 100, right associativity) : py_scope.
Local Open Scope py_scope.

(** [try: body / except <catches> as e: handler e] *)
Definition try_except {S A} (body : ST S A) (catches : exn -> bool)
    (handler : exn -> ST S A) : ST S A :=
  fun s =>
    match body s with
    | (Raise e, s') => if catches e then handler e s' else (Raise e, s')
    | r => r
    end.

(** [try: body / finally: fin]: [fin] always runs; what it raises wins. *)
Definition try_finally {S A} (body : ST S A) (fin : ST S unit) : ST S A :=
  fun s =>
    let '(r, s') := body s in
    match fin s' with
    | (Return _, s'') => (r, s'')
    | (Raise e, s'') => (Raise e, s'')
    end.

(** [for x in l: body x] *)
Fixpoint for_each {S A} (l : list A) (body : A -> ST S unit) : ST S unit :=
  match l with
  | [] => ret tt
  | x :: l' => body x ;; for_each l' body
  end.

Definition when {S} (b : bool) (m : ST S unit) : ST S unit :=
  if b then m else ret tt.

Abbreviation Py := (ST world).

Definition print (line : string) : Py unit :=
  fun w => (Return tt, World (files w) (stdout w ++ [Printed line])).

Definition print_exn (before : string) (e : exn) (after : string) : Py unit :=
  fun w => (Return tt, World (files w) (stdout w ++ [PrintedExn before e after])).

Definition get_files : Py (gmap Path node) := fun w => (Return (files w), w).

Definition put_files (fs : gmap Path node) : Py unit :=
  fun w => (Return tt, World fs (stdout w)).

(* ===================================================================== *)
(** * The file system *)
(* ===================================================================== *)

Definition is_dir (fs : gmap Path node) (p : Path) : bool :=
  match fs !! p with
  | Some Dir => true
  | _ => false
  end.

Definition is_present (fs : gmap Path node) (p : Path) : bool :=
  match fs !! p with
  | Some _ => true
  | None => false
  end.

(** [p.exists()] *)
Definition path_exists (p : Path) : Py bool :=
  fun w => (Return (is_present (files w) p), w).

(** [p.unlink()] *)
Definition unlink (p : Path) : Py unit :=
  fun w =>
    match files w !! p with
    | None => (Raise (FileNotFoundError p), w)
    | Some Dir => (Raise (IsADirectoryError p), w)
    | Some (File _) => (Return tt, World (delete p (files w)) (stdout w))
    end.

(** Creation of a regular file at [p] by [open(p, 'wb')] or [p.touch()]:
    the directory that is to hold it must exist. *)
Definition create_file (p : Path) (c : content) : Py unit :=
  fun w =>
    match files w !! p with
    | Some Dir => (Raise (IsADirectoryError p), w)
    | Some (File _) => (Return tt, World (<[p := File c]> (files w)) (stdout w))
    | None =>
        match files w !! parent p with
        | Some Dir => (Return tt, World (<[p := File c]> (files w)) (stdout w))
        | Some (File _) => (Raise (NotADirectoryError p), w)
        | None => (Raise (FileNotFoundError p), w)
        end
    end.

(** [p.touch()]: an existing node is left as it is. *)
Definition touch (p : Path) : Py unit :=
  fun w =>
    match files w !! p with
    | Some _ => (Return tt, w)
    | None => create_file p (Blob []) w
    end.

(** [os.mkdir(p)] *)
Definition os_mkdir (fs : gmap Path node) (p : Path) : exn + gmap Path node :=
  match fs !! p with
  | Some _ => inl (FileExistsError p)
  | None =>
      match p with
      | [] => inl (FileNotFoundError p)
      | _ =>
          match fs !! parent p with
          | Some Dir => inr (<[p := Dir]> fs)
          | Some (File _) => inl (NotADirectoryError p)
          | None => inl (FileNotFoundError p)
          end
      end
  end.

(** [Path(rev rp).mkdir(parents=True, exist_ok=True)], by recursion on the
    reversed path as [pathlib] recurses on the parent. *)
Fixpoint mkdir_parents (fs : gmap Path node) (rp : list string) : exn + gmap Path node :=
  match os_mkdir fs (rev rp) with
  | inr fs' => inr fs'
  | inl (FileNotFoundError q) =>
      match rp with
      | [] => inl (FileNotFoundError q)
      | _ :: rp' =>
          match mkdir_parents fs rp' with
          | inl e => inl e
          | inr fs' =>
              match os_mkdir fs' (rev rp) with
              | inr fs'' => inr fs''
              | inl e => if is_dir fs' (rev rp) then inr fs' else inl e
              end
          end
      end
  | inl e => if is_dir fs (rev rp) then inr fs else inl e
  end.

(** [p.mkdir(parents=..., exist_ok=True)] *)
Definition mkdir_exist_ok (p : Path) (parents : bool) : Py unit :=
  fun w =>
    let r := if parents then mkdir_parents (files w) (rev p)
             else match os_mkdir (files w) p with
                  | inr fs' => inr fs'
                  | inl (FileNotFoundError q) => inl (FileNotFoundError q)
                  | inl e => if is_dir (files w) p then inr (files w) else inl e
                  end in
    match r with
    | inr fs' => (Return tt, World fs' (stdout w))
    | inl e => (Raise e, w)
    end.

(** The nodes at or below [p]. *)
Definition subtree (p : Path) (fs : gmap Path node) : gmap Path node :=
  filter (fun kv => p `prefix_of` kv.1) fs.

(** The nodes neither at nor below [p]. *)
Definition without_subtree (p : Path) (fs : gmap Path node) : gmap Path node :=
  filter (fun kv => ~ p `prefix_of` kv.1) fs.

(** [shutil.rmtree(p, ignore_errors=True)]: a directory goes with all it
    holds; anything else makes [rmtree] fail, silently, and stays. *)
Definition rmtree_ignore_errors (p : Path) : Py unit :=
  fun w =>
    if is_dir (files w) p
    then (Return tt, World (without_subtree p (files w)) (stdout w))
    else (Return tt, w).

(** The subtree of [src] re-rooted at [dst]. *)
Definition rebase (src dst : Path) (fs : gmap Path node) : gmap Path node :=
  list_to_map
    (map (fun kv : Path * node => (dst ++ drop (length src) kv.1, kv.2))
         (map_to_list (subtree src fs))).

Definition has_children (fs : gmap Path node) (p : Path) : bool :=
  existsb (fun k => bool_decide (p `prefix_of` k) && negb (bool_decide (k = p)))
          (map fst (map_to_list fs)).

(** POSIX [rename(2)], behind [os.replace(src, dst)] and [src.rename(dst)]. *)
Definition os_replace (src dst : Path) : Py unit :=
  fun w =>
    let fs := files w in
    match fs !! src with
    | None => (Raise (FileNotFoundError src), w)
    | Some n =>
        if bool_decide (src = dst) then (Return tt, w)
        else
          match fs !! parent dst with
          | None => (Raise (FileNotFoundError dst), w)
          | Some (File _) => (Raise (NotADirectoryError dst), w)
          | Some Dir =>
              match n, fs !! dst with
              | File c, Some Dir => (Raise (IsADirectoryError dst), w)
              | File c, _ =>
                  (Return tt, World (<[dst := File c]> (delete src fs)) (stdout w))
              | Dir, Some (File _) => (Raise (NotADirectoryError dst), w)
              | Dir, _ =>
                  if bool_decide (src `prefix_of` dst)
                  then (Raise (OSError "Invalid argument"), w)
                  else if has_children fs dst
                  then (Raise (DirectoryNotEmpty dst), w)
                  else (Return tt,
                        World (rebase src dst fs ∪ without_subtree src fs) (stdout w))
              end
          end
    end.

(** Every directory from [cur] down to the one that holds
    [cur ++ rest] exists, so a directory walk from [cur] reaches it. *)
Fixpoint walkable (fs : gmap Path node) (cur : Path) (rest : list string) : bool :=
  match rest with
  | [] => false
  | [_] => is_dir fs cur
  | s :: rest' => is_dir fs cur && walkable fs (cur ++ [s]) rest'
  end.

(** [root.rglob(pat)] for a pattern of one component: the nodes strictly
    below [root] that a walk reaches and whose name matches.  Python
    yields them in the order in which the operating system lists each
    directory; the model yields them in the order of the map's keys. *)
Definition rglob (fs : gmap Path node) (root : Path) (pat : string) : list Path :=
  List.filter
    (fun p => bool_decide (root `prefix_of` p)
              && walkable fs root (drop (length root) p)
              && PyStr.fnmatch pat (name p))
    (map fst (map_to_list fs)).

(** [dir.glob(pat)] for a pattern of one component: the matching nodes
    directly inside the directory [dir]. *)
Definition glob (fs : gmap Path node) (dir : Path) (pat : string) : list Path :=
  List.filter
    (fun p => negb (bool_decide (p = [])) && bool_decide (parent p = dir)
              && is_dir fs dir
              && PyStr.fnmatch pat (name p))
    (map fst (map_to_list fs)).

(* ===================================================================== *)
(** * The [wave] module *)
(* ===================================================================== *)

Module Wave.

(** A [Wave_read] object: the container and the read position in frames. *)
Record Wave_read := {
  wr_file : wav;
  wr_soundpos : Z
}.

Definition bytes_of_string (s : string) : list Byte.byte :=
  map byte_of_ascii (list_ascii_of_string s).

Fixpoint bytes_eqb (a b : list Byte.byte) : bool :=
  match a, b with
  | [], [] => true
  | x :: a', y :: b' => Byte.eqb x y && bytes_eqb a' b'
  | _, _ => false
  end.

(** The unsigned little-endian number a byte string holds. *)
Fixpoint le_value (b : list Byte.byte) : Z :=
  match b with
  | [] => 0
  | x :: b' => Z.of_N (Byte.to_N x) + 256 * le_value b'
  end.

(** What [wave.open(p, 'rb')] raises on bytes that are no PCM container:
    [EOFError] when the first chunk header is incomplete, [wave.Error]
    otherwise.  Of bytes that begin as a container does, the model does
    not tell the exact complaint. *)
Definition riff_error (b : list Byte.byte) : exn :=
  if Z.of_nat (length b) <? 8 then EOFError
  else if negb (bytes_eqb (take 4 b) (bytes_of_string "RIFF"))
  then WaveError "file does not start with RIFF id"
  else
    let chunksize := le_value (take 4 (drop 4 b)) in
    if negb (bytes_eqb (take (Z.to_nat (Z.min 4 chunksize)) (drop 8 b))
                       (bytes_of_string "WAVE"))
    then WaveError "not a WAVE file"
    else WaveError "fmt chunk and/or data chunk missing".

(** [wave.open(p, 'rb')]: [_read_fmt_chunk] refuses a sample width of
    zero, then a channel count of zero. *)
Definition open_rb (p : Path) : Py Wave_read :=
  fun w =>
    match files w !! p with
    | None => (Raise (FileNotFoundError p), w)
    | Some Dir => (Raise (IsADirectoryError p), w)
    | Some (File (Blob b)) => (Raise (riff_error b), w)
    | Some (File (WavData f)) =>
        if sampwidth f <=? 0 then (Raise (WaveError "bad sample width"), w)
        else if nchannels f <=? 0 then (Raise (WaveError "bad # of channels"), w)
        else (Return {| wr_file := f; wr_soundpos := 0 |}, w)
    end.

Definition framesize (f : wav) : Z := nchannels f * sampwidth f.

Definition getnchannels (r : Wave_read) : Z := nchannels (wr_file r).
Definition getsampwidth (r : Wave_read) : Z := sampwidth (wr_file r).
Definition getframerate (r : Wave_read) : Z := framerate (wr_file r).

(** The frame count is the size of the data chunk over the frame size. *)
Definition nframes (f : wav) : Z := Z.of_nat (length (frames f)) / framesize f.
Definition getnframes (r : Wave_read) : Z := nframes (wr_file r).

(** The reader only opens PCM, so the compression tag is constant. *)
Definition getcomptype (r : Wave_read) : string := "NONE".
Definition getcompname (r : Wave_read) : string := "not compressed".

(** [r.setpos(pos)] *)
Definition setpos (r : Wave_read) (pos : Z) : Py Wave_read :=
  if (pos <? 0) || (getnframes r <? pos)
  then raise (WaveError "position not in range")
  else ret {| wr_file := wr_file r; wr_soundpos := pos |}.

(** [r.readframes(n)]: at most [n] frames from the read position; a
    negative [n] reads to the end. *)
Definition readframes (r : Wave_read) (n : Z) : list Byte.byte :=
  let rest := drop (Z.to_nat (wr_soundpos r * framesize (wr_file r))) (frames (wr_file r)) in
  if n =? 0 then []
  else if n * framesize (wr_file r) <? 0 then rest
  else take (Z.to_nat (n * framesize (wr_file r))) rest.

(** A [Wave_write] object: the parameters set so far (0 when unset),
    [_nframes] and [_datalength], how often [RIFF] went out ahead of a
    header that [struct.pack] then refused, and the payload written once
    a header is out. *)
Record Wave_write := {
  ww_nchannels : Z;
  ww_sampwidth : Z;
  ww_framerate : Z;
  ww_nframes : Z;
  ww_datalength : Z;
  ww_riff : nat;
  ww_written : option (list Byte.byte)
}.

Definition fresh : Wave_write :=
  {| ww_nchannels := 0; ww_sampwidth := 0; ww_framerate := 0; ww_nframes := 0;
     ww_datalength := 0; ww_riff := 0; ww_written := None |}.

(** [_datawritten] *)
Definition datawritten (o : Wave_write) : Z :=
  Z.of_nat (length (default [] (ww_written o))).

(** [_datawritten] is not zero. *)
Definition started (o : Wave_write) : bool :=
  match ww_written o with
  | Some (_ :: _) => true
  | _ => false
  end.

Abbreviation WW := (ST Wave_write).

Definition setnchannels (n : Z) : WW unit :=
  fun o =>
    if started o
    then (Raise (WaveError "cannot change parameters after starting to write"), o)
    else if n <? 1 then (Raise (WaveError "bad # of channels"), o)
    else (Return tt, {| ww_nchannels := n; ww_sampwidth := ww_sampwidth o;
                        ww_framerate := ww_framerate o; ww_nframes := ww_nframes o;
                        ww_datalength := ww_datalength o; ww_riff := ww_riff o;
                        ww_written := ww_written o |}).

Definition setsampwidth (n : Z) : WW unit :=
  fun o =>
    if started o
    then (Raise (WaveError "cannot change parameters after starting to write"), o)
    else if (n <? 1) || (4 <? n) then (Raise (WaveError "bad sample width"), o)
    else (Return tt, {| ww_nchannels := ww_nchannels o; ww_sampwidth := n;
                        ww_framerate := ww_framerate o; ww_nframes := ww_nframes o;
                        ww_datalength := ww_datalength o; ww_riff := ww_riff o;
                        ww_written := ww_written o |}).

Definition setframerate (n : Z) : WW unit :=
  fun o =>
    if started o
    then (Raise (WaveError "cannot change parameters after starting to write"), o)
    else if n <=? 0 then (Raise (WaveError "bad frame rate"), o)
    else (Return tt, {| ww_nchannels := ww_nchannels o; ww_sampwidth := ww_sampwidth o;
                        ww_framerate := n; ww_nframes := ww_nframes o;
                        ww_datalength := ww_datalength o; ww_riff := ww_riff o;
                        ww_written := ww_written o |}).

Definition setcomptype (comptype compname : string) : WW unit :=
  fun o =>
    if started o
    then (Raise (WaveError "cannot change parameters after starting to write"), o)
    else if negb (String.eqb comptype "NONE")
    then (Raise (WaveError "unsupported compression type"), o)
    else (Return tt, o).

(** [struct.pack] takes [0 <= n < 2^bits] for an unsigned field of
    [bits] bits. *)
Definition fits (bits n : Z) : bool := (0 <=? n) && (n <? 2 ^ bits).

Definition ushort_msg : string := "ushort format requires 0 <= number <= 65535".
Definition ulong_msg : string := "'L' format requires 0 <= number <= 4294967295".

(** The complaint of [struct.pack('<L4s4sLHHLLHH4s', ...)] in
    [_write_header], if it has one: the first field, in the order of the
    format, that is out of range. *)
Definition header_error (nch sw rate datalength : Z) : option exn :=
  if negb (fits 32 (36 + datalength)) then Some (StructError ulong_msg)
  else if negb (fits 16 nch) then Some (StructError ushort_msg)
  else if negb (fits 32 rate) then Some (StructError ulong_msg)
  else if negb (fits 32 (nch * rate * sw)) then Some (StructError ulong_msg)
  else if negb (fits 16 (nch * sw)) then Some (StructError ushort_msg)
  else if negb (fits 16 (sw * 8)) then Some (StructError ushort_msg)
  else None.

(** [_write_header(initlength)]: [RIFF] goes out first; the frame count
    is taken from [initlength] unless an earlier call has set it. *)
Definition write_header (initlength : Z) : WW unit :=
  fun o =>
    let nframes :=
      if ww_nframes o =? 0
      then initlength / (ww_nchannels o * ww_sampwidth o)
      else ww_nframes o in
    let datalength := nframes * ww_nchannels o * ww_sampwidth o in
    match header_error (ww_nchannels o) (ww_sampwidth o) (ww_framerate o) datalength with
    | Some e =>
        (Raise e, {| ww_nchannels := ww_nchannels o; ww_sampwidth := ww_sampwidth o;
                     ww_framerate := ww_framerate o; ww_nframes := nframes;
                     ww_datalength := datalength; ww_riff := S (ww_riff o);
                     ww_written := None |})
    | None =>
        (Return tt, {| ww_nchannels := ww_nchannels o; ww_sampwidth := ww_sampwidth o;
                       ww_framerate := ww_framerate o; ww_nframes := nframes;
                       ww_datalength := datalength; ww_riff := ww_riff o;
                       ww_written := Some [] |})
    end.

(** [_ensure_header_written(datasize)]: all three parameters must be set. *)
Definition ensure_header_written (datasize : Z) : WW unit :=
  fun o =>
    match ww_written o with
    | Some _ => (Return tt, o)
    | None =>
        if ww_nchannels o =? 0 then (Raise (WaveError "# channels not specified"), o)
        else if ww_sampwidth o =? 0 then (Raise (WaveError "sample width not specified"), o)
        else if ww_framerate o =? 0 then (Raise (WaveError "sampling rate not specified"), o)
        else write_header datasize o
    end.

(** [_patchheader]: the two size fields are rewritten with what was
    written. *)
Definition patchheader : WW unit :=
  fun o =>
    if datawritten o =? ww_datalength o then (Return tt, o)
    else if negb (fits 32 (36 + datawritten o)) then (Raise (StructError ulong_msg), o)
    else (Return tt, {| ww_nchannels := ww_nchannels o; ww_sampwidth := ww_sampwidth o;
                        ww_framerate := ww_framerate o; ww_nframes := ww_nframes o;
                        ww_datalength := datawritten o; ww_riff := ww_riff o;
                        ww_written := ww_written o |}).

Definition writeframesraw (data : list Byte.byte) : WW unit :=
  (ensure_header_written (Z.of_nat (length data)) ;;
   fun o => (Return tt, {| ww_nchannels := ww_nchannels o; ww_sampwidth := ww_sampwidth o;
                           ww_framerate := ww_framerate o; ww_nframes := ww_nframes o;
                           ww_datalength := ww_datalength o; ww_riff := ww_riff o;
                           ww_written := Some (default [] (ww_written o) ++ data) |}))%py.

Definition writeframes (data : list Byte.byte) : WW unit :=
  (writeframesraw data ;;
   fun o => if ww_datalength o =? datawritten o then (Return tt, o) else patchheader o)%py.

(** [close()] before the file itself is closed. *)
Definition close : WW unit :=
  (ensure_header_written 0 ;;
   fun o => if ww_datalength o =? datawritten o then (Return tt, o) else patchheader o)%py.

Definition byte_of_Z (n : Z) : Byte.byte :=
  default Byte.x00 (Byte.of_N (Z.to_N (n mod 256))).

(** [n] in [k] bytes, little-endian *)
Fixpoint le_bytes (k : nat) (n : Z) : list Byte.byte :=
  match k with
  | O => []
  | S k' => byte_of_Z n :: le_bytes k' (n / 256)
  end.

(** The 44 bytes of a header. *)
Definition header_bytes (nch sw rate datalength : Z) : list Byte.byte :=
  bytes_of_string "RIFF" ++ le_bytes 4 (36 + datalength)
  ++ bytes_of_string "WAVEfmt " ++ le_bytes 4 16 ++ le_bytes 2 1
  ++ le_bytes 2 nch ++ le_bytes 4 rate ++ le_bytes 4 (nch * rate * sw)
  ++ le_bytes 2 (nch * sw) ++ le_bytes 2 (sw * 8)
  ++ bytes_of_string "data" ++ le_bytes 4 datalength.

(** What the file holds: nothing but the [RIFF]s of refused headers
    while no header is out; then a container whose data chunk has the
    size the header gives, unless [RIFF]s of refused headers precede the
    header, which leaves bytes that are no container. *)
Definition written_file (o : Wave_write) : content :=
  let riffs := concat (replicate (ww_riff o) (bytes_of_string "RIFF")) in
  match ww_written o with
  | None => Blob riffs
  | Some d =>
      match ww_riff o with
      | O => WavData {| nchannels := ww_nchannels o; sampwidth := ww_sampwidth o;
                        framerate := ww_framerate o;
                        frames := take (Z.to_nat (ww_datalength o)) d |}
      | _ => Blob (riffs ++ header_bytes (ww_nchannels o) (ww_sampwidth o) (ww_framerate o)
                                         (ww_datalength o) ++ d)
      end
  end.

(** [with wave.open(p, 'wb') as outfile: body]: the file is created
    empty; leaving the block closes the writer, which writes the header
    if [body] left it unwritten, and what closing raises wins. *)
Definition with_open_wb (p : Path) (body : WW unit) : Py unit :=
  (create_file p (Blob []) ;;
   fun w =>
     let '(r, o) := body fresh in
     let '(rc, o') := close o in
     let w' := World (<[p := File (written_file o')]> (files w)) (stdout w) in
     match rc with
     | Raise e => (Raise e, w')
     | Return _ => (r, w')
     end)%py.

End Wave.

(* ===================================================================== *)
(** * [apply_offset] *)
(* ===================================================================== *)

(** [int(framerate * abs(delay_ms) / 1000.0)] *)
Definition offset_frames (framerate delay_ms : Z) : outcome Z :=
  match Float64.float_of_int (framerate * Z.abs delay_ms) with
  | S754_infinity _ => Raise (OverflowError "int too large to convert to float")
  | x =>
      match Float64.int_of_float (SFdiv Float64.prec Float64.emax x Float64.f1000) with
      | Some n => Return n
      | None => Raise (OverflowError "cannot convert float infinity to integer")
      end
  end.

(** [b * n] for a byte string [b] *)
Definition bytes_mul (b : list Byte.byte) (n : Z) : list Byte.byte :=
  concat (replicate (Z.to_nat n) b).

Definition lift {S A} (r : outcome A) : ST S A := fun s => (r, s).

Definition apply_offset (input_wav output_wav : Path) (delay_ms : Z) : Py unit :=
  (infile <- Wave.open_rb input_wav ;;
   let channels := Wave.getnchannels infile in
   let sampwidth := Wave.getsampwidth infile in
   let framerate := Wave.getframerate infile in
   let total_frames := Wave.getnframes infile in
   let comptype := Wave.getcomptype infile in
   let compname := Wave.getcompname infile in
   offset_frames <- lift (offset_frames framerate delay_ms) ;;
   audio_data <-
     (if delay_ms <? 0 then
        if total_frames <=? offset_frames then
          raise (ValueError ("Cannot trim " +:+ pretty delay_ms +:+ " ms; file is too short."))
        else
          infile <- Wave.setpos infile offset_frames ;;
          ret (Wave.readframes infile (total_frames - offset_frames))
      else if 0 <? delay_ms then
        let silence := bytes_mul (bytes_mul (bytes_mul [Byte.x00] offset_frames) channels) sampwidth in
        let audio_data := Wave.readframes infile total_frames in
        ret (silence ++ audio_data)
      else
        ret (Wave.readframes infile total_frames)) ;;
   Wave.with_open_wb output_wav
     (Wave.setnchannels channels ;;
      Wave.setsampwidth sampwidth ;;
      Wave.setframerate framerate ;;
      Wave.setcomptype comptype compname ;;
      Wave.writeframes audio_data))%py.

(* ===================================================================== *)
(** * [gather_vgs_files] *)
(* ===================================================================== *)

(** The pattern [_p\d{2}$] matched at the start of [s]: [$] is the end of
    the string, or the place before a line feed that ends the string. *)
Definition match_practice_here (s : string) : bool :=
  match s with
  | String "_" (String "p" (String d1 (String d2 rest))) =>
      PyStr.is_digit d1 && PyStr.is_digit d2
      && match rest with
         | EmptyString => true
         | String c EmptyString => Ascii.eqb c (ascii_of_N 10)
         | _ => false
         end
  | _ => false
  end.

(** [re.search(r'_p\d{2}$', s)] as a truth value *)
Fixpoint re_search_practice (s : string) : bool :=
  match_practice_here s
  || match s with
     | EmptyString => false
     | String _ s' => re_search_practice s'
     end.

(** [x in l] for a list of strings *)
Definition str_in (x : string) (l : list string) : bool := existsb (String.eqb x) l.

(** The body of the loop: [None] is [continue], [Some] is [append]. *)
Definition keep_vgs (vgs_path : Path) : bool :=
  let parts_lower := map PyStr.lower (parts vgs_path) in
  let stem_lower := PyStr.lower (stem vgs_path) in
  if str_in "tutorial" parts_lower || str_in "sfx" parts_lower then false
  else if negb (str_in "songs" parts_lower) then false
  else if re_search_practice stem_lower then false
  else true.

Fixpoint gather_loop (all_vgs filtered : list Path) : list Path :=
  match all_vgs with
  | [] => filtered
  | vgs_path :: rest =>
      if keep_vgs vgs_path then gather_loop rest (filtered ++ [vgs_path])
      else gather_loop rest filtered
  end.

Definition gather_vgs_files (root_dir : Path) : Py (list Path) :=
  (fs <- get_files ;;
   let all_vgs := rglob fs root_dir "*.vgs" in
   ret (gather_loop all_vgs []))%py.

(** [p.with_name(n)]: a path without a name has none to replace. *)
Definition with_name {S} (p : Path) (n : string) : ST S Path :=
  if String.eqb (name p) "" then raise (ValueError "path has an empty name")
  else ret (parent p ++ [n]).

(* ===================================================================== *)
(** * The pipeline *)
(* ===================================================================== *)

Record args := {
  delay : option Z;
  skip : bool
}.

Section Pipeline.

(** The external programs: exit status and the file system left. *)
Variable system : command -> gmap Path node -> Z * gmap Path node.

(** The disc-authoring step that ends a run. *)
Variable build_iso : Path -> Path -> Py unit.

(** [subprocess.run(argv c, check=True)] *)
Definition subprocess_run (c : command) : Py unit :=
  fun w =>
    match files w !! executable c with
    | None => (Raise (FileNotFoundError (executable c)), w)
    | Some Dir => (Raise (PermissionError (executable c)), w)
    | Some (File _) =>
        let '(rc, fs') := system c (files w) in
        let w' := World fs' (stdout w ++ [Ran c]) in
        if rc =? 0 then (Return tt, w') else (Raise (CalledProcessError c rc), w')
    end.

(** The [try] block of [process_vgs_files]. *)
Definition convert_steps (vgs_path temp_wav processed_wav temp_vgs : Path)
    (delay_ms : Z) (rockaudio : Path) : Py unit :=
  (print "  Converting to WAV..." ;;
   subprocess_run (Convert rockaudio vgs_path temp_wav) ;;
   print ("  Applying delay: " +:+ pretty delay_ms +:+ " ms") ;;
   apply_offset temp_wav processed_wav delay_ms ;;
   print "  Converting back to VGS..." ;;
   subprocess_run (Convert rockaudio processed_wav temp_vgs) ;;
   print "  Replacing original VGS..." ;;
   os_replace temp_vgs vgs_path)%py.

(** The [finally] block of [process_vgs_files]. *)
Definition remove_temp_wavs (temp_wav processed_wav : Path) : Py unit :=
  (b <- path_exists temp_wav ;;
   when b (unlink temp_wav) ;;
   b <- path_exists processed_wav ;;
   when b (unlink processed_wav))%py.

(** One turn of the loop of [process_vgs_files]. *)
Definition process_vgs_file (vgs_path : Path) (delay_ms : Z) (rockaudio : Path) : Py unit :=
  (print (PyStr.nl +:+ "Processing " +:+ path_str vgs_path) ;;
   print (PyStr.nl +:+ "--- THIS WILL TAKE SOME TIME ---") ;;
   print (PyStr.nl +:+ "--- DO NOT CLOSE THIS WINDOW ---" +:+ PyStr.nl) ;;
   temp_wav <- with_name vgs_path (stem vgs_path +:+ "_temp.wav") ;;
   processed_wav <- with_name vgs_path (stem vgs_path +:+ "_temp_processed.wav") ;;
   temp_vgs <- with_name vgs_path (stem vgs_path +:+ "_temp.vgs") ;;
   try_finally
     (try_except
        (convert_steps vgs_path temp_wav processed_wav temp_vgs delay_ms rockaudio)
        is_Exception
        (fun e => print_exn "  Error: " e ""))
     (remove_temp_wavs temp_wav processed_wav))%py.

Definition process_vgs_files (root_dir : Path) (delay_ms : Z) (rockaudio : Path) : Py unit :=
  (vgs_files <- gather_vgs_files root_dir ;;
   match vgs_files with
   | [] => print ("No eligible .vgs files found in " +:+ path_str root_dir +:+ ".")
   | _ => for_each vgs_files (fun vgs_path => process_vgs_file vgs_path delay_ms rockaudio)
   end)%py.

Definition extract_ark (hdr_path arkhelper temp_dir : Path) : Py unit :=
  (print ("Extracting from " +:+ path_str hdr_path +:+ " to " +:+ path_str temp_dir) ;;
   mkdir_exist_ok temp_dir true ;;
   subprocess_run (Ark2Dir arkhelper hdr_path temp_dir) ;;
   let marker_file := joinpath temp_dir "ark.txt" in
   b <- path_exists marker_file ;;
   when (negb b) (touch marker_file))%py.

Definition repack_ark (temp_dir hdr_folder arkhelper : Path) : Py unit :=
  (let marker_file := joinpath temp_dir "ark.txt" in
   b <- path_exists marker_file ;;
   if negb b then
     print ("Skipping repack in " +:+ path_str temp_dir +:+ "; marker file 'ark.txt' not found.")
   else
     print ("Repacking from " +:+ path_str temp_dir +:+ " into " +:+ path_str hdr_folder) ;;
     subprocess_run (Dir2Ark arkhelper temp_dir hdr_folder "MAIN" "4073741823"))%py.

(** One turn of the loop of [extract_any_isos]. *)
Definition extract_iso (main_folder seven_z processed_folder iso_file : Path) : Py unit :=
  (if bool_decide (parent iso_file = processed_folder) then ret tt
   else
     print (PyStr.nl +:+ "Detected ISO: " +:+ name iso_file) ;;
     print "Extracting contents directly into the main folder (no subfolder)..." ;;
     extracted <-
       try_except
         (subprocess_run (SevenZipX seven_z iso_file main_folder) ;; ret true)
         is_Exception
         (fun e =>
            match e with
            | CalledProcessError _ returncode =>
                print ("[ERROR] Extraction of " +:+ path_str iso_file
                       +:+ " failed with return code " +:+ pretty returncode)
            | ex =>
                print_exn ("[ERROR] Unexpected error extracting " +:+ path_str iso_file +:+ ": ")
                          ex ""
            end ;;
            ret false) ;;
     if negb extracted then ret tt
     else
       let target := joinpath processed_folder (name iso_file) in
       os_replace iso_file target ;;
       print ("Moved original ISO to: " +:+ path_str target +:+ PyStr.nl))%py.

Definition extract_any_isos (main_folder seven_z : Path) : Py unit :=
  (b <- path_exists seven_z ;;
   if negb b then
     print ("[WARN] 7z.exe not found at " +:+ path_str seven_z +:+ "; cannot extract ISO files.")
   else
     let processed_folder := joinpath main_folder "_processed_original_isos" in
     mkdir_exist_ok processed_folder false ;;
     fs <- get_files ;;
     for_each (glob fs main_folder "*.iso")
              (extract_iso main_folder seven_z processed_folder))%py.

(** One turn of the loop of [main] over the archive headers. *)
Definition process_hdr (hdr_path arkhelper rockaudio : Path) (delay_ms : Z) : Py unit :=
  (let hdr_folder := parent hdr_path in
   fs <- get_files ;;
   let ark_candidates := glob fs hdr_folder "MAIN*.ARK" in
   match ark_candidates with
   | [] => ret tt
   | _ =>
       let temp_out := joinpath hdr_folder "temp_out" in
       print (PyStr.nl +:+ "Extracting ARK from " +:+ path_str hdr_path
              +:+ " to apply VGS processing in " +:+ path_str hdr_folder +:+ " ...") ;;
       extract_ark hdr_path arkhelper temp_out ;;
       print (PyStr.nl +:+ "--- Processing VGS files in extracted ARK ---") ;;
       process_vgs_files temp_out delay_ms rockaudio ;;
       print (PyStr.nl +:+ "--- Repacking ARK with updated VGS ---") ;;
       repack_ark temp_out hdr_folder arkhelper ;;
       rmtree_ignore_errors temp_out
   end)%py.

(** The delay: the command-line value, or the operator's answer to the
    prompt ([stdin_line] is the line [input] returns). *)
Definition read_delay (a : args) (stdin_line : string) : Py Z :=
  match delay a with
  | None =>
      (print (PyStr.nl +:+ "PS2 Guitar Hero Sync Utility (resyncinator) by jnack") ;;
       print "Use negative values to trim the start (counter PS2/PCSX2 delay)." ;;
       print "Use positive values to add silence at the start." ;;
       (fun w => (Return tt,
                  World (files w) (stdout w ++ [Prompted "Enter delay (ms) [default: -60]: "]))) ;;
       let raw_input_val := PyStr.strip stdin_line in
       if String.eqb raw_input_val "" then ret (-60)
       else
         match PyStr.parse_int raw_input_val with
         | Some delay_ms => ret delay_ms
         | None => print "Invalid numeric value for delay." ;; raise (SystemExit 1)
         end)%py
  | Some d => ret d
  end.

Definition main (a : args) (script_dir : Path) (stdin_line : string) : Py unit :=
  (let dep_dir := joinpath script_dir "z_dependencies" in
   let rockaudio := joinpath dep_dir "RockAudio.exe" in
   let arkhelper := joinpath dep_dir "arkhelper.exe" in
   let seven_z := joinpath dep_dir "7z.exe" in
   let root_path := joinpath script_dir "main" in
   b <- path_exists root_path ;;
   (if negb b then
      print ("[ERROR] The 'main' folder does not exist at: " +:+ path_str root_path) ;;
      raise (SystemExit 1)
    else ret tt) ;;
   delay_ms <- read_delay a stdin_line ;;
   extract_any_isos root_path seven_z ;;
   if skip a then
     print "Skipping all VGS extraction/offset processing." ;;
     build_iso root_path dep_dir ;;
     raise (SystemExit 0)
   else
     fs <- get_files ;;
     let main_hdrs := rglob fs root_path "MAIN.HDR" in
     for_each main_hdrs (fun hdr_path => process_hdr hdr_path arkhelper rockaudio delay_ms) ;;
     print (PyStr.nl +:+ "----- Processing VGS files in main folder (non-ARK) -----") ;;
     process_vgs_files root_path delay_ms rockaudio ;;
     build_iso root_path dep_dir ;;
     print (PyStr.nl +:+ "Done."))%py.

End Pipeline.

(* ===================================================================== *)
(** * Helpers of the disc-authoring step *)
(* ===================================================================== *)

(** The loop of [parse_system_cnf_for_label] over the lines of the file. *)
Fixpoint parse_boot2_lines (file_lines : list string) : string :=
  match file_lines with
  | [] => ""
  | line :: rest =>
      let line := PyStr.strip line in
      if PyStr.startswith (PyStr.upper line) "BOOT2" then
        let parts := PyStr.split_on (ascii_of_N 92) line in
        if (1 <? length parts)%nat then
          let remainder := hd "" (PyStr.split_on ";" (List.last parts "")) in
          PyStr.strip remainder
        else parse_boot2_lines rest
      else parse_boot2_lines rest
  end.

Section BootDescriptor.

(** The text Python reads from a file opened with
    [encoding="utf-8", errors="ignore"]: the decoded characters, with
    every line end translated to a line feed. *)
Variable read_text : content -> string.

Definition parse_system_cnf_for_label (system_cnf : Path) : Py string :=
  (b <- path_exists system_cnf ;;
   if negb b then ret ""
   else
     fun w =>
       match files w !! system_cnf with
       | Some (File c) => (Return (parse_boot2_lines (PyStr.lines (read_text c))), w)
       | Some Dir => (Raise (IsADirectoryError system_cnf), w)
       | None => (Raise (FileNotFoundError system_cnf), w)
       end)%py.

End BootDescriptor.

Definition cleanup_build_iso (main_folder : Path) : Py unit :=
  (let imgburn_exe_dest := joinpath main_folder "imgburn.exe" in
   let imgburn_ini_dest := joinpath main_folder "imgburn.ini" in
   b <- path_exists imgburn_exe_dest ;;
   when b (unlink imgburn_exe_dest) ;;
   b <- path_exists imgburn_ini_dest ;;
   when b (unlink imgburn_ini_dest) ;;
   let delete_me_path := joinpath main_folder "DELETEME" in
   b <- path_exists delete_me_path ;;
   when b (unlink delete_me_path) ;;
   let dvd_sectors := joinpath (parent main_folder) "DVD_Sectors.Bin" in
   b <- path_exists dvd_sectors ;;
   when b (unlink dvd_sectors))%py.

(* ===================================================================== *)
(** * Notions used to state the properties *)
(* ===================================================================== *)

(** A PCM container whose parameters the [wave] writer takes: at least
    one channel, samples of one to four bytes, a positive frame rate. *)
Definition writable (f : wav) : Prop :=
  1 <= nchannels f /\ 1 <= sampwidth f <= 4 /\ 1 <= framerate f.

(** A PCM container the [wave] module reads and writes back: at least one
    channel, samples of one to four bytes, a positive frame rate, and a
    data chunk of whole frames. *)
Definition pcm_ok (f : wav) : Prop :=
  1 <= nchannels f /\ 1 <= sampwidth f <= 4 /\ 1 <= framerate f
  /\ Z.of_nat (length (frames f)) = Wave.nframes f * Wave.framesize f.

(** The header fields [wave] writes for these parameters and
    [datalength] bytes of payload are in the range of their types: the
    RIFF size, the channel count, the frame rate, the byte rate and the
    block size. *)
Definition fields_fit (nch sw rate datalength : Z) : Prop :=
  36 + datalength < 2 ^ 32
  /\ nch < 2 ^ 16
  /\ rate < 2 ^ 32
  /\ nch * rate * sw < 2 ^ 32
  /\ nch * sw < 2 ^ 16.

(** The bytes of the frames [a], ..., [b - 1] of a container. *)
Definition frame_range (f : wav) (a b : Z) : list Byte.byte :=
  take (Z.to_nat ((b - a) * Wave.framesize f))
       (drop (Z.to_nat (a * Wave.framesize f)) (frames f)).

(** [open(p, 'wb')] succeeds: [p] is a file, or is absent from an
    existing directory. *)
Definition can_create (fs : gmap Path node) (p : Path) : bool :=
  match fs !! p with
  | Some Dir => false
  | Some (File _) => true
  | None => is_dir fs (parent p)
  end.

(** The events of a run that start an external program. *)
Definition is_ran (e : event) : bool :=
  match e with
  | Ran _ => true
  | _ => false
  end.

(** The write block of [apply_offset] for a source container [f]. *)
Definition copy_out (dst : Path) (f : wav) (data : list Byte.byte) : Py unit :=
  Wave.with_open_wb dst
    (Wave.setnchannels (nchannels f) ;; Wave.setsampwidth (sampwidth f) ;;
     Wave.setframerate (framerate f) ;;
     Wave.setcomptype "NONE" "not compressed" ;; Wave.writeframes data).

(** Following the spec's words: the string "ends with [_p] followed by
    exactly two digits". *)
Definition ends_with_practice_tag (s : string) : bool :=
  match rev (list_ascii_of_string s) with
  | d2 :: d1 :: p :: u :: _ =>
      Ascii.eqb u "_" && Ascii.eqb p "p" && PyStr.is_digit d1 && PyStr.is_digit d2
  | _ => false
  end.

(** The world after one more printed line. *)
Definition printed (w : world) (line : string) : world :=
  World (files w) (stdout w ++ [Printed line]).

(** A computation raises nothing but exceptions that satisfy [P]. *)
Definition raises_only {S A} (P : exn -> Prop) (m : ST S A) : Prop :=
  forall s e s', m s = (Raise e, s') -> P e.

(** The contract of the codec: [convert src dst] changes no node other
    than [dst], where it leaves what was there or a regular file. *)
Definition codec_writes_only_dst
    (system : command -> gmap Path node -> Z * gmap Path node) : Prop :=
  forall exe src dst fs,
    (forall p, p <> dst -> (system (Convert exe src dst) fs).2 !! p = fs !! p)
    /\ ((system (Convert exe src dst) fs).2 !! dst = fs !! dst
        \/ exists c, (system (Convert exe src dst) fs).2 !! dst = Some (File c)).

(** The three temporary paths [process_vgs_files] derives from a track. *)
Definition temp_wav_of (vgs_path : Path) : Path :=
  parent vgs_path ++ [stem vgs_path +:+ "_temp.wav"].
Definition processed_wav_of (vgs_path : Path) : Path :=
  parent vgs_path ++ [stem vgs_path +:+ "_temp_processed.wav"].
Definition temp_vgs_of (vgs_path : Path) : Path :=
  parent vgs_path ++ [stem vgs_path +:+ "_temp.vgs"].

(** The string without the line feed that ends it, if one does. *)
Fixpoint strip_final_newline (s : string) : string :=
  match s with
  | EmptyString => EmptyString
  | String c EmptyString => if Ascii.eqb c (ascii_of_N 10) then EmptyString else s
  | String c s' => String c (strip_final_newline s')
  end.

(** The four paths [cleanup_build_iso] clears. *)
Definition build_leftovers (main_folder : Path) : list Path :=
  [joinpath main_folder "imgburn.exe";
   joinpath main_folder "imgburn.ini";
   joinpath main_folder "DELETEME";
   joinpath (parent main_folder) "DVD_Sectors.Bin"].

(** [c in s] for a character and a string. *)
Fixpoint has_char (c : ascii) (s : string) : bool :=
  match s with
  | EmptyString => false
  | String a s' => Ascii.eqb c a || has_char c s'
  end.

(** The separator of the path inside a [BOOT2] line. *)
Definition backslash : ascii := ascii_of_N 92.

(** The world once one turn of the loop of [process_vgs_files] has
    printed its three opening lines. *)
Definition announced (w : world) (vgs_path : Path) : world :=
  printed
    (printed
       (printed w (PyStr.nl +:+ "Processing " +:+ path_str vgs_path))
       (PyStr.nl +:+ "--- THIS WILL TAKE SOME TIME ---"))
    (PyStr.nl +:+ "--- DO NOT CLOSE THIS WINDOW ---" +:+ PyStr.nl).

(** What the [except] clauses of [extract_any_isos] print for [e]. *)
Definition extraction_error (iso_file : Path) (e : exn) : event :=
  match e with
  | CalledProcessError _ returncode =>
      Printed ("[ERROR] Extraction of " +:+ path_str iso_file
               +:+ " failed with return code " +:+ pretty returncode)
  | ex =>
      PrintedExn ("[ERROR] Unexpected error extracting " +:+ path_str iso_file +:+ ": ") ex ""
  end.

(** The world at the prompt for the delay. *)
Definition prompted (w : world) : world :=
  let w3 :=
    printed
      (printed
         (printed w (PyStr.nl +:+ "PS2 Guitar Hero Sync Utility (resyncinator) by jnack"))
         "Use negative values to trim the start (counter PS2/PCSX2 delay).")
      "Use positive values to add silence at the start." in
  World (files w3) (stdout w3 ++ [Prompted "Enter delay (ms) [default: -60]: "]).
(* ===================================================================== *)
(** * Worlds used as examples *)
(* ===================================================================== *)

(** Ten frames of 16-bit mono at 1000 frames per second. *)
Definition demo_wav : wav :=
  Wav 1 2 1000
    [Byte.x01; Byte.x02; Byte.x03; Byte.x04; Byte.x05; Byte.x06; Byte.x07;
     Byte.x08; Byte.x09; Byte.x0a; Byte.x0b; Byte.x0c; Byte.x0d; Byte.x0e;
     Byte.x0f; Byte.x10; Byte.x11; Byte.x12; Byte.x13; Byte.x14].

Definition demo_fs : gmap Path node :=
  list_to_map [([], Dir); (["a"], Dir); (["a"; "in.wav"], File (WavData demo_wav))].

Definition demo_world : world := World demo_fs [].

(** A script directory [/app] with both archive tools, and a working
    root [/app/main] that holds two archive units, [d1] and [d2]. *)
Definition two_units_fs : gmap Path node :=
  list_to_map
    [([], Dir);
     (["app"], Dir);
     (["app"; "z_dependencies"], Dir);
     (["app"; "z_dependencies"; "arkhelper.exe"], File (Blob []));
     (["app"; "z_dependencies"; "RockAudio.exe"], File (Blob []));
     (["app"; "main"], Dir);
     (["app"; "main"; "d1"], Dir);
     (["app"; "main"; "d1"; "MAIN.HDR"], File (Blob []));
     (["app"; "main"; "d1"; "MAIN_0.ARK"], File (Blob []));
     (["app"; "main"; "d2"], Dir);
     (["app"; "main"; "d2"; "MAIN.HDR"], File (Blob []));
     (["app"; "main"; "d2"; "MAIN_0.ARK"], File (Blob []))].

(** An archive tool whose unpack operation exits with status 1 and
    touches nothing; every other program succeeds and touches nothing. *)
Definition failing_unpack (c : command) (fs : gmap Path node) : Z * gmap Path node :=
  match c with
  | Ark2Dir _ _ _ => (1, fs)
  | _ => (0, fs)
  end.

(** A disc-authoring step that does nothing. *)
Definition no_build_iso (main_folder dep_dir : Path) : Py unit := ret tt.

(** Programs that all exit with status 1 and touch nothing. *)
Definition failing_system (c : command) (fs : gmap Path node) : Z * gmap Path node := (1, fs).

(** A tree with one track whose stem ends in a line feed. *)
Definition newline_fs : gmap Path node :=
  list_to_map
    [([], Dir);
     (["songs"], Dir);
     (["songs"; "a_p50" +:+ PyStr.nl +:+ ".vgs"], File (Blob []))].

(** The tree of the discovery scenario: a track and its practice variant. *)
Definition scenario_fs : gmap Path node :=
  list_to_map
    [([], Dir);
     (["root"], Dir);
     (["root"; "songs"], Dir);
     (["root"; "songs"; "track1.vgs"], File (Blob []));
     (["root"; "songs"; "track1_p50.vgs"], File (Blob []))].

(** A working root with one loose track and no tool binary at all. *)
Definition no_tools_fs : gmap Path node :=
  list_to_map
    [([], Dir);
     (["app"], Dir);
     (["app"; "main"], Dir);
     (["app"; "main"; "songs"], Dir);
     (["app"; "main"; "songs"; "track1.vgs"], File (Blob []))].

(** A codec that turns any file into a one-byte track and any track, or
    other bytes, into [demo_wav]; it fails when the source is missing. *)
Definition demo_codec (c : command) (fs : gmap Path node) : Z * gmap Path node :=
  match c with
  | Convert _ src dst =>
      match fs !! src with
      | Some (File (WavData _)) => (0, <[dst := File (Blob [Byte.x2a])]> fs)
      | Some (File (Blob _)) => (0, <[dst := File (WavData demo_wav)]> fs)
      | _ => (1, fs)
      end
  | _ => (1, fs)
  end.

(** One track under [songs], and the codec binary. *)
Definition track_fs : gmap Path node :=
  list_to_map
    [([], Dir);
     (["bin"], Dir);
     (["bin"; "RockAudio.exe"], File (Blob []));
     (["songs"], Dir);
     (["songs"; "t.vgs"], File (Blob [Byte.x00]))].

(** Programs that all exit with status 0 and touch nothing. *)
Definition succeeding_system (c : command) (fs : gmap Path node) : Z * gmap Path node := (0, fs).

(** A working root with one disc image, the processed folder, and [7z]. *)
Definition iso_fs : gmap Path node :=
  list_to_map
    [([], Dir);
     (["7z.exe"], File (Blob []));
     (["main"], Dir);
     (["main"; "_processed_original_isos"], Dir);
     (["main"; "game.iso"], File (Blob [Byte.x01]))].

(** The world once [7z] has run on that image. *)
Definition iso_extracted : world :=
  World iso_fs
    [Printed (PyStr.nl +:+ "Detected ISO: game.iso");
     Printed "Extracting contents directly into the main folder (no subfolder)...";
     Ran (SevenZipX ["7z.exe"] ["main"; "game.iso"] ["main"])].

(** Containers with samples wider than four bytes, which [wave] reads:
    two frames of one 40-bit sample, two frames of two 64-bit samples,
    two frames of one 48-bit sample. *)
Definition wav_40bit : wav :=
  Wav 1 5 1000
    [Byte.x01; Byte.x02; Byte.x03; Byte.x04; Byte.x05;
     Byte.x06; Byte.x07; Byte.x08; Byte.x09; Byte.x0a].

Definition wav_64bit : wav :=
  Wav 2 8 48000 (replicate 32 Byte.x07).

Definition wav_48bit : wav :=
  Wav 1 6 44100 (replicate 12 Byte.x09).

Definition wide_fs : gmap Path node :=
  list_to_map
    [([], Dir);
     (["a"], Dir);
     (["a"; "in40.wav"], File (WavData wav_40bit));
     (["a"; "in64.wav"], File (WavData wav_64bit));
     (["a"; "in48.wav"], File (WavData wav_48bit))].

(** A working root [/work/main] after an ISO build: the three leftovers
    inside it, the sector file beside it, and the boot descriptor. *)
Definition leftovers_fs : gmap Path node :=
  list_to_map
    [([], Dir);
     (["work"], Dir);
     (["work"; "DVD_Sectors.Bin"], File (Blob [Byte.x00]));
     (["work"; "main"], Dir);
     (["work"; "main"; "imgburn.exe"], File (Blob [Byte.x4d; Byte.x5a]));
     (["work"; "main"; "imgburn.ini"], File (Blob []));
     (["work"; "main"; "DELETEME"], File (Blob [Byte.x31]));
     (["work"; "main"; "SYSTEM.CNF"], File (Blob [Byte.x42]))].

(** Two tracks under [songs], one of them named as the temporary track
    of the other, and the codec binary. *)
Definition clash_fs : gmap Path node :=
  list_to_map
    [([], Dir);
     (["bin"], Dir);
     (["bin"; "RockAudio.exe"], File (Blob []));
     (["songs"], Dir);
     (["songs"; "t.vgs"], File (Blob [Byte.x00]));
     (["songs"; "t_temp.vgs"], File (Blob [Byte.x01]))].
(* ===================================================================== *)
(** * Facts about binary64 division by 1000 *)
(* ===================================================================== *)

Lemma digits2_pos_log2 p : Zpos (digits2_pos p) = Z.log2 (Zpos p) + 1.
Proof.
  induction p as [p IH|p IH|]; simpl digits2_pos; try rewrite Pos2Z.inj_succ, IH.
  - rewrite Pos2Z.inj_xI, Z.log2_succ_double by lia. lia.
  - rewrite Pos2Z.inj_xO, Z.log2_double by lia. lia.
  - reflexivity.
Qed.

Lemma digits2_pos_bounds p d :
  Zpos (digits2_pos p) = d <-> 2 ^ (d - 1) <= Zpos p < 2 ^ d.
Proof.
  rewrite digits2_pos_log2. split.
  - intros <-. replace (Z.log2 (Z.pos p) + 1 - 1) with (Z.log2 (Z.pos p)) by lia.
    pose proof (Z.log2_spec (Zpos p)). lia.
  - intros H. assert (0 <= d - 1).
    { destruct (Z_lt_le_dec (d - 1) 0) as [Hn|]; [|lia].
      assert (d <= 0) by lia. destruct H as [_ H].
      assert (2 ^ d <= 2 ^ 0) by (apply Z.pow_le_mono_r; lia). simpl in *. lia. }
    replace d with (Z.succ (d - 1)) in H at 2 by lia.
    apply Z.log2_unique in H; lia.
Qed.

Lemma iter_xO_spec p k : Zpos (Pos.iter xO p k) = Zpos p * 2 ^ Zpos k.
Proof.
  revert p. induction k using Pos.peano_ind; intros p.
  - simpl. lia.
  - rewrite Pos.iter_succ, Pos2Z.inj_xO, IHk, Pos2Z.inj_succ, Z.pow_succ_r by lia. lia.
Qed.

Lemma loc_of_shr_record_of_loc m l :
  loc_of_shr_record (shr_record_of_loc m l) = l.
Proof. destruct l as [|[]]; reflexivity. Qed.

Lemma shr_m_of_loc m l : shr_m (shr_record_of_loc m l) = m.
Proof. destruct l as [|[]]; reflexivity. Qed.

(* a mantissa of exactly 53 digits is not shifted *)
Lemma shr_fexp_53 m e l :
  Zpos (digits2_pos m) = 53 -> -1074 <= e ->
  shr_fexp 53 1024 (Zpos m) e l = (shr_record_of_loc (Zpos m) l, e).
Proof.
  intros Hd He. unfold shr_fexp. cbn [Zdigits2]. rewrite Hd.
  unfold fexp, emin.
  replace (Z.max (53 + e - 53) (3 - 1024 - 53) - e) with 0 by lia. reflexivity.
Qed.

Lemma shr_fexp_54 m e l :
  Zpos (digits2_pos m) = 54 -> -1074 <= e ->
  shr_fexp 53 1024 (Zpos m) e l = (shr_1 (shr_record_of_loc (Zpos m) l), e + 1).
Proof.
  intros Hd He. unfold shr_fexp. cbn [Zdigits2]. rewrite Hd.
  unfold fexp, emin.
  replace (Z.max (54 + e - 53) (3 - 1024 - 53) - e) with 1 by lia. reflexivity.
Qed.

Lemma trunc_mag_neg m e : e < 0 -> Float64.trunc_mag m e = Zpos m / 2 ^ (- e).
Proof.
  destruct e as [|k|k]; try lia. intros _. unfold Float64.trunc_mag.
  rewrite Z.shiftr_div_pow2 by lia. reflexivity.
Qed.

(* second normalisation step of binary_round_aux, on a mantissa in [2^52, 2^53] *)
Lemma round_finish s m e :
  2 ^ 52 <= Zpos m <= 2 ^ 53 -> -1074 <= e < -1 ->
  exists m' e',
    (let '(mrs, e'') := shr_fexp 53 1024 (Zpos m) e loc_Exact in
     match shr_m mrs with
     | Z0 => S754_zero s
     | Zpos m0 => if Z.leb e'' (1024 - 53) then S754_finite s m0 e'' else S754_infinity s
     | Zneg _ => S754_nan
     end) = S754_finite s m' e'
    /\ e' < 0 /\ Zpos m' / 2 ^ (- e') = Zpos m / 2 ^ (- e).
Proof.
  intros Hm He.
  destruct (Z.eq_dec (Zpos m) (2 ^ 53)) as [Heq|Hne].
  - rewrite shr_fexp_54 by (try apply digits2_pos_bounds; lia).
    assert (m = 9007199254740992%positive) as -> by (change (2 ^ 53) with 9007199254740992 in Heq; lia).
    cbn [shr_record_of_loc shr_1 shr_m].
    replace (e + 1 <=? 1024 - 53) with true by (symmetry; apply Z.leb_le; lia).
    eexists _, _. split; [reflexivity|]. split; [lia|].
    replace (- e) with (Z.succ (- (e + 1))) by lia.
    rewrite Z.pow_succ_r by lia.
    rewrite <- Z.div_div by (try apply Z.pow_pos_nonneg; lia).
    reflexivity.
  - rewrite shr_fexp_53 by (try apply digits2_pos_bounds; lia).
    cbn [shr_record_of_loc shr_m].
    replace (e <=? 1024 - 53) with true by (symmetry; apply Z.leb_le; lia).
    eexists _, _. split; [reflexivity|]. split; [lia|reflexivity].
Qed.

Lemma round_nearest_even_range m l :
  Zpos m <= round_nearest_even (Zpos m) l <= Zpos m + 1.
Proof. destruct l as [|[]]; cbn [round_nearest_even]; try destruct (Z.even _); lia. Qed.

Lemma bra_53_trunc s m e l :
  Zpos (digits2_pos m) = 53 -> -1074 <= e < -1 ->
  exists m' e',
    binary_round_aux 53 1024 s (Zpos m) e l = S754_finite s m' e'
    /\ e' < 0
    /\ Zpos m' / 2 ^ (- e') = round_nearest_even (Zpos m) l / 2 ^ (- e).
Proof.
  intros Hd He. unfold binary_round_aux.
  rewrite shr_fexp_53 by lia.
  rewrite shr_m_of_loc, loc_of_shr_record_of_loc.
  pose proof (round_nearest_even_range m l) as Hr.
  apply digits2_pos_bounds in Hd. change (53 - 1) with 52 in Hd.
  destruct (round_nearest_even (Zpos m) l) as [|m1|m1] eqn:E; try lia.
  apply round_finish; lia.
Qed.

Lemma shr_1_m mrs : 0 <= shr_m mrs -> shr_m (shr_1 mrs) = shr_m mrs / 2.
Proof.
  destruct mrs as [m r s]. cbn [shr_m]. intros Hm.
  destruct m as [|[p|p|]|p]; cbn [shr_1 shr_m]; try reflexivity; try lia.
  - apply Z.div_unique with 1; [lia|]. apply (Pos2Z.inj_xI p).
  - apply Z.div_unique with 0; [lia|]. rewrite (Pos2Z.inj_xO p). lia.
Qed.

Lemma bra_54_trunc s m e l :
  Zpos (digits2_pos m) = 54 -> -1074 <= e < -2 ->
  exists m' e',
    binary_round_aux 53 1024 s (Zpos m) e l = S754_finite s m' e'
    /\ e' < 0
    /\ Zpos m' / 2 ^ (- e') =
       round_nearest_even (Zpos m / 2)
         (loc_of_shr_record (shr_1 (shr_record_of_loc (Zpos m) l))) / 2 ^ (- (e + 1)).
Proof.
  intros Hd He. unfold binary_round_aux.
  rewrite shr_fexp_54 by lia.
  apply digits2_pos_bounds in Hd. change (54 - 1) with 53 in Hd.
  assert (Hm : shr_m (shr_1 (shr_record_of_loc (Zpos m) l)) = Zpos m / 2).
  { rewrite shr_1_m by (rewrite shr_m_of_loc; lia). now rewrite shr_m_of_loc. }
  rewrite Hm.
  set (l' := loc_of_shr_record _).
  assert (exists h, Zpos m / 2 = Zpos h /\ 2 ^ 52 <= Zpos h < 2 ^ 53) as (h & Hh & Hhb).
  { assert (2 ^ 52 <= Zpos m / 2 < 2 ^ 53).
    { change (2 ^ 53) with (2 * 2 ^ 52) in Hd. change (2 ^ 54) with (2 * 2 ^ 53) in Hd.
      split; [apply Z.div_le_lower_bound; lia | apply Z.div_lt_upper_bound; lia]. }
    destruct (Zpos m / 2) as [|h|h] eqn:E; try lia. exists h. split; [reflexivity|lia]. }
  rewrite Hh.
  pose proof (round_nearest_even_range h l') as Hr.
  destruct (round_nearest_even (Zpos h) l') as [|m1|m1] eqn:E; try lia.
  apply round_finish; lia.
Qed.

Lemma float_of_int_small p d :
  Zpos (digits2_pos p) = d -> d <= 53 ->
  exists mz, Float64.float_of_int (Zpos p) = S754_finite false mz (d - 53)
             /\ Zpos mz = Zpos p * 2 ^ (53 - d)
             /\ Zpos (digits2_pos mz) = 53.
Proof.
  intros Hd Hle.
  assert (0 < d) by (rewrite <- Hd; lia).
  unfold Float64.float_of_int, binary_normalize, binary_round.
  rewrite Hd. unfold fexp, emin.
  replace (Z.max (d + 0 - 53) (3 - 1024 - 53)) with (d - 53) by lia.
  unfold shl_align.
  assert (Hb := proj1 (digits2_pos_bounds p d) Hd).
  destruct (d - 53 - 0) as [|k|k] eqn:Ek; try lia.
  - assert (Hd53 : d = 53) by lia. rewrite Hd53 in *.
    exists p. change (53 - 53) with 0. rewrite Z.pow_0_r, Z.mul_1_r. split; [|split]; [|reflexivity|exact Hd].
    unfold binary_round_aux. rewrite shr_fexp_53 by lia.
    cbn [shr_record_of_loc shr_m loc_of_shr_record round_nearest_even].
    rewrite shr_fexp_53 by lia. reflexivity.
  - exists (Pos.iter xO p k).
    assert (Hk : Zpos k = 53 - d) by lia.
    assert (Hmz : Zpos (Pos.iter xO p k) = Zpos p * 2 ^ (53 - d)) by (rewrite iter_xO_spec, Hk; reflexivity).
    assert (Hdz : Zpos (digits2_pos (Pos.iter xO p k)) = 53).
    { apply digits2_pos_bounds. rewrite Hmz. change (53 - 1) with 52.
      assert (E1 : 2 ^ 52 = 2 ^ (d - 1) * 2 ^ (53 - d))
        by (rewrite <- Z.pow_add_r by lia; f_equal; lia).
      assert (E2 : 2 ^ 53 = 2 ^ d * 2 ^ (53 - d))
        by (rewrite <- Z.pow_add_r by lia; f_equal; lia).
      rewrite E1, E2.
      assert (0 < 2 ^ (53 - d)) by (apply Z.pow_pos_nonneg; lia).
      split; [apply Z.mul_le_mono_nonneg_r; lia | apply Z.mul_lt_mono_pos_r; lia]. }
    split; [|split]; [|exact Hmz|exact Hdz].
    unfold binary_round_aux. rewrite shr_fexp_53 by (try exact Hdz; lia).
    cbn [shr_record_of_loc shr_m loc_of_shr_record round_nearest_even].
    rewrite shr_fexp_53 by (try exact Hdz; lia). cbn [shr_record_of_loc shr_m].
    replace (d - 53 <=? 1024 - 53) with true by (symmetry; apply Z.leb_le; lia).
    reflexivity.
Qed.

Lemma round_div_floor P M c q r m :
  0 <= P -> 500 < M -> 0 < c ->
  P * M * c = 1000 * c * q + r -> 0 <= r < 1000 * c ->
  m = q \/ (m = q + 1 /\ 1000 * c <= 2 * r) ->
  m / M = P / 1000.
Proof.
  intros HP HM Hc HT Hr Hm.
  pose proof (Z.div_mod P 1000 ltac:(lia)) as HPd.
  pose proof (Z.mod_pos_bound P 1000 ltac:(lia)) as HPm.
  set (Q := P / 1000) in *. set (R := P mod 1000) in *.
  clearbody Q R.
  assert (Hk : 0 < 1000 * c) by lia.
  assert (HW : 0 < M * c) by (apply Z.mul_pos_pos; lia).
  assert (HRW : 0 <= R * (M * c) < 1000 * (M * c)).
  { split; [apply Z.mul_nonneg_nonneg; lia | apply Z.mul_lt_mono_pos_r; lia]. }
  assert (E : P * M * c = 1000 * c * (Q * M) + R * (M * c)) by (subst P; ring).
  assert (HcM : 500 * c < M * c) by (apply Z.mul_lt_mono_pos_r; lia).
  assert (Hlo : Q * M <= q).
  { assert (H : 1000 * c * (Q * M) < 1000 * c * (q + 1)) by lia.
    apply Z.mul_lt_mono_pos_l in H; lia. }
  assert (Hhi : m < (Q + 1) * M).
  { destruct Hm as [->|[-> H2]].
    - assert (H : 1000 * c * q < 1000 * c * ((Q + 1) * M)) by lia.
      apply Z.mul_lt_mono_pos_l in H; lia.
    - assert (H : 1000 * c * (q + 1) < 1000 * c * ((Q + 1) * M)).
      { assert (R * (M * c) + M * c <= 1000 * (M * c)).
        { replace (R * (M * c) + M * c) with ((R + 1) * (M * c)) by ring.
          apply Z.mul_le_mono_nonneg_r; lia. }
        lia. }
      apply Z.mul_lt_mono_pos_l in H; lia. }
  symmetry. apply Z.div_unique with (m - M * Q); [|lia].
  left. destruct Hm as [->|[-> _]]; nia.
Qed.

Lemma rne_new_location_even q my r :
  round_nearest_even q (new_location_even my r) = q
  \/ (round_nearest_even q (new_location_even my r) = q + 1 /\ my <= 2 * r).
Proof.
  unfold new_location_even. destruct (Z.eqb_spec r 0); [left; reflexivity|].
  destruct (Z.compare_spec (2 * r) my); cbn [round_nearest_even].
  - destruct (Z.even q); [left|right]; (reflexivity || (split; [reflexivity|lia])).
  - left; reflexivity.
  - right; split; [reflexivity|lia].
Qed.

Lemma rne_after_shr_1 h mrs :
  0 < shr_m mrs ->
  round_nearest_even h (loc_of_shr_record (shr_1 mrs)) = h
  \/ (round_nearest_even h (loc_of_shr_record (shr_1 mrs)) = h + 1
      /\ shr_m mrs = 2 * (shr_m mrs / 2) + 1).
Proof.
  destruct mrs as [m r s]. cbn [shr_m]. intros Hm.
  destruct m as [|[p|p|]|p]; try lia; cbn [shr_1 loc_of_shr_record].
  - assert (Z.pos p~1 / 2 = Z.pos p) as ->
      by (symmetry; apply Z.div_unique with 1; [lia|apply (Pos2Z.inj_xI p)]).
    destruct (r || s)%bool; cbn [round_nearest_even]; [|destruct (Z.even h)];
      solve [left; reflexivity | right; split; [reflexivity|apply (Pos2Z.inj_xI p)]].
  - left. destruct (r || s)%bool; reflexivity.
  - destruct (r || s)%bool; cbn [round_nearest_even]; [|destruct (Z.even h)];
      solve [left; reflexivity | right; split; reflexivity].
Qed.

Lemma div1000_trunc mz ez P :
  Zpos (digits2_pos mz) = 53 -> -52 <= ez <= 0 -> 0 <= P ->
  Zpos mz * 1024 = P * 2 ^ (10 - ez) ->
  Float64.int_of_float (SFdiv 53 1024 (S754_finite false mz ez) Float64.f1000) = Some (P / 1000).
Proof.
  intros Hd He HP HPM.
  unfold Float64.f1000, SFdiv, SFdiv_core_binary. cbn [Zdigits2 xorb]. rewrite Hd.
  change (Zpos (digits2_pos 8796093022208000)) with 53.
  unfold fexp, emin.
  replace (Z.min (Z.max (53 + ez - (53 + -43) - 53) (3 - 1024 - 53)) (ez - -43))
    with (ez - 10) by lia.
  replace (ez - -43 - (ez - 10)) with 53 by lia.
  rewrite Z.shiftl_mul_pow2 by lia.
  pose proof (Z_div_mod (Zpos mz * 2 ^ 53) 8796093022208000 ltac:(lia)) as Hdm.
  destruct (Z.div_eucl (Zpos mz * 2 ^ 53) 8796093022208000) as [q r].
  destruct Hdm as [Hq Hr].
  apply digits2_pos_bounds in Hd. change (53 - 1) with 52 in Hd.
  change (2 ^ 53) with 9007199254740992 in *.
  change (2 ^ 52) with 4503599627370496 in *.
  assert (Hqb : 4503599627370496 <= q < 2 * 9007199254740992) by lia.
  destruct q as [|qp|qp]; try lia.
  unfold new_location. change (Z.even 8796093022208000) with true. cbv iota.
  set (M := 2 ^ (10 - ez)) in *.
  assert (HM : 1024 <= M).
  { change 1024 with (2 ^ 10). apply Z.pow_le_mono_r; lia. }
  assert (HT : P * M * 8796093022208 = 1000 * 8796093022208 * Zpos qp + r) by lia.
  destruct (Z_lt_le_dec (Zpos qp) 9007199254740992) as [Hlt|Hge].
  - destruct (bra_53_trunc false qp (ez - 10) (new_location_even 8796093022208000 r))
      as (m' & e' & -> & He' & Hv); [apply digits2_pos_bounds; lia | lia |].
    unfold Float64.int_of_float. fold (Float64.trunc_mag m' e'). rewrite trunc_mag_neg by lia.
    rewrite Hv. replace (- (ez - 10)) with (10 - ez) by lia. fold M.
    f_equal. apply round_div_floor with (c := 8796093022208) (q := Zpos qp) (r := r); try lia.
    destruct (rne_new_location_even (Zpos qp) 8796093022208000 r) as [->|[-> ?]];
      [left; reflexivity | right; split; [reflexivity|lia]].
  - destruct (bra_54_trunc false qp (ez - 10) (new_location_even 8796093022208000 r))
      as (m' & e' & -> & He' & Hv); [apply digits2_pos_bounds; lia | lia |].
    unfold Float64.int_of_float. fold (Float64.trunc_mag m' e'). rewrite trunc_mag_neg by lia.
    rewrite Hv. replace (- (ez - 10 + 1)) with (9 - ez) by lia.
    assert (HM2 : M = 2 * 2 ^ (9 - ez)).
    { unfold M. replace (10 - ez) with (Z.succ (9 - ez)) by lia.
      rewrite Z.pow_succ_r by lia. reflexivity. }
    set (M' := 2 ^ (9 - ez)) in *.
    pose proof (Z.div_mod (Zpos qp) 2 ltac:(lia)) as Hq2.
    pose proof (Z.mod_pos_bound (Zpos qp) 2 ltac:(lia)) as Hb2.
    f_equal.
    apply round_div_floor with (c := 2 * 8796093022208) (q := Zpos qp / 2)
                               (r := (Zpos qp mod 2) * (1000 * 8796093022208) + r); try lia.
    pose proof (rne_after_shr_1 (Zpos qp / 2)
                  (shr_record_of_loc (Zpos qp) (new_location_even 8796093022208000 r))) as Hrn.
    rewrite shr_m_of_loc in Hrn.
    destruct Hrn as [->|[-> Hodd]]; [lia | left; reflexivity | right; split; [reflexivity|lia]].
Qed.

Lemma binary_round_aux_sign s m e l :
  match binary_round_aux 53 1024 s m e l with
  | S754_zero s' | S754_infinity s' | S754_finite s' _ _ => s' = s
  | S754_nan => True
  end.
Proof.
  unfold binary_round_aux.
  destruct (shr_fexp 53 1024 m e l) as [mrs1 e1].
  destruct (shr_fexp 53 1024 _ e1 loc_Exact) as [mrs2 e2].
  destruct (shr_m mrs2); [reflexivity| |exact I].
  destruct (e2 <=? 1024 - 53); reflexivity.
Qed.

Lemma trunc_mag_nonneg m e : 0 <= Float64.trunc_mag m e.
Proof.
  unfold Float64.trunc_mag. destruct e.
  - apply Z.shiftl_nonneg. lia.
  - apply Z.shiftl_nonneg. lia.
  - apply Z.shiftr_nonneg. lia.
Qed.

Lemma offset_frames_nonneg fr d n :
  0 <= fr -> offset_frames fr d = Return n -> 0 <= n.
Proof.
  intros Hfr. unfold offset_frames.
  assert (HP : 0 <= fr * Z.abs d) by (apply Z.mul_nonneg_nonneg; lia).
  destruct (fr * Z.abs d) as [|p|p]; try lia.
  - cbn. intros [= <-]. lia.
  - unfold Float64.float_of_int, binary_normalize, binary_round.
    destruct (shl_align _ _ _) as [mz ez].
    pose proof (binary_round_aux_sign false (Zpos mz) ez loc_Exact) as Hs.
    destruct (binary_round_aux 53 1024 false (Z.pos mz) ez loc_Exact) as [s|s| |s m e];
      try discriminate.
    + cbn. intros [= <-]. lia.
    + subst s. unfold Float64.f1000, SFdiv.
      destruct (SFdiv_core_binary 53 1024 (Z.pos m) e _ _) as [[mq eq] lq].
      pose proof (binary_round_aux_sign (xorb false false) mq eq lq) as Hq.
      destruct (binary_round_aux 53 1024 (xorb false false) mq eq lq) as [s|s| |s m' e'];
        cbn; try discriminate.
      * intros [= <-]. lia.
      * cbn in Hq. subst s. intros [= <-]. apply trunc_mag_nonneg.
Qed.

Lemma offset_frames_zero fr : offset_frames fr 0 = Return 0.
Proof. unfold offset_frames. rewrite Z.mul_0_r. reflexivity. Qed.

Lemma offset_frames_small framerate delay_ms :
  0 <= framerate -> framerate * Z.abs delay_ms < 2 ^ 53 ->
  offset_frames framerate delay_ms = Return (framerate * Z.abs delay_ms / 1000).
Proof.
  intros Hf Hlt. unfold offset_frames.
  set (P := framerate * Z.abs delay_ms) in *.
  assert (HP : 0 <= P) by (apply Z.mul_nonneg_nonneg; lia).
  destruct P as [|p|p]; try lia.
  - reflexivity.
  - assert (Hd : Zpos (digits2_pos p) <= 53).
    { destruct (Z_lt_le_dec 53 (Zpos (digits2_pos p))) as [Hgt|]; [|lia].
      pose proof (proj1 (digits2_pos_bounds p _) eq_refl) as [Hlo _].
      assert (2 ^ 53 <= 2 ^ (Zpos (digits2_pos p) - 1)) by (apply Z.pow_le_mono_r; lia).
      lia. }
    destruct (float_of_int_small p _ eq_refl Hd) as (mz & -> & Hmz & Hdz).
    rewrite div1000_trunc with (P := Zpos p); try lia; [reflexivity|].
    rewrite Hmz.
    replace (10 - (Zpos (digits2_pos p) - 53)) with (53 - Zpos (digits2_pos p) + 10) by lia.
    rewrite Z.pow_add_r by lia. change (2 ^ 10) with 1024. ring.
Qed.
(* --------------------------------------------------------------------- *)
(** ** The writer *)

Lemma header_error_None ch sw fr len :
  1 <= ch -> 1 <= sw <= 4 -> 1 <= fr -> 0 <= len ->
  (Wave.header_error ch sw fr len = None <-> fields_fit ch sw fr len).
Proof.
  intros Hch Hsw Hfr Hlen.
  assert (Hp : 0 <= ch * fr * sw) by (apply Z.mul_nonneg_nonneg; [apply Z.mul_nonneg_nonneg|]; lia).
  assert (Hq : 0 <= ch * sw) by (apply Z.mul_nonneg_nonneg; lia).
  unfold Wave.header_error, Wave.fits, fields_fit.
  change (2 ^ 32) with 4294967296. change (2 ^ 16) with 65536.
  destruct (Z.leb_spec 0 (36 + len)), (Z.ltb_spec (36 + len) 4294967296),
    (Z.leb_spec 0 ch), (Z.ltb_spec ch 65536),
    (Z.leb_spec 0 fr), (Z.ltb_spec fr 4294967296),
    (Z.leb_spec 0 (ch * fr * sw)), (Z.ltb_spec (ch * fr * sw) 4294967296),
    (Z.leb_spec 0 (ch * sw)), (Z.ltb_spec (ch * sw) 65536),
    (Z.leb_spec 0 (sw * 8)), (Z.ltb_spec (sw * 8) 65536);
    cbn; split; try discriminate; try reflexivity; try lia; intros H; exfalso; lia.
Qed.

Lemma fields_fit_le ch sw fr a b :
  a <= b -> fields_fit ch sw fr b -> fields_fit ch sw fr a.
Proof. unfold fields_fit. intros Hab (H1 & H2). split; [lia|exact H2]. Qed.

(** The body of the write block of [apply_offset], run on a fresh writer. *)
Lemma writer_body_ok ch sw fr data :
  1 <= ch -> 1 <= sw <= 4 -> 1 <= fr ->
  fields_fit ch sw fr (Z.of_nat (length data)) ->
  (Wave.setnchannels ch ;; Wave.setsampwidth sw ;; Wave.setframerate fr ;;
   Wave.setcomptype "NONE" "not compressed" ;; Wave.writeframes data) Wave.fresh
  = (Return tt,
     {| Wave.ww_nchannels := ch; Wave.ww_sampwidth := sw; Wave.ww_framerate := fr;
        Wave.ww_nframes := Z.of_nat (length data) / (ch * sw);
        Wave.ww_datalength := Z.of_nat (length data);
        Wave.ww_riff := 0; Wave.ww_written := Some data |}).
Proof.
  intros Hch Hsw Hfr Hfit.
  assert (Hfs : 0 < ch * sw) by (apply Z.mul_pos_pos; lia).
  remember (Z.of_nat (length data)) as len eqn:El.
  assert (Hlen : 0 <= len) by lia.
  remember (len / (ch * sw)) as nf eqn:Enf.
  assert (Hnf : 0 <= nf * ch * sw <= len).
  { rewrite Enf, <- Z.mul_assoc, Z.mul_comm. split.
    - apply Z.mul_nonneg_nonneg; [lia|]. apply Z.div_pos; lia.
    - apply Z.mul_div_le. lia. }
  assert (Hhdr : Wave.header_error ch sw fr (nf * ch * sw) = None).
  { apply header_error_None; try lia. apply (fields_fit_le _ _ _ _ len); [lia|assumption]. }
  unfold bind, Wave.setnchannels, Wave.setsampwidth, Wave.setframerate,
    Wave.setcomptype, Wave.writeframes, Wave.writeframesraw, Wave.ensure_header_written,
    Wave.write_header, Wave.fresh, Wave.started, Wave.datawritten, bind.
  cbn.
  replace (ch <? 1) with false by (symmetry; apply Z.ltb_ge; lia).
  cbn.
  replace (sw <? 1) with false by (symmetry; apply Z.ltb_ge; lia).
  replace (4 <? sw) with false by (symmetry; apply Z.ltb_ge; lia).
  cbn.
  replace (fr <=? 0) with false by (symmetry; apply Z.leb_gt; lia).
  cbn.
  replace (ch =? 0) with false by (symmetry; apply Z.eqb_neq; lia).
  replace (sw =? 0) with false by (symmetry; apply Z.eqb_neq; lia).
  replace (fr =? 0) with false by (symmetry; apply Z.eqb_neq; lia).
  rewrite <- El, <- Enf, Hhdr. cbn. rewrite <- El.
  destruct (Z.eqb_spec (nf * ch * sw) len) as [He|Hne].
  - now rewrite He.
  - unfold Wave.patchheader, Wave.datawritten. cbn. rewrite <- El.
    replace (len =? nf * ch * sw) with false by (symmetry; apply Z.eqb_neq; lia).
    replace (Wave.fits 32 (36 + len)) with true; [reflexivity|].
    symmetry. unfold Wave.fits. destruct Hfit as (H1 & _).
    apply andb_true_intro. split; [apply Z.leb_le; lia|apply Z.ltb_lt; exact H1].
Qed.

Lemma close_written o d :
  Wave.ww_written o = Some d -> Wave.ww_datalength o = Z.of_nat (length d) ->
  Wave.close o = (Return tt, o).
Proof.
  intros Hw Hd. unfold Wave.close, bind, Wave.ensure_header_written, Wave.datawritten.
  rewrite Hw. cbn. rewrite Hw. cbn. rewrite Hd, Z.eqb_refl. reflexivity.
Qed.

Lemma with_open_wb_ok dst ch sw fr data w :
  can_create (files w) dst = true ->
  1 <= ch -> 1 <= sw <= 4 -> 1 <= fr ->
  fields_fit ch sw fr (Z.of_nat (length data)) ->
  Wave.with_open_wb dst
    (Wave.setnchannels ch ;; Wave.setsampwidth sw ;; Wave.setframerate fr ;;
     Wave.setcomptype "NONE" "not compressed" ;; Wave.writeframes data) w
  = (Return tt,
     World (<[dst := File (WavData (Wav ch sw fr data))]> (files w)) (stdout w)).
Proof.
  intros Hc Hch Hsw Hfr Hfit.
  pose proof (writer_body_ok ch sw fr data Hch Hsw Hfr Hfit) as Hbody.
  unfold Wave.with_open_wb, bind at 1.
  unfold can_create, is_dir in Hc. unfold create_file.
  assert (Hfile : forall o, o = {| Wave.ww_nchannels := ch; Wave.ww_sampwidth := sw;
                     Wave.ww_framerate := fr;
                     Wave.ww_nframes := Z.of_nat (length data) / (ch * sw);
                     Wave.ww_datalength := Z.of_nat (length data);
                     Wave.ww_riff := 0; Wave.ww_written := Some data |} ->
            Wave.close o = (Return tt, o)
            /\ Wave.written_file o = WavData (Wav ch sw fr data)).
  { intros o ->. split; [now apply (close_written _ data)|].
    unfold Wave.written_file. cbn. rewrite Nat2Z.id, firstn_all. reflexivity. }
  destruct (Hfile _ eq_refl) as [Hclose Hwf].
  destruct (files w !! dst) as [[|c]|] eqn:Ed; try discriminate.
  - rewrite Hbody, Hclose, Hwf. cbn. now rewrite insert_insert_eq.
  - destruct (files w !! parent dst) as [[|c]|]; try discriminate.
    rewrite Hbody, Hclose, Hwf. cbn. now rewrite insert_insert_eq.
Qed.

(** Whatever the body does, the block leaves a regular file at [dst] and
    changes nothing else, or fails to open [dst] and changes nothing. *)
Lemma with_open_wb_frame dst body w r w' :
  Wave.with_open_wb dst body w = (r, w') ->
  stdout w' = stdout w
  /\ (w' = w \/ exists c, files w' = <[dst := File c]> (files w)).
Proof.
  unfold Wave.with_open_wb, bind at 1, create_file.
  destruct (files w !! dst) as [[|c]|] eqn:Ed.
  - intros [= <- <-]. auto.
  - cbn. destruct (body Wave.fresh) as [r0 o]. destruct (Wave.close o) as [rc o'].
    intros H. assert (w' = World (<[dst := File (Wave.written_file o')]> (<[dst := File (Blob [])]> (files w))) (stdout w))
      as -> by (destruct rc; congruence).
    cbn. split; [reflexivity|]. right. eexists. apply insert_insert_eq.
  - destruct (files w !! parent dst) as [[|c]|]; try (intros [= <- <-]; now auto).
    cbn. destruct (body Wave.fresh) as [r0 o]. destruct (Wave.close o) as [rc o'].
    intros H. assert (w' = World (<[dst := File (Wave.written_file o')]> (<[dst := File (Blob [])]> (files w))) (stdout w))
      as -> by (destruct rc; congruence).
    cbn. split; [reflexivity|]. right. eexists. apply insert_insert_eq.
Qed.

(** If the body of the write block returns, every setter went through
    and the header fields were in range. *)
Lemma writer_body_Return_inv ch sw fr ct cn data o :
  (Wave.setnchannels ch ;; Wave.setsampwidth sw ;; Wave.setframerate fr ;;
   Wave.setcomptype ct cn ;; Wave.writeframes data) Wave.fresh = (Return tt, o) ->
  1 <= ch /\ 1 <= sw <= 4 /\ 1 <= fr /\ fields_fit ch sw fr (Z.of_nat (length data)).
Proof.
  remember (Z.of_nat (length data)) as len eqn:El.
  unfold bind, Wave.setnchannels, Wave.setsampwidth, Wave.setframerate,
    Wave.setcomptype, Wave.writeframes, Wave.writeframesraw, Wave.ensure_header_written,
    Wave.write_header, Wave.fresh, Wave.started, Wave.datawritten, bind.
  cbn.
  destruct (Z.ltb_spec ch 1); [discriminate|]. cbn.
  destruct (Z.ltb_spec sw 1); [discriminate|].
  destruct (Z.ltb_spec 4 sw); [discriminate|]. cbn.
  destruct (Z.leb_spec fr 0); [discriminate|]. cbn.
  destruct (negb (String.eqb ct "NONE")); [discriminate|]. cbn.
  replace (ch =? 0) with false by (symmetry; apply Z.eqb_neq; lia).
  replace (sw =? 0) with false by (symmetry; apply Z.eqb_neq; lia).
  replace (fr =? 0) with false by (symmetry; apply Z.eqb_neq; lia).
  assert (Hlen : 0 <= len) by lia.
  assert (Hfs : 0 < ch * sw) by (apply Z.mul_pos_pos; lia).
  remember (len / (ch * sw)) as nf eqn:Enf.
  assert (Hnf : 0 <= nf * ch * sw <= len).
  { rewrite Enf, <- Z.mul_assoc, Z.mul_comm. split.
    - apply Z.mul_nonneg_nonneg; [lia|]. apply Z.div_pos; lia.
    - apply Z.mul_div_le. lia. }
  rewrite <- El, <- Enf.
  destruct (Wave.header_error ch sw fr (nf * ch * sw)) as [e|] eqn:Eh; [discriminate|].
  apply header_error_None in Eh; try lia.
  cbn. rewrite <- El.
  destruct (Z.eqb_spec (nf * ch * sw) len) as [He|Hne].
  - intros _. rewrite <- He. repeat split; try lia; apply Eh.
  - unfold Wave.patchheader, Wave.datawritten. cbn. rewrite <- El.
    replace (len =? nf * ch * sw) with false by (symmetry; apply Z.eqb_neq; lia).
    destruct (Wave.fits 32 (36 + len)) eqn:Ef; [|discriminate].
    intros _. unfold Wave.fits in Ef. apply andb_prop in Ef as [_ Ef]. apply Z.ltb_lt in Ef.
    destruct Eh as (_ & Eh). repeat split; try lia; try apply Eh.
Qed.

(** If the block returns, every setter and the write went through. *)
Lemma with_open_wb_Return_inv dst ch sw fr ct cn data w w' :
  Wave.with_open_wb dst
    (Wave.setnchannels ch ;; Wave.setsampwidth sw ;; Wave.setframerate fr ;;
     Wave.setcomptype ct cn ;; Wave.writeframes data) w = (Return tt, w') ->
  1 <= ch /\ 1 <= sw <= 4 /\ 1 <= fr /\ can_create (files w) dst = true
  /\ fields_fit ch sw fr (Z.of_nat (length data)).
Proof.
  intros H.
  assert (Hc : can_create (files w) dst = true).
  { revert H. unfold Wave.with_open_wb, bind at 1, create_file, can_create, is_dir.
    destruct (files w !! dst) as [[|c]|]; try discriminate; auto.
    destruct (files w !! parent dst) as [[|c]|]; try discriminate; auto. }
  revert H. unfold Wave.with_open_wb, bind at 1, create_file.
  pose proof (writer_body_Return_inv ch sw fr ct cn data) as Hb.
  destruct ((Wave.setnchannels ch ;; _) Wave.fresh) as [r0 o] eqn:Eb.
  intros H.
  assert (r0 = Return tt).
  { revert H. destruct (files w !! dst) as [[|c]|]; try discriminate.
    - cbn. destruct (Wave.close o) as [[|e] o']; [|discriminate].
      destruct r0 as [[]|]; [reflexivity|discriminate].
    - destruct (files w !! parent dst) as [[|c]|]; try discriminate.
      cbn. destruct (Wave.close o) as [[|e] o']; [|discriminate].
      destruct r0 as [[]|]; [reflexivity|discriminate]. }
  subst r0. destruct (Hb o eq_refl) as (? & ? & ? & ?). auto.
Qed.

(* --------------------------------------------------------------------- *)
(** ** Reading frames *)

Lemma nframes_nonneg f : 0 < Wave.framesize f -> 0 <= Wave.nframes f.
Proof. intros H. unfold Wave.nframes. apply Z.div_pos; lia. Qed.

Lemma framesize_pos f : 0 < nchannels f -> 0 < sampwidth f -> 0 < Wave.framesize f.
Proof. intros. unfold Wave.framesize. apply Z.mul_pos_pos; lia. Qed.

Lemma readframes_range f pos n :
  0 < Wave.framesize f -> 0 <= n ->
  Wave.readframes {| Wave.wr_file := f; Wave.wr_soundpos := pos |} n
  = frame_range f pos (pos + n).
Proof.
  intros Hfs Hn. unfold Wave.readframes, frame_range. cbn.
  replace (pos + n - pos) with n by lia.
  destruct (Z.eqb_spec n 0) as [->|Hne].
  - rewrite Z.mul_0_l. reflexivity.
  - replace (n * Wave.framesize f <? 0) with false; [reflexivity|].
    symmetry. apply Z.ltb_ge. apply Z.mul_nonneg_nonneg; lia.
Qed.

Lemma frame_range_all f :
  pcm_ok f -> frame_range f 0 (Wave.nframes f) = frames f.
Proof.
  intros (Hc & Hs & Hr & Hw). unfold frame_range.
  rewrite Z.mul_0_l, Z.sub_0_r, <- Hw. cbn. rewrite Nat2Z.id. apply firstn_all.
Qed.

Lemma frame_range_tail f n :
  pcm_ok f -> 0 <= n <= Wave.nframes f ->
  frame_range f n (Wave.nframes f) = drop (Z.to_nat (n * Wave.framesize f)) (frames f).
Proof.
  intros (Hc & Hs & Hr & Hw) Hn. unfold frame_range.
  apply take_ge. rewrite length_drop.
  assert (0 < Wave.framesize f) by (apply framesize_pos; lia).
  assert (0 <= n * Wave.framesize f) by (apply Z.mul_nonneg_nonneg; lia).
  rewrite Z.mul_sub_distr_r, <- Hw. lia.
Qed.

Lemma frame_range_length f a b :
  0 < Wave.framesize f -> 0 <= a <= b -> b <= Wave.nframes f ->
  Z.of_nat (length (frame_range f a b)) = (b - a) * Wave.framesize f.
Proof.
  intros Hfs Hab Hb. unfold frame_range.
  rewrite length_take, length_drop.
  assert (Hlen : Wave.nframes f * Wave.framesize f <= Z.of_nat (length (frames f))).
  { unfold Wave.nframes. rewrite Z.mul_comm. apply Z.mul_div_le. lia. }
  assert (0 <= a * Wave.framesize f) by (apply Z.mul_nonneg_nonneg; lia).
  assert (0 <= (b - a) * Wave.framesize f) by (apply Z.mul_nonneg_nonneg; lia).
  assert (b * Wave.framesize f <= Wave.nframes f * Wave.framesize f)
    by (apply Z.mul_le_mono_nonneg_r; lia).
  rewrite Z.mul_sub_distr_r in *. lia.
Qed.

Lemma bytes_mul_replicate (x : Byte.byte) a b c :
  0 <= a -> 0 <= b -> 0 <= c ->
  bytes_mul (bytes_mul (bytes_mul [x] a) b) c = replicate (Z.to_nat (a * b * c)) x.
Proof.
  intros Ha Hb Hc'.
  assert (Hc : forall k m, concat (replicate k (replicate m x)) = replicate (k * m)%nat x).
  { intros k m. induction k as [|k IH]; cbn; [reflexivity|].
    rewrite IH. symmetry. apply replicate_add. }
  unfold bytes_mul.
  change [x] with (replicate 1 x). rewrite !Hc.
  f_equal.
  rewrite !Z2Nat.inj_mul by (try apply Z.mul_nonneg_nonneg; lia). lia.
Qed.

(* --------------------------------------------------------------------- *)
(** ** [apply_offset] unfolded on a readable source *)

Lemma apply_offset_unfold src dst d f n w :
  files w !! src = Some (File (WavData f)) ->
  0 < nchannels f -> 0 < sampwidth f ->
  offset_frames (framerate f) d = Return n -> 0 <= n ->
  apply_offset src dst d w =
    if d <? 0 then
      if Wave.nframes f <=? n then
        (Raise (ValueError ("Cannot trim " +:+ pretty d +:+ " ms; file is too short.")), w)
      else copy_out dst f (frame_range f n (Wave.nframes f)) w
    else if 0 <? d then
      copy_out dst f (replicate (Z.to_nat (n * nchannels f * sampwidth f)) Byte.x00
                      ++ frame_range f 0 (Wave.nframes f)) w
    else copy_out dst f (frame_range f 0 (Wave.nframes f)) w.
Proof.
  intros Hsrc Hc Hs Hoff Hn.
  assert (Hfs := framesize_pos f Hc Hs).
  assert (Htot := nframes_nonneg f Hfs).
  unfold apply_offset, bind at 1, Wave.open_rb. rewrite Hsrc.
  replace (nchannels f <=? 0) with false by (symmetry; apply Z.leb_gt; lia).
  replace (sampwidth f <=? 0) with false by (symmetry; apply Z.leb_gt; lia).
  unfold bind at 1, lift, Wave.getframerate. cbn [Wave.wr_file]. rewrite Hoff.
  unfold Wave.getnframes, Wave.getnchannels, Wave.getsampwidth, Wave.getcomptype,
    Wave.getcompname. cbn [Wave.wr_file].
  destruct (Z.ltb_spec d 0) as [Hd|Hd].
  - destruct (Z.leb_spec (Wave.nframes f) n) as [Hle|Hgt].
    + reflexivity.
    + unfold bind at 1. unfold bind at 1. unfold Wave.setpos, Wave.getnframes.
      cbn [Wave.wr_file].
      replace (n <? 0) with false by (symmetry; apply Z.ltb_ge; lia).
      replace (Wave.nframes f <? n) with false by (symmetry; apply Z.ltb_ge; lia).
      cbn [orb]. unfold ret.
      rewrite readframes_range by lia.
      replace (n + (Wave.nframes f - n)) with (Wave.nframes f) by lia.
      reflexivity.
  - destruct (Z.ltb_spec 0 d) as [Hp|Hp].
    + unfold bind at 1, ret.
      rewrite bytes_mul_replicate, readframes_range by lia.
      rewrite Z.add_0_l. reflexivity.
    + unfold bind at 1, ret. rewrite readframes_range by lia.
      rewrite Z.add_0_l. reflexivity.
Qed.
(* --------------------------------------------------------------------- *)
(** ** [apply_offset]: what a normal return tells *)

Lemma framesize_Wav c s r d : Wave.framesize (Wav c s r d) = c * s.
Proof. reflexivity. Qed.

Lemma bind_Return_inv {S A B} (m : ST S A) (k : A -> ST S B) s b s' :
  bind m k s = (Return b, s') ->
  exists a s1, m s = (Return a, s1) /\ k a s1 = (Return b, s').
Proof.
  unfold bind. destruct (m s) as [[a|e] s1]; [|discriminate]. eauto.
Qed.

Lemma apply_offset_Return_inv src dst d w w' :
  apply_offset src dst d w = (Return tt, w') ->
  exists f n,
    files w !! src = Some (File (WavData f))
    /\ 1 <= nchannels f /\ 1 <= sampwidth f <= 4 /\ 1 <= framerate f
    /\ offset_frames (framerate f) d = Return n /\ 0 <= n.
Proof.
  unfold apply_offset. intros H.
  apply bind_Return_inv in H as (infile & w1 & Hopen & H).
  apply bind_Return_inv in H as (n & w2 & Hoff & H).
  apply bind_Return_inv in H as (data & w3 & Haudio & H).
  apply with_open_wb_Return_inv in H as (Hc & Hs & Hr & _).
  unfold Wave.open_rb in Hopen.
  destruct (files w !! src) as [[|[f|b]]|]; try discriminate.
  destruct (sampwidth f <=? 0); [discriminate|].
  destruct (nchannels f <=? 0); [discriminate|].
  injection Hopen as <- <-.
  unfold Wave.getnchannels, Wave.getsampwidth, Wave.getframerate in *. cbn in *.
  unfold lift in Hoff. injection Hoff as Hoff _.
  exists f, n. repeat split; try lia; try assumption.
  apply (offset_frames_nonneg (framerate f) d); [lia|assumption].
Qed.

(** C6: on every return of [apply_offset] the destination holds a
    container with the channel count, sample width, frame rate and
    compression tag of the source, nothing else in the world changes, and
    the payload is the source's frames with whole frames of zero bytes in
    front or with whole frames dropped from the start. *)
Theorem apply_offset_preserves_format src dst delay_ms f w w' :
  files w !! src = Some (File (WavData f)) ->
  apply_offset src dst delay_ms w = (Return tt, w') ->
  exists out k,
    w' = World (<[dst := File (WavData out)]> (files w)) (stdout w)
    /\ nchannels out = nchannels f
    /\ sampwidth out = sampwidth f
    /\ framerate out = framerate f
    /\ Wave.getcomptype {| Wave.wr_file := out; Wave.wr_soundpos := 0 |}
       = Wave.getcomptype {| Wave.wr_file := f; Wave.wr_soundpos := 0 |}
    /\ Wave.getcompname {| Wave.wr_file := out; Wave.wr_soundpos := 0 |}
       = Wave.getcompname {| Wave.wr_file := f; Wave.wr_soundpos := 0 |}
    /\ 0 <= k
    /\ (frames out = replicate (Z.to_nat (k * Wave.framesize f)) Byte.x00
                     ++ frame_range f 0 (Wave.nframes f)
        \/ frames out = frame_range f k (Wave.nframes f)).
Proof.
  intros Hsrc Hret.
  destruct (apply_offset_Return_inv _ _ _ _ _ Hret) as (f' & n & Hsrc' & Hc & Hs & Hr & Hoff & Hn).
  rewrite Hsrc in Hsrc'. injection Hsrc' as <-.
  rewrite (apply_offset_unfold src dst delay_ms f n w) in Hret by (try assumption; lia).
  assert (Hwrite : forall data, copy_out dst f data w = (Return tt, w') ->
            w' = World (<[dst := File (WavData (Wav (nchannels f) (sampwidth f) (framerate f) data))]>
                          (files w)) (stdout w)).
  { intros data Hd. unfold copy_out in Hd.
    pose proof (with_open_wb_Return_inv _ _ _ _ _ _ _ _ _ Hd) as (_ & _ & _ & Hcan & Hfit).
    rewrite with_open_wb_ok in Hd by assumption. congruence. }
  destruct (delay_ms <? 0).
  - destruct (Wave.nframes f <=? n); [discriminate|].
    eexists _, n. split; [apply Hwrite, Hret|]. cbn. repeat split; auto.
  - destruct (0 <? delay_ms).
    + eexists _, n. split; [apply Hwrite, Hret|]. cbn. repeat split; auto.
      left. unfold Wave.framesize. now rewrite Z.mul_assoc.
    + eexists _, 0. split; [apply Hwrite, Hret|]. cbn. repeat split; auto. lia.
Qed.

Lemma apply_offset_preserves_format_witness :
  demo_fs !! ["a"; "in.wav"] = Some (File (WavData demo_wav))
  /\ exists out k,
       snd (apply_offset ["a"; "in.wav"] ["a"; "out.wav"] 3 demo_world)
       = World (<[["a"; "out.wav"] := File (WavData out)]> demo_fs) []
       /\ nchannels out = 1 /\ sampwidth out = 2 /\ framerate out = 1000 /\ 0 <= k.
Proof.
  split; [reflexivity|].
  destruct (apply_offset_preserves_format ["a"; "in.wav"] ["a"; "out.wav"] 3 demo_wav
              demo_world (snd (apply_offset ["a"; "in.wav"] ["a"; "out.wav"] 3 demo_world)))
    as (out & k & Hw & Hc & Hs & Hr & _ & _ & Hk & _).
  - reflexivity.
  - vm_compute. reflexivity.
  - exists out, k. repeat split; assumption.
Defined.

(* --------------------------------------------------------------------- *)
(** ** [apply_offset] on a container the writer takes *)



Lemma copy_out_ok dst f data w :
  writable f ->
  can_create (files w) dst = true ->
  fields_fit (nchannels f) (sampwidth f) (framerate f) (Z.of_nat (length data)) ->
  copy_out dst f data w
  = (Return tt,
     World (<[dst := File (WavData (Wav (nchannels f) (sampwidth f) (framerate f) data))]>
              (files w)) (stdout w)).
Proof.
  intros (Hc & Hs & Hr) Hcan Hfit. unfold copy_out. now apply with_open_wb_ok.
Qed.




(** C4 (amended): for a source whose parameters the writer takes, a
    positive delay, [n] the exact floor of [framerate * delay_ms / 1000]
    and header fields of the padded container in range, [apply_offset]
    writes [n * channels * sampwidth] zero bytes followed by the frames
    of the source: [n] more frames, the first [n] all zero, the rest the
    source's. *)
Theorem apply_offset_pad src dst delay_ms f w :
  files w !! src = Some (File (WavData f)) ->
  writable f ->
  0 < delay_ms ->
  can_create (files w) dst = true ->
  let n := framerate f * delay_ms / 1000 in
  fields_fit (nchannels f) (sampwidth f) (framerate f)
             ((Wave.nframes f + n) * Wave.framesize f) ->
  exists out,
    apply_offset src dst delay_ms w
    = (Return tt, World (<[dst := File (WavData out)]> (files w)) (stdout w))
    /\ frames out = replicate (Z.to_nat (n * nchannels f * sampwidth f)) Byte.x00
                    ++ frame_range f 0 (Wave.nframes f)
    /\ Wave.nframes out = Wave.nframes f + n
    /\ frame_range out 0 n = replicate (Z.to_nat (n * Wave.framesize f)) Byte.x00
    /\ frame_range out n (Wave.nframes out) = frame_range f 0 (Wave.nframes f)
    /\ (Z.of_nat (length (frames f)) = Wave.nframes f * Wave.framesize f ->
        frame_range f 0 (Wave.nframes f) = frames f).
Proof.
  intros Hsrc Hok Hd Hcan n Hfit.
  pose proof Hok as (Hc & Hs & Hr).
  assert (Hfs : 0 < Wave.framesize f) by (apply framesize_pos; lia).
  assert (Htot : 0 <= Wave.nframes f) by (apply nframes_nonneg; lia).
  assert (HP : 0 <= framerate f * delay_ms) by (apply Z.mul_nonneg_nonneg; lia).
  assert (Hn : 0 <= n) by (apply Z.div_pos; lia).
  assert (Hz : 0 <= n * Wave.framesize f) by (apply Z.mul_nonneg_nonneg; lia).
  assert (Hsmall : n < 2 ^ 32).
  { destruct Hfit as (H1 & _).
    assert (n * 1 <= (Wave.nframes f + n) * Wave.framesize f)
      by (apply Z.mul_le_mono_nonneg; lia).
    lia. }
  assert (Hbound : framerate f * Z.abs delay_ms < 2 ^ 53).
  { rewrite Z.abs_eq by lia.
    pose proof (Z.mul_succ_div_gt (framerate f * delay_ms) 1000 ltac:(lia)) as Hdiv.
    fold n in Hdiv. change (2 ^ 32) with 4294967296 in Hsmall.
    change (2 ^ 53) with 9007199254740992. lia. }
  assert (Hoff : offset_frames (framerate f) delay_ms = Return n).
  { rewrite offset_frames_small by (assumption || lia).
    unfold n. now rewrite Z.abs_eq by lia. }
  rewrite (apply_offset_unfold src dst delay_ms f n w) by (try assumption; lia).
  replace (delay_ms <? 0) with false by (symmetry; apply Z.ltb_ge; lia).
  replace (0 <? delay_ms) with true by (symmetry; apply Z.ltb_lt; lia).
  replace (n * nchannels f * sampwidth f) with (n * Wave.framesize f)
    by (unfold Wave.framesize; ring).
  assert (Hsrclen : Z.of_nat (length (frame_range f 0 (Wave.nframes f)))
                    = Wave.nframes f * Wave.framesize f).
  { rewrite frame_range_length by lia. now rewrite Z.sub_0_r. }
  assert (Hlen : Z.of_nat (length (replicate (Z.to_nat (n * Wave.framesize f)) Byte.x00
                                    ++ frame_range f 0 (Wave.nframes f)))
                 = (Wave.nframes f + n) * Wave.framesize f).
  { rewrite length_app, length_replicate, Nat2Z.inj_add, Z2Nat.id, Hsrclen by lia. ring. }
  rewrite copy_out_ok; [|assumption|assumption|rewrite Hlen; assumption].
  eexists. split; [reflexivity|]. cbn [frames].
  split; [reflexivity|].
  assert (Hcount : Wave.nframes
            {| nchannels := nchannels f; sampwidth := sampwidth f; framerate := framerate f;
               frames := replicate (Z.to_nat (n * Wave.framesize f)) Byte.x00
                         ++ frame_range f 0 (Wave.nframes f) |}
          = Wave.nframes f + n).
  { unfold Wave.nframes at 1. rewrite framesize_Wav. fold (Wave.framesize f).
    cbn [frames]. rewrite Hlen. apply Z.div_mul. lia. }
  split; [exact Hcount|]. split; [|split].
  - unfold frame_range at 1. rewrite framesize_Wav. fold (Wave.framesize f).
    cbn [frames]. rewrite Z.mul_0_l, Z.sub_0_r. change (Z.to_nat 0) with 0%nat. rewrite drop_0.
    rewrite take_app_length'; [reflexivity|]. now rewrite length_replicate.
  - rewrite Hcount. unfold frame_range at 1. rewrite framesize_Wav. fold (Wave.framesize f).
    cbn [frames].
    rewrite drop_app_length' by now rewrite length_replicate.
    apply take_ge. replace (Wave.nframes f + n - n) with (Wave.nframes f) by lia.
    lia.
  - intros Hw. apply frame_range_all. unfold pcm_ok. repeat split; (assumption || lia).
Qed.

Lemma apply_offset_pad_witness :
  exists out,
    apply_offset ["a"; "in.wav"] ["a"; "out.wav"] 3 demo_world
    = (Return tt,
       World (<[["a"; "out.wav"] := File (WavData out)]> (files demo_world))
             (stdout demo_world))
    /\ frames out
       = replicate (Z.to_nat (framerate demo_wav * 3 / 1000
                              * nchannels demo_wav * sampwidth demo_wav)) Byte.x00
         ++ frame_range demo_wav 0 (Wave.nframes demo_wav)
    /\ Wave.nframes out = Wave.nframes demo_wav + framerate demo_wav * 3 / 1000
    /\ frame_range out 0 (framerate demo_wav * 3 / 1000)
       = replicate (Z.to_nat (framerate demo_wav * 3 / 1000 * Wave.framesize demo_wav)) Byte.x00
    /\ frame_range out (framerate demo_wav * 3 / 1000) (Wave.nframes out)
       = frame_range demo_wav 0 (Wave.nframes demo_wav)
    /\ (Z.of_nat (length (frames demo_wav)) = Wave.nframes demo_wav * Wave.framesize demo_wav ->
        frame_range demo_wav 0 (Wave.nframes demo_wav) = frames demo_wav).
Proof.
  apply (apply_offset_pad ["a"; "in.wav"] ["a"; "out.wav"] 3 demo_wav demo_world).
  - reflexivity.
  - unfold writable; cbn; lia.
  - lia.
  - reflexivity.
  - vm_compute; repeat split; reflexivity.
Defined.

(** C4 as stated fails: two frames of two 64-bit samples and a delay of
    1 ms at 48000 frames per second call for 48 frames of silence, yet
    [apply_offset] raises, because the writer takes no sample wider than
    four bytes, and leaves an empty destination. *)
Lemma apply_offset_pad_fails_on_64bit :
  files (World wide_fs []) !! ["a"; "in64.wav"] = Some (File (WavData wav_64bit))
  /\ offset_frames (framerate wav_64bit) 1 = Return 48
  /\ apply_offset ["a"; "in64.wav"] ["a"; "out.wav"] 1 (World wide_fs [])
     = (Raise (WaveError "sample width not specified"),
        World (<[["a"; "out.wav"] := File (Blob [])]> wide_fs) []).
Proof. repeat split; vm_compute; reflexivity. Qed.

(** C5 (amended): for a source the writer takes, with a data chunk of
    whole frames and header fields in range, a delay of zero gives the
    destination the source container itself: the same payload, byte for
    byte, and the same channel count, sample width, frame rate and
    compression tag. *)
Theorem apply_offset_zero src dst f w :
  files w !! src = Some (File (WavData f)) ->
  pcm_ok f ->
  fields_fit (nchannels f) (sampwidth f) (framerate f) (Z.of_nat (length (frames f))) ->
  can_create (files w) dst = true ->
  apply_offset src dst 0 w
  = (Return tt, World (<[dst := File (WavData f)]> (files w)) (stdout w)).
Proof.
  intros Hsrc Hok Hfit Hcan.
  pose proof Hok as (Hc & Hs & Hr & Hw).
  rewrite (apply_offset_unfold src dst 0 f 0 w)
    by (try assumption; try apply offset_frames_zero; lia).
  cbn [Z.ltb Z.compare].
  rewrite frame_range_all by assumption.
  rewrite copy_out_ok; [|unfold writable; lia|assumption|assumption].
  destruct f; reflexivity.
Qed.

Lemma apply_offset_zero_witness :
  apply_offset ["a"; "in.wav"] ["a"; "out.wav"] 0 demo_world
  = (Return tt,
     World (<[["a"; "out.wav"] := File (WavData demo_wav)]> (files demo_world))
           (stdout demo_world)).
Proof.
  apply (apply_offset_zero ["a"; "in.wav"] ["a"; "out.wav"] demo_wav demo_world).
  - reflexivity.
  - unfold pcm_ok; cbn; repeat split; lia.
  - vm_compute; repeat split; reflexivity.
  - reflexivity.
Defined.

(** C5 as stated fails: on two frames of one 48-bit sample a delay of
    zero does not copy the container; [apply_offset] raises, because the
    writer takes no sample wider than four bytes, and leaves an empty
    destination. *)
Lemma apply_offset_zero_fails_on_48bit :
  files (World wide_fs []) !! ["a"; "in48.wav"] = Some (File (WavData wav_48bit))
  /\ apply_offset ["a"; "in48.wav"] ["a"; "out.wav"] 0 (World wide_fs [])
     = (Raise (WaveError "sample width not specified"),
        World (<[["a"; "out.wav"] := File (Blob [])]> wide_fs) []).
Proof. repeat split; vm_compute; reflexivity. Qed.

(* ===================================================================== *)
(** * The frame offset *)
(* ===================================================================== *)

(** C7 (amended): while [framerate * abs(delay_ms)] stays below [2^53],
    the frame offset is the floor of [framerate * abs(delay_ms) / 1000]
    in exact arithmetic. *)
Theorem offset_frames_floor framerate delay_ms :
  0 <= framerate ->
  framerate * Z.abs delay_ms < 2 ^ 53 ->
  offset_frames framerate delay_ms = Return (framerate * Z.abs delay_ms / 1000).
Proof. apply offset_frames_small. Qed.

Lemma offset_frames_floor_witness :
  0 <= 44100 /\ 44100 * Z.abs (-60) < 2 ^ 53
  /\ offset_frames 44100 (-60) = Return (44100 * Z.abs (-60) / 1000).
Proof.
  split; [lia|]. split; [reflexivity|].
  apply (offset_frames_floor 44100 (-60)); [lia | reflexivity].
Defined.

(** C7 as stated fails: at one frame per second and a delay of
    17592186044416999 ms the float quotient rounds up to the next
    integer, one frame more than the exact floor. *)
Lemma offset_frames_floor_fails :
  ~ (forall framerate delay_ms,
       0 <= framerate ->
       offset_frames framerate delay_ms = Return (framerate * Z.abs delay_ms / 1000)).
Proof.
  intros H. specialize (H 1 17592186044416999 ltac:(lia)).
  vm_compute in H. discriminate H.
Qed.

(* ===================================================================== *)
(** * [repack_ark] *)
(* ===================================================================== *)

(** C1: without the marker [ark.txt] in the workspace, [repack_ark]
    returns normally after printing that it skips, starts no program and
    leaves the file system as it was; whenever it does start a program,
    the marker was there and the program is the pack operation; and with
    the marker and the archive tool in place it starts it. *)
Theorem repack_ark_marker_guard system temp_dir hdr_folder arkhelper w :
  let marker := joinpath temp_dir "ark.txt" in
  let pack := Dir2Ark arkhelper temp_dir hdr_folder "MAIN" "4073741823" in
  let '(r, w') := repack_ark system temp_dir hdr_folder arkhelper w in
  exists evs,
    stdout w' = stdout w ++ evs
    /\ (files w !! marker = None ->
        r = Return tt /\ files w' = files w
        /\ evs = [Printed ("Skipping repack in " +:+ path_str temp_dir
                           +:+ "; marker file 'ark.txt' not found.")])
    /\ (forall c, Ran c ∈ evs -> is_Some (files w !! marker) /\ c = pack)
    /\ (is_Some (files w !! marker) ->
        (exists c, files w !! arkhelper = Some (File c)) ->
        Ran pack ∈ evs).
Proof.
  intros marker pack.
  destruct (repack_ark system temp_dir hdr_folder arkhelper w) as [r w'] eqn:E.
  revert E. unfold repack_ark, bind, path_exists, is_present, print.
  fold marker. destruct (files w !! marker) as [m|] eqn:Em; cbn.
  - unfold subprocess_run. cbn.
    destruct (files w !! arkhelper) as [[|c]|] eqn:Ea.
    + intros [= <- <-]. cbn. eexists. split; [reflexivity|]. split; [discriminate|]. split.
      * intros c Hc. apply list_elem_of_singleton in Hc. discriminate.
      * intros _ [c Hc]. discriminate.
    + fold pack. destruct (system pack (files w)) as [rc fs'].
      intros E.
      exists [Printed ("Repacking from " +:+ path_str temp_dir +:+ " into " +:+ path_str hdr_folder);
              Ran pack].
      split; [destruct (rc =? 0); injection E as <- <-; cbn; now rewrite <- app_assoc|].
      split; [discriminate|]. split.
      * intros c' Hc. split; [eauto|].
        apply elem_of_cons in Hc as [Hc|Hc]; [discriminate|].
        apply list_elem_of_singleton in Hc. congruence.
      * intros _ _. apply elem_of_cons. right. apply list_elem_of_singleton. reflexivity.
    + intros [= <- <-]. cbn. eexists. split; [reflexivity|]. split; [discriminate|]. split.
      * intros c Hc. apply list_elem_of_singleton in Hc. discriminate.
      * intros _ [c Hc]. discriminate.
  - intros [= <- <-]. cbn. eexists. split; [reflexivity|]. split; [auto|]. split.
    + intros c Hc. apply list_elem_of_singleton in Hc. discriminate.
    + intros [x Hx]. discriminate.
Qed.

(* ===================================================================== *)
(** * A failed unpack ends the run *)
(* ===================================================================== *)

(** C2 (defect): with two archive units and an unpack operation that
    exits with status 1, [main] ends with the uncaught
    [CalledProcessError] of the first unit it tries: nothing is printed
    about the failure, the workspace [temp_out] of that unit stays, and
    the other unit is never unpacked (one program was started in all). *)
Theorem main_aborts_on_failed_unpack :
  let run := main failing_unpack no_build_iso {| delay := Some (-60); skip := false |}
                  ["app"] "" (World two_units_fs []) in
  let arkhelper := ["app"; "z_dependencies"; "arkhelper.exe"] in
  let unpack := Ark2Dir arkhelper ["app"; "main"; "d2"; "MAIN.HDR"]
                        ["app"; "main"; "d2"; "temp_out"] in
  fst run = Raise (CalledProcessError unpack 1)
  /\ files (snd run) !! ["app"; "main"; "d2"; "temp_out"] = Some Dir
  /\ List.filter is_ran (stdout (snd run)) = [Ran unpack]
  /\ rglob two_units_fs ["app"; "main"] "MAIN.HDR"
     = [["app"; "main"; "d2"; "MAIN.HDR"]; ["app"; "main"; "d1"; "MAIN.HDR"]].
Proof. vm_compute. repeat split; reflexivity. Qed.

(* ===================================================================== *)
(** * A stem that ends in a line feed *)
(* ===================================================================== *)

(** C8 (defect): the track [songs/a_p50<LF>.vgs] lies under [songs], has no
    [tutorial] or [sfx] component, and its stem [a_p50<LF>] does not end
    with [_p] and two digits; [rglob] finds it, yet [gather_vgs_files]
    returns nothing, because [$] also matches before a final line feed. *)
Theorem gather_vgs_files_drops_newline_stem :
  let p := ["songs"; "a_p50" +:+ PyStr.nl +:+ ".vgs"] in
  let parts_lower := map PyStr.lower (parts p) in
  rglob newline_fs [] "*.vgs" = [p]
  /\ str_in "tutorial" parts_lower = false
  /\ str_in "sfx" parts_lower = false
  /\ str_in "songs" parts_lower = true
  /\ stem p = "a_p50" +:+ PyStr.nl
  /\ ends_with_practice_tag (PyStr.lower (stem p)) = false
  /\ fst (gather_vgs_files [] (World newline_fs [])) = Return [].
Proof. vm_compute. repeat split; reflexivity. Qed.

(* ===================================================================== *)
(** * Which exceptions the operations raise *)
(* ===================================================================== *)

Lemma raises_only_bind {S A B} (P : exn -> Prop) (m : ST S A) (k : A -> ST S B) :
  raises_only P m -> (forall a, raises_only P (k a)) -> raises_only P (bind m k).
Proof.
  intros Hm Hk s e s'. unfold bind.
  destruct (m s) as [[a|e0] s1] eqn:Em.
  - apply Hk.
  - intros [= <- <-]. eapply Hm, Em.
Qed.

Lemma raises_only_ret {S A} (P : exn -> Prop) (a : A) : raises_only P (@ret S A a).
Proof. intros s e s'. discriminate. Qed.

Lemma raises_only_raise {S A} (P : exn -> Prop) e : P e -> raises_only P (@raise S A e).
Proof. intros He s e' s' [= <- _]. exact He. Qed.

Lemma raises_only_print P line : raises_only P (print line).
Proof. intros s e s'. discriminate. Qed.

Lemma raises_only_print_exn P a e b : raises_only P (print_exn a e b).
Proof. intros s e' s'. discriminate. Qed.

Lemma raises_only_path_exists P p : raises_only P (path_exists p).
Proof. intros s e s'. discriminate. Qed.

Lemma raises_only_get_files P : raises_only P get_files.
Proof. intros s e s'. discriminate. Qed.

Lemma raises_only_when {S} P b (m : ST S unit) : raises_only P m -> raises_only P (when b m).
Proof. destruct b; [auto|]. intros _. apply raises_only_ret. Qed.

Lemma raises_only_for_each {S A} P (l : list A) (body : A -> ST S unit) :
  (forall x, raises_only P (body x)) -> raises_only P (for_each l body).
Proof.
  intros Hb. induction l as [|x l IH]; cbn.
  - apply raises_only_ret.
  - apply raises_only_bind; auto.
Qed.

Lemma raises_only_lift_offset_frames {S} fr d :
  raises_only (fun e => is_Exception e = true) (@lift S Z (offset_frames fr d)).
Proof.
  intros s e s'. unfold lift, offset_frames. intros [= H _]. revert H.
  destruct (Float64.float_of_int _); try (intros [= <-]; reflexivity);
    destruct (Float64.int_of_float _); try discriminate; intros [= <-]; reflexivity.
Qed.

Lemma raises_only_unlink p : raises_only (fun e => is_Exception e = true) (unlink p).
Proof.
  intros s e s'. unfold unlink.
  destruct (files s !! p) as [[|c]|]; intros [= <- _]; reflexivity.
Qed.

Lemma raises_only_create_file p c :
  raises_only (fun e => is_Exception e = true) (create_file p c).
Proof.
  intros s e s'. unfold create_file.
  destruct (files s !! p) as [[|c0]|]; try (intros [= <- _]; reflexivity); try discriminate.
  destruct (files s !! parent p) as [[|c0]|]; try (intros [= <- _]; reflexivity); discriminate.
Qed.

Lemma raises_only_touch p : raises_only (fun e => is_Exception e = true) (touch p).
Proof.
  intros s e s'. unfold touch.
  destruct (files s !! p); [discriminate|]. apply raises_only_create_file.
Qed.

Lemma raises_only_os_replace src dst :
  raises_only (fun e => is_Exception e = true) (os_replace src dst).
Proof.
  intros s e s'. unfold os_replace.
  destruct (files s !! src) as [n|]; [|intros [= <- _]; reflexivity].
  destruct (bool_decide (src = dst)); [discriminate|].
  destruct (files s !! parent dst) as [[|c0]|]; try (intros [= <- _]; reflexivity).
  destruct n as [|c].
  - destruct (files s !! dst) as [[|c0]|]; try (intros [= <- _]; reflexivity);
      destruct (bool_decide (src `prefix_of` dst)); try (intros [= <- _]; reflexivity);
      destruct (has_children (files s) dst); try (intros [= <- _]; reflexivity); discriminate.
  - destruct (files s !! dst) as [[|c0]|]; try (intros [= <- _]; reflexivity); discriminate.
Qed.

Lemma os_mkdir_Exception fs p e : os_mkdir fs p = inl e -> is_Exception e = true.
Proof.
  unfold os_mkdir. destruct (fs !! p); [intros [= <-]; reflexivity|].
  destruct p; [intros [= <-]; reflexivity|].
  destruct (fs !! parent _) as [[|c]|]; try discriminate; intros [= <-]; reflexivity.
Qed.

Lemma mkdir_parents_Exception rp : forall fs e,
  mkdir_parents fs rp = inl e -> is_Exception e = true.
Proof.
  induction rp as [|s rp IH]; intros fs e; cbn [mkdir_parents].
  - destruct (os_mkdir fs (rev [])) as [e0|fs'] eqn:E; [|discriminate].
    pose proof (os_mkdir_Exception _ _ _ E) as He0.
    destruct e0; try discriminate He0;
      try (destruct (is_dir fs (rev [])); [discriminate|]);
      intros [= <-]; reflexivity.
  - destruct (os_mkdir fs (rev (s :: rp))) as [e0|fs'] eqn:E; [|discriminate].
    pose proof (os_mkdir_Exception _ _ _ E) as He0.
    destruct e0; try discriminate He0;
      try (destruct (is_dir fs (rev (s :: rp))); [discriminate|intros [= <-]; reflexivity]).
    destruct (mkdir_parents fs rp) as [e1|fs1] eqn:E1.
    + intros [= <-]. eapply IH, E1.
    + destruct (os_mkdir fs1 (rev (s :: rp))) as [e2|fs2] eqn:E2; [|discriminate].
      destruct (is_dir fs1 (rev (s :: rp))); [discriminate|].
      intros [= <-]. eapply os_mkdir_Exception, E2.
Qed.

Lemma raises_only_mkdir_exist_ok p parents :
  raises_only (fun e => is_Exception e = true) (mkdir_exist_ok p parents).
Proof.
  intros s e s'. unfold mkdir_exist_ok. destruct parents.
  - destruct (mkdir_parents (files s) (rev p)) as [e0|fs'] eqn:E; [|discriminate].
    intros [= <- _]. eapply mkdir_parents_Exception, E.
  - destruct (os_mkdir (files s) p) as [e0|fs'] eqn:E; [|discriminate].
    pose proof (os_mkdir_Exception _ _ _ E) as He0.
    destruct e0; try discriminate He0;
      try (destruct (is_dir (files s) p); [discriminate|]);
      intros [= <- _]; reflexivity.
Qed.

Lemma raises_only_rmtree P p : raises_only P (rmtree_ignore_errors p).
Proof.
  intros s e s'. unfold rmtree_ignore_errors. destruct (is_dir (files s) p); discriminate.
Qed.

Lemma riff_error_Exception b : is_Exception (Wave.riff_error b) = true.
Proof.
  unfold Wave.riff_error.
  destruct (_ <? 8); [reflexivity|].
  destruct (negb _); [reflexivity|].
  destruct (negb _); reflexivity.
Qed.

Lemma raises_only_open_rb p : raises_only (fun e => is_Exception e = true) (Wave.open_rb p).
Proof.
  intros s e s'. unfold Wave.open_rb.
  destruct (files s !! p) as [[|[f|b]]|]; try (intros [= <- _]; reflexivity).
  - destruct (sampwidth f <=? 0); [intros [= <- _]; reflexivity|].
    destruct (nchannels f <=? 0); [intros [= <- _]; reflexivity|discriminate].
  - intros [= <- _]. apply riff_error_Exception.
Qed.

Lemma raises_only_setpos r pos :
  raises_only (fun e => is_Exception e = true) (Wave.setpos r pos).
Proof.
  intros s e s'. unfold Wave.setpos.
  destruct (_ || _); [intros [= <- _]; reflexivity|discriminate].
Qed.

Lemma header_error_Exception ch sw fr len e :
  Wave.header_error ch sw fr len = Some e -> is_Exception e = true.
Proof.
  unfold Wave.header_error.
  repeat (destruct (negb _); [intros [= <-]; reflexivity|]). discriminate.
Qed.

Lemma raises_only_ensure_header_written datasize :
  raises_only (fun e => is_Exception e = true) (Wave.ensure_header_written datasize).
Proof.
  intros o e o'.
  unfold Wave.ensure_header_written. destruct (Wave.ww_written o); [discriminate|].
  destruct (_ =? 0); [intros [= <- _]; reflexivity|].
  destruct (_ =? 0); [intros [= <- _]; reflexivity|].
  destruct (_ =? 0); [intros [= <- _]; reflexivity|].
  unfold Wave.write_header.
  destruct (Wave.header_error _ _ _ _) as [x|] eqn:Eh; [|discriminate].
  intros [= <- _]. eapply header_error_Exception, Eh.
Qed.

Lemma raises_only_patchheader :
  raises_only (fun e => is_Exception e = true) Wave.patchheader.
Proof.
  intros o e o'. unfold Wave.patchheader.
  destruct (_ =? _); [discriminate|].
  destruct (negb _); [intros [= <- _]; reflexivity|discriminate].
Qed.

Lemma raises_only_patch_if_needed :
  raises_only (fun e => is_Exception e = true)
    (fun o => if Wave.ww_datalength o =? Wave.datawritten o
              then (Return tt, o) else Wave.patchheader o).
Proof.
  intros o e o'. destruct (_ =? _); [discriminate|]. apply raises_only_patchheader.
Qed.

Lemma raises_only_close : raises_only (fun e => is_Exception e = true) Wave.close.
Proof.
  unfold Wave.close. apply raises_only_bind.
  - apply raises_only_ensure_header_written.
  - intros _. apply raises_only_patch_if_needed.
Qed.

Lemma raises_only_with_open_wb p body :
  raises_only (fun e => is_Exception e = true) body ->
  raises_only (fun e => is_Exception e = true) (Wave.with_open_wb p body).
Proof.
  intros Hb. unfold Wave.with_open_wb. apply raises_only_bind.
  - apply raises_only_create_file.
  - intros _ s e s'.
    destruct (body Wave.fresh) as [r o] eqn:Eb.
    destruct (Wave.close o) as [rc o'] eqn:Ec.
    destruct rc as [u|e1].
    + intros [= -> _]. eapply Hb, Eb.
    + intros [= <- _]. eapply raises_only_close, Ec.
Qed.

Lemma raises_only_writer ch sw fr ct cn data :
  raises_only (fun e => is_Exception e = true)
    (Wave.setnchannels ch ;; Wave.setsampwidth sw ;; Wave.setframerate fr ;;
     Wave.setcomptype ct cn ;; Wave.writeframes data).
Proof.
  apply raises_only_bind; [|intros _; apply raises_only_bind; [|intros _;
    apply raises_only_bind; [|intros _; apply raises_only_bind; [|intros _]]]].
  - intros s e s'. unfold Wave.setnchannels.
    destruct (Wave.started _); [intros [= <- _]; reflexivity|].
    destruct (_ <? _); [intros [= <- _]; reflexivity|discriminate].
  - intros s e s'. unfold Wave.setsampwidth.
    destruct (Wave.started _); [intros [= <- _]; reflexivity|].
    destruct (_ || _); [intros [= <- _]; reflexivity|discriminate].
  - intros s e s'. unfold Wave.setframerate.
    destruct (Wave.started _); [intros [= <- _]; reflexivity|].
    destruct (_ <=? _); [intros [= <- _]; reflexivity|discriminate].
  - intros s e s'. unfold Wave.setcomptype.
    destruct (Wave.started _); [intros [= <- _]; reflexivity|].
    destruct (negb _); [intros [= <- _]; reflexivity|discriminate].
  - unfold Wave.writeframes. apply raises_only_bind.
    + unfold Wave.writeframesraw. apply raises_only_bind.
      * apply raises_only_ensure_header_written.
      * intros _ s e s'. discriminate.
    + intros _. apply raises_only_patch_if_needed.
Qed.

Lemma raises_only_apply_offset src dst d :
  raises_only (fun e => is_Exception e = true) (apply_offset src dst d).
Proof.
  unfold apply_offset.
  apply raises_only_bind; [apply raises_only_open_rb|intros infile].
  apply raises_only_bind; [apply raises_only_lift_offset_frames|intros n].
  apply raises_only_bind.
  - destruct (d <? 0).
    + destruct (_ <=? _); [apply raises_only_raise; reflexivity|].
      apply raises_only_bind; [apply raises_only_setpos|intros r; apply raises_only_ret].
    + destruct (0 <? d); apply raises_only_ret.
  - intros data. apply raises_only_with_open_wb, raises_only_writer.
Qed.

Lemma raises_only_subprocess_run system c :
  raises_only (fun e => is_Exception e = true) (subprocess_run system c).
Proof.
  intros s e s'. unfold subprocess_run.
  destruct (files s !! executable c) as [[|x]|]; try (intros [= <- _]; reflexivity).
  destruct (system c (files s)) as [rc fs'].
  destruct (rc =? 0); [discriminate|intros [= <- _]; reflexivity].
Qed.

Lemma raises_only_convert_steps system vgs_path temp_wav processed_wav temp_vgs d rockaudio :
  raises_only (fun e => is_Exception e = true)
    (convert_steps system vgs_path temp_wav processed_wav temp_vgs d rockaudio).
Proof.
  unfold convert_steps.
  apply raises_only_bind; [apply raises_only_print|intros _].
  apply raises_only_bind; [apply raises_only_subprocess_run|intros _].
  apply raises_only_bind; [apply raises_only_print|intros _].
  apply raises_only_bind; [apply raises_only_apply_offset|intros _].
  apply raises_only_bind; [apply raises_only_print|intros _].
  apply raises_only_bind; [apply raises_only_subprocess_run|intros _].
  apply raises_only_bind; [apply raises_only_print|intros _].
  apply raises_only_os_replace.
Qed.

(** A [try] whose body raises only what the [except] clause catches, and
    whose handler never raises, returns. *)
Lemma try_except_returns {S A} (body : ST S A) catches (handler : exn -> ST S A) s :
  raises_only (fun e => catches e = true) body ->
  (forall e, raises_only (fun _ => False) (handler e)) ->
  exists a, fst (try_except body catches handler s) = Return a.
Proof.
  intros Hb Hh. unfold try_except.
  destruct (body s) as [[a|e] s1] eqn:Eb; [eauto|].
  rewrite (Hb _ _ _ Eb).
  destruct (handler e s1) as [[a|e'] s2] eqn:Eh; [eauto|].
  exfalso. apply (Hh e s1 e' s2). exact Eh.
Qed.

(* ===================================================================== *)
(** * Names and paths *)
(* ===================================================================== *)

Lemma string_app_inv_head (a x y : string) : a +:+ x = a +:+ y -> x = y.
Proof.
  induction a as [|c a IH]; [auto|].
  change (String c (a +:+ x) = String c (a +:+ y) -> x = y). intros [= H]. auto.
Qed.

Lemma string_app_nil_r (s : string) : s +:+ "" = s.
Proof.
  induction s as [|c s IH]; [reflexivity|].
  change (String c (s +:+ "") = String c s). now f_equal.
Qed.

Lemma rsplit_dot_spec s a b :
  PyStr.rsplit_dot s = Some (a, b) -> s = a +:+ String "." b.
Proof.
  revert a b. induction s as [|c s IH]; intros a b; cbn; [discriminate|].
  destruct (PyStr.rsplit_dot s) as [[a' b']|].
  - intros [= <- <-]. change (String c s = String c (a' +:+ String "." b')).
    f_equal. apply IH. reflexivity.
  - destruct (Ascii.eqb_spec c "."); [|discriminate].
    intros [= <- <-]. subst c. reflexivity.
Qed.

(** A name is its stem followed by nothing or by a suffix that starts
    with a dot. *)
Lemma stem_of_split n :
  exists rest, n = stem_of n +:+ rest /\ (rest = "" \/ exists r, rest = String "." r).
Proof.
  unfold stem_of. destruct (PyStr.rsplit_dot n) as [[a b]|] eqn:E.
  - apply rsplit_dot_spec in E.
    destruct a as [|c a]; [|destruct b as [|d b]].
    + exists "". split; [|auto]. symmetry. apply string_app_nil_r.
    + exists "". split; [|auto]. symmetry. apply string_app_nil_r.
    + exists (String "." (String d b)). split; [exact E|eauto].
  - exists "". split; [|auto]. symmetry. apply string_app_nil_r.
Qed.

(** No name equals its stem followed by text that starts with [_]. *)
Lemma name_neq_stem_underscore n tail : n <> stem_of n +:+ String "_" tail.
Proof.
  destruct (stem_of_split n) as (rest & Hn & [->|[r ->]]); intros H; rewrite Hn in H at 1;
    apply string_app_inv_head in H; discriminate.
Qed.

Lemma path_parent_name (p : Path) : name p <> "" -> p = parent p ++ [name p].
Proof.
  unfold name, parent. induction p as [|s p IH]; cbn; [congruence|].
  destruct p as [|t p]; [reflexivity|]. intros H.
  change (s :: t :: p = s :: (removelast (t :: p) ++ [default "" (last (t :: p))])).
  f_equal. apply IH. exact H.
Qed.

Lemma sibling_prefix (d : Path) (a b : string) : d ++ [a] `prefix_of` d ++ [b] -> a = b.
Proof. intros H. apply prefix_app_inv in H. eapply prefix_cons_inv_1, H. Qed.

Lemma sibling_neq (d : Path) (a b : string) : a <> b -> d ++ [a] <> d ++ [b].
Proof. intros Hab H. apply app_inv_head in H. congruence. Qed.

(* ===================================================================== *)
(** * What the file operations touch *)
(* ===================================================================== *)

Lemma lookup_without_subtree p fs k :
  ~ p `prefix_of` k -> without_subtree p fs !! k = fs !! k.
Proof.
  intros Hk. unfold without_subtree.
  destruct (fs !! k) as [n|] eqn:E.
  - apply map_lookup_filter_Some_2; auto.
  - apply map_lookup_filter_None_2. auto.
Qed.

Lemma lookup_without_subtree_under p fs k :
  p `prefix_of` k -> without_subtree p fs !! k = None.
Proof.
  intros Hk. unfold without_subtree. apply map_lookup_filter_None_2.
  right. intros x _ H. apply H. exact Hk.
Qed.

Lemma lookup_rebase_outside src dst fs k :
  ~ dst `prefix_of` k -> rebase src dst fs !! k = None.
Proof.
  intros Hk. unfold rebase. apply not_elem_of_list_to_map_1.
  rewrite <- list_fmap_compose. intros Hin.
  apply list_elem_of_fmap in Hin as (kv & -> & _). apply Hk. cbn.
  apply prefix_app_r. reflexivity.
Qed.

Lemma lookup_rebase_root src dst fs n :
  fs !! src = Some n -> rebase src dst fs !! dst = Some n.
Proof.
  intros Hsrc. unfold rebase.
  assert (Hsub : forall k v, (k, v) ∈ map_to_list (subtree src fs) ->
                   fs !! k = Some v /\ src `prefix_of` k).
  { intros k v Hin. apply elem_of_map_to_list in Hin.
    apply map_lookup_filter_Some in Hin. exact Hin. }
  apply elem_of_list_to_map_1'.
  - intros y Hin. apply list_elem_of_fmap in Hin as ([k v] & Heq & Hin).
    cbn in Heq. injection Heq as Hk ->.
    destruct (Hsub _ _ Hin) as [Hv [t ->]].
    rewrite drop_app_length in Hk.
    assert (t = []) as -> by (apply (app_inv_head dst); now rewrite app_nil_r).
    rewrite app_nil_r in Hv. congruence.
  - apply list_elem_of_fmap. exists (src, n). cbn. split.
    + rewrite drop_all. now rewrite app_nil_r.
    + apply elem_of_map_to_list. apply map_lookup_filter_Some_2; [exact Hsrc|]. reflexivity.
Qed.

(** [os.replace]: a failure changes nothing; a success changes nothing
    outside the two subtrees and puts the source node at the target. *)
Lemma os_replace_spec src dst w r w' :
  os_replace src dst w = (r, w') ->
  stdout w' = stdout w
  /\ (forall e, r = Raise e -> w' = w)
  /\ (forall p, ~ src `prefix_of` p -> ~ dst `prefix_of` p -> files w' !! p = files w !! p)
  /\ (r = Return tt -> files w' !! dst = files w !! src).
Proof.
  unfold os_replace.
  destruct (files w !! src) as [n|] eqn:Esrc.
  2:{ intros [= <- <-]. repeat split; auto; try discriminate. }
  destruct (bool_decide_reflect (src = dst)) as [->|Hne].
  { intros [= <- <-]. repeat split; auto; try discriminate. }
  destruct (files w !! parent dst) as [[|c0]|].
  2,3: intros [= <- <-]; repeat split; auto; try discriminate.
  destruct n as [|c].
  - destruct (files w !! dst) as [[|c0]|] eqn:Edst.
    2:{ intros [= <- <-]. repeat split; auto; try discriminate. }
    all: destruct (bool_decide (src `prefix_of` dst));
      [intros [= <- <-]; repeat split; auto; try discriminate|];
      destruct (has_children (files w) dst);
      [intros [= <- <-]; repeat split; auto; try discriminate|];
      intros [= <- <-]; cbn; repeat split; try discriminate.
    all: try (intros p Hs Hd; rewrite lookup_union_r by (now apply lookup_rebase_outside);
              now apply lookup_without_subtree).
    all: intros _; rewrite lookup_union_l' by (erewrite lookup_rebase_root; eauto);
      now apply lookup_rebase_root.
  - destruct (files w !! dst) as [[|c0]|] eqn:Edst.
    1:{ intros [= <- <-]. repeat split; auto; try discriminate. }
    all: intros [= <- <-]; cbn; repeat split; try discriminate.
    all: try (intros p Hs Hd; rewrite lookup_insert_ne, lookup_delete_ne;
              [reflexivity| intros ->; apply Hs; reflexivity | intros ->; apply Hd; reflexivity]).
    all: intros _; now rewrite lookup_insert_eq.
Qed.

Lemma unlink_spec p w r w' :
  unlink p w = (r, w') ->
  stdout w' = stdout w
  /\ (forall q, q <> p -> files w' !! q = files w !! q)
  /\ ((exists c, files w !! p = Some (File c)) -> r = Return tt /\ files w' !! p = None).
Proof.
  unfold unlink. destruct (files w !! p) as [[|c]|] eqn:E; intros [= <- <-]; cbn;
    (split; [reflexivity|]; split).
  - intros q _. reflexivity.
  - intros [c Hc]. discriminate.
  - intros q Hq. now apply lookup_delete_ne.
  - intros _. split; [reflexivity|]. apply lookup_delete_eq.
  - intros q _. reflexivity.
  - intros [c Hc]. discriminate.
Qed.

Lemma unlink_if_exists_spec p w :
  files w !! p <> Some Dir ->
  exists w',
    when (is_present (files w) p) (unlink p) w = (Return tt, w')
    /\ stdout w' = stdout w
    /\ files w' !! p = None
    /\ (forall q, q <> p -> files w' !! q = files w !! q).
Proof.
  intros Hp. unfold is_present, when, unlink, ret.
  destruct (files w !! p) as [[|c]|] eqn:E; [congruence| |].
  - cbv beta iota. rewrite E. eexists. split; [reflexivity|]. cbn. split; [reflexivity|]. split.
    + apply lookup_delete_eq.
    + intros q Hq. now apply lookup_delete_ne.
  - eexists. split; [reflexivity|]. split; [reflexivity|]. split; [exact E|]. auto.
Qed.

(** The [finally] block: when neither path is a directory, both are gone
    afterwards and nothing else has changed. *)
Lemma remove_temp_wavs_spec temp_wav processed_wav w :
  files w !! temp_wav <> Some Dir ->
  files w !! processed_wav <> Some Dir ->
  exists w',
    remove_temp_wavs temp_wav processed_wav w = (Return tt, w')
    /\ stdout w' = stdout w
    /\ files w' !! temp_wav = None
    /\ files w' !! processed_wav = None
    /\ (forall q, q <> temp_wav -> q <> processed_wav -> files w' !! q = files w !! q).
Proof.
  intros H1 H2.
  destruct (unlink_if_exists_spec temp_wav w H1) as (w1 & E1 & Ho1 & Hn1 & Hf1).
  assert (H2' : files w1 !! processed_wav <> Some Dir).
  { destruct (decide (processed_wav = temp_wav)) as [->|Hne]; [congruence|].
    now rewrite Hf1. }
  destruct (unlink_if_exists_spec processed_wav w1 H2') as (w2 & E2 & Ho2 & Hn2 & Hf2).
  exists w2. split.
  - unfold remove_temp_wavs, bind, path_exists. cbv beta iota. rewrite E1.
    cbv beta iota. exact E2.
  - split; [congruence|]. split; [|split; [exact Hn2|]].
    + destruct (decide (temp_wav = processed_wav)) as [->|Hne]; [exact Hn2|].
      now rewrite Hf2.
    + intros q Hq1 Hq2. rewrite Hf2, Hf1 by assumption. reflexivity.
Qed.

Lemma apply_offset_frame src dst d w r w' :
  apply_offset src dst d w = (r, w') ->
  stdout w' = stdout w
  /\ (forall p, p <> dst -> files w' !! p = files w !! p)
  /\ (files w' !! dst = files w !! dst \/ exists c, files w' !! dst = Some (File c)).
Proof.
  unfold apply_offset, bind at 1, Wave.open_rb.
  assert (Hsame : forall (e : exn), (Raise e : outcome unit, w) = (r, w') ->
            stdout w' = stdout w
            /\ (forall p, p <> dst -> files w' !! p = files w !! p)
            /\ (files w' !! dst = files w !! dst \/ exists c, files w' !! dst = Some (File c))).
  { intros e [= <- <-]. auto. }
  destruct (files w !! src) as [[|[f|b]]|]; try (apply Hsame).
  destruct (sampwidth f <=? 0); [apply Hsame|].
  destruct (nchannels f <=? 0); [apply Hsame|].
  unfold bind at 1, lift.
  destruct (offset_frames _ d) as [n|e]; [|apply Hsame].
  set (audio := if d <? 0 then _ else _).
  assert (Haudio : audio w = (fst (audio w), w)).
  { unfold audio. destruct (d <? 0).
    - destruct (_ <=? n); [reflexivity|].
      unfold bind, Wave.setpos. destruct (_ || _); reflexivity.
    - destruct (0 <? d); reflexivity. }
  unfold bind at 1. rewrite Haudio.
  destruct (fst (audio w)) as [data|e]; [|apply Hsame].
  intros H. apply with_open_wb_frame in H as (Hout & [->|[c Hc]]).
  - auto.
  - split; [exact Hout|]. split.
    + intros p Hp. rewrite Hc. now apply lookup_insert_ne.
    + right. exists c. rewrite Hc. apply lookup_insert_eq.
Qed.

Lemma subprocess_run_convert_frame system exe src dst w r w' :
  codec_writes_only_dst system ->
  subprocess_run system (Convert exe src dst) w = (r, w') ->
  (forall p, p <> dst -> files w' !! p = files w !! p)
  /\ (files w' !! dst = files w !! dst \/ exists c, files w' !! dst = Some (File c)).
Proof.
  intros Hcodec. unfold subprocess_run. cbn [executable].
  destruct (files w !! exe) as [[|x]|]; try (intros [= <- <-]; now auto).
  destruct (Hcodec exe src dst (files w)) as [Hframe Hdst].
  destruct (system (Convert exe src dst) (files w)) as [rc fs'].
  cbn in Hframe, Hdst.
  destruct (rc =? 0); intros [= <- <-]; cbn; auto.
Qed.

(* ===================================================================== *)
(** * One track through [process_vgs_files] *)
(* ===================================================================== *)

Section OneTrack.

Variable system : command -> gmap Path node -> Z * gmap Path node.
Variable vgs_path : Path.
Variable delay_ms : Z.
Variable rockaudio : Path.

Hypothesis codec_contract : codec_writes_only_dst system.
Hypothesis has_name : name vgs_path <> "".

Local Abbreviation T1 := (temp_wav_of vgs_path).
Local Abbreviation T2 := (processed_wav_of vgs_path).
Local Abbreviation T3 := (temp_vgs_of vgs_path).

Lemma temp_paths_apart :
  T1 <> T2 /\ T1 <> T3 /\ T2 <> T3
  /\ vgs_path <> T1 /\ vgs_path <> T2 /\ vgs_path <> T3
  /\ ~ T3 `prefix_of` T1 /\ ~ T3 `prefix_of` T2
  /\ ~ vgs_path `prefix_of` T1 /\ ~ vgs_path `prefix_of` T2.
Proof.
  unfold temp_wav_of, processed_wav_of, temp_vgs_of, stem.
  pose proof (path_parent_name vgs_path has_name) as Hp.
  assert (Hn : forall tail, name vgs_path <> stem_of (name vgs_path) +:+ String "_" tail)
    by (intros tail; apply name_neq_stem_underscore).
  repeat split.
  - intros H. apply app_inv_head in H. injection H as H.
    apply string_app_inv_head in H. discriminate.
  - intros H. apply app_inv_head in H. injection H as H.
    apply string_app_inv_head in H. discriminate.
  - intros H. apply app_inv_head in H. injection H as H.
    apply string_app_inv_head in H. discriminate.
  - intros H. rewrite Hp in H at 1. apply app_inv_head in H. injection H as H.
    exact (Hn _ H).
  - intros H. rewrite Hp in H at 1. apply app_inv_head in H. injection H as H.
    exact (Hn _ H).
  - intros H. rewrite Hp in H at 1. apply app_inv_head in H. injection H as H.
    exact (Hn _ H).
  - intros H. apply sibling_prefix, string_app_inv_head in H. discriminate.
  - intros H. apply sibling_prefix, string_app_inv_head in H. discriminate.
  - intros H. rewrite Hp in H at 1. apply sibling_prefix in H. exact (Hn _ H).
  - intros H. rewrite Hp in H at 1. apply sibling_prefix in H. exact (Hn _ H).
Qed.

(** The [try] block, step by step. *)
Lemma convert_steps_outcome w0 r wc :
  files w0 !! T1 <> Some Dir ->
  files w0 !! T2 <> Some Dir ->
  convert_steps system vgs_path T1 T2 T3 delay_ms rockaudio w0 = (r, wc) ->
  files wc !! T1 <> Some Dir
  /\ files wc !! T2 <> Some Dir
  /\ match r with
     | Raise e => files wc !! vgs_path = files w0 !! vgs_path
     | Return _ =>
         exists w1 w2 w3,
           subprocess_run system (Convert rockaudio vgs_path T1)
             (printed w0 "  Converting to WAV...") = (Return tt, w1)
           /\ apply_offset T1 T2 delay_ms
                (printed w1 ("  Applying delay: " +:+ pretty delay_ms +:+ " ms"))
              = (Return tt, w2)
           /\ subprocess_run system (Convert rockaudio T2 T3)
                (printed w2 "  Converting back to VGS...") = (Return tt, w3)
           /\ os_replace T3 vgs_path (printed w3 "  Replacing original VGS...")
              = (Return tt, wc)
           /\ files wc !! vgs_path = files w3 !! T3
     end.
Proof.
  intros H1 H2.
  destruct temp_paths_apart as (N12 & N13 & N23 & NA1 & NA2 & NA3 & P31 & P32 & PA1 & PA2).
  unfold convert_steps, bind at 1, print. fold (printed w0 "  Converting to WAV...").
  unfold bind at 1.
  destruct (subprocess_run system (Convert rockaudio vgs_path T1) _) as [[[]|e1] w1] eqn:E1.
  2:{ intros [= <- <-].
      apply subprocess_run_convert_frame in E1 as [F1 D1]; [|assumption]. cbn in F1, D1.
      split; [destruct D1 as [->|[c ->]]; [assumption|discriminate]|].
      split; [rewrite F1 by congruence; assumption|].
      apply F1. congruence. }
  pose proof E1 as E1'.
  apply subprocess_run_convert_frame in E1' as [F1 D1]; [|assumption]. cbn in F1, D1.
  unfold bind at 1. fold (printed w1 ("  Applying delay: " +:+ pretty delay_ms +:+ " ms")).
  unfold bind at 1.
  destruct (apply_offset T1 T2 delay_ms _) as [[[]|e2] w2] eqn:E2.
  2:{ intros [= <- <-].
      apply apply_offset_frame in E2 as (_ & F2 & D2). cbn in F2, D2.
      split; [rewrite F2 by congruence; destruct D1 as [->|[c ->]]; [assumption|discriminate]|].
      split; [destruct D2 as [->|[c ->]]; [rewrite F1 by congruence; assumption|discriminate]|].
      rewrite F2, F1 by congruence. reflexivity. }
  pose proof E2 as E2'.
  apply apply_offset_frame in E2' as (_ & F2 & D2). cbn in F2, D2.
  unfold bind at 1. fold (printed w2 "  Converting back to VGS...").
  unfold bind at 1.
  destruct (subprocess_run system (Convert rockaudio T2 T3) _) as [[[]|e3] w3] eqn:E3.
  2:{ intros [= <- <-].
      apply subprocess_run_convert_frame in E3 as [F3 D3]; [|assumption]. cbn in F3, D3.
      split; [rewrite F3, F2 by congruence; destruct D1 as [->|[c ->]]; [assumption|discriminate]|].
      split; [rewrite F3 by congruence;
              destruct D2 as [->|[c ->]]; [rewrite F1 by congruence; assumption|discriminate]|].
      rewrite F3, F2, F1 by congruence. reflexivity. }
  pose proof E3 as E3'.
  apply subprocess_run_convert_frame in E3' as [F3 D3]; [|assumption]. cbn in F3, D3.
  assert (G1 : files w3 !! T1 <> Some Dir).
  { rewrite F3, F2 by congruence. destruct D1 as [->|[c ->]]; [assumption|discriminate]. }
  assert (G2 : files w3 !! T2 <> Some Dir).
  { rewrite F3 by congruence.
    destruct D2 as [->|[c ->]]; [rewrite F1 by congruence; assumption|discriminate]. }
  unfold bind at 1. fold (printed w3 "  Replacing original VGS...").
  intros E4. pose proof E4 as E4'.
  apply os_replace_spec in E4' as (_ & Hfail & Hframe & Hdst). cbn in Hframe, Hdst.
  destruct r as [[]|e4].
  - split; [rewrite Hframe by assumption; exact G1|].
    split; [rewrite Hframe by assumption; exact G2|].
    exists w1, w2, w3. repeat split; try assumption. apply Hdst. reflexivity.
  - rewrite (Hfail e4 eq_refl). cbn.
    split; [exact G1|]. split; [exact G2|].
    rewrite F3, F2, F1 by congruence. reflexivity.
Qed.

(** X14: for a track with a name, a codec that writes nothing but its
    destination, and temporary WAV paths that are not directories, one
    turn of [process_vgs_files] returns normally and leaves neither
    temporary WAV behind; and if the track's file differs afterwards,
    then both conversions and the offset in between returned normally,
    the rename of the temporary track onto it succeeded, and it now
    holds what the second conversion left in the temporary track. *)
Theorem process_vgs_file_keeps_original w :
  files w !! T1 <> Some Dir ->
  files w !! T2 <> Some Dir ->
  let '(r, w') := process_vgs_file system vgs_path delay_ms rockaudio w in
  r = Return tt
  /\ files w' !! T1 = None
  /\ files w' !! T2 = None
  /\ (files w' !! vgs_path <> files w !! vgs_path ->
      exists w0 w1 w2 w3 w4,
        files w0 = files w
        /\ subprocess_run system (Convert rockaudio vgs_path T1)
             (printed w0 "  Converting to WAV...") = (Return tt, w1)
        /\ apply_offset T1 T2 delay_ms
             (printed w1 ("  Applying delay: " +:+ pretty delay_ms +:+ " ms"))
           = (Return tt, w2)
        /\ subprocess_run system (Convert rockaudio T2 T3)
             (printed w2 "  Converting back to VGS...") = (Return tt, w3)
        /\ os_replace T3 vgs_path (printed w3 "  Replacing original VGS...")
           = (Return tt, w4)
        /\ files w' !! vgs_path = files w3 !! T3).
Proof.
  intros H1 H2.
  destruct temp_paths_apart as (N12 & N13 & N23 & NA1 & NA2 & NA3 & P31 & P32 & PA1 & PA2).
  unfold process_vgs_file, bind at 1, print. unfold bind at 1. unfold bind at 1.
  unfold bind at 1, with_name.
  replace (String.eqb (name vgs_path) "") with false
    by (symmetry; apply String.eqb_neq; exact has_name).
  unfold ret at 1. unfold bind at 1. unfold ret at 1. unfold bind at 1. unfold ret at 1.
  fold T1 T2 T3.
  match goal with
  | |- context [try_finally _ _ ?x] => set (w0 := x)
  end.
  assert (Hw0 : files w0 = files w) by reflexivity.
  unfold try_finally, try_except.
  destruct (convert_steps system vgs_path T1 T2 T3 delay_ms rockaudio w0) as [r wc] eqn:Ec.
  pose proof (raises_only_convert_steps system vgs_path T1 T2 T3 delay_ms rockaudio) as Hexn.
  apply convert_steps_outcome in Ec as Hout; [|rewrite Hw0; assumption..].
  destruct Hout as (G1 & G2 & Hr).
  destruct r as [[]|e].
  - destruct (remove_temp_wavs_spec T1 T2 wc G1 G2) as (w' & -> & _ & Z1 & Z2 & Hrest).
    split; [reflexivity|]. split; [exact Z1|]. split; [exact Z2|].
    intros _. destruct Hr as (w1 & w2 & w3 & E1 & E2 & E3 & E4 & Hdst).
    exists w0, w1, w2, w3, wc. repeat split; try assumption.
    rewrite Hrest by congruence. exact Hdst.
  - rewrite (Hexn _ _ _ Ec). unfold print_exn.
    match goal with
    | |- context [remove_temp_wavs _ _ ?x] => set (wh := x)
    end.
    destruct (remove_temp_wavs_spec T1 T2 wh G1 G2) as (w' & -> & _ & Z1 & Z2 & Hrest).
    split; [reflexivity|]. split; [exact Z1|]. split; [exact Z2|].
    intros Hchg. exfalso. apply Hchg.
    rewrite Hrest by congruence. cbn. rewrite Hr. now rewrite Hw0.
Qed.

End OneTrack.

(** C10: the claim fails where one discovered track is named as the
    temporary track of another.  With [t.vgs] and [t_temp.vgs] under
    [songs], both are discovered, and the temporary track of [t.vgs] is
    [t_temp.vgs]: the turn of [t.vgs] has the codec write its result
    over [t_temp.vgs] and then renames that file onto [t.vgs].  In
    either order of the two turns the run returns, [t_temp.vgs] is gone,
    and the codec was started with [t_temp.vgs] as its output file. *)
Theorem process_vgs_files_loses_temp_named_track :
  fst (gather_vgs_files [] (World clash_fs []))
  = Return [["songs"; "t.vgs"]; ["songs"; "t_temp.vgs"]]
  /\ temp_vgs_of ["songs"; "t.vgs"] = ["songs"; "t_temp.vgs"]
  /\ fst (process_vgs_files demo_codec [] (-3) ["bin"; "RockAudio.exe"] (World clash_fs []))
     = Return tt
  /\ files (snd (process_vgs_files demo_codec [] (-3) ["bin"; "RockAudio.exe"]
                   (World clash_fs [])))
       !! ["songs"; "t_temp.vgs"] = None
  /\ List.filter is_ran
       (stdout (snd (process_vgs_files demo_codec [] (-3) ["bin"; "RockAudio.exe"]
                       (World clash_fs []))))
     = [Ran (Convert ["bin"; "RockAudio.exe"] ["songs"; "t.vgs"] ["songs"; "t_temp.wav"]);
        Ran (Convert ["bin"; "RockAudio.exe"] ["songs"; "t_temp_processed.wav"]
               ["songs"; "t_temp.vgs"]);
        Ran (Convert ["bin"; "RockAudio.exe"] ["songs"; "t_temp.vgs"]
               ["songs"; "t_temp_temp.wav"])]
  /\ fst (for_each [["songs"; "t_temp.vgs"]; ["songs"; "t.vgs"]]
            (fun p => process_vgs_file demo_codec p (-3) ["bin"; "RockAudio.exe"])
            (World clash_fs []))
     = Return tt
  /\ files (snd (for_each [["songs"; "t_temp.vgs"]; ["songs"; "t.vgs"]]
                   (fun p => process_vgs_file demo_codec p (-3) ["bin"; "RockAudio.exe"])
                   (World clash_fs [])))
       !! ["songs"; "t_temp.vgs"] = None
  /\ List.filter is_ran
       (stdout (snd (for_each [["songs"; "t_temp.vgs"]; ["songs"; "t.vgs"]]
                       (fun p => process_vgs_file demo_codec p (-3) ["bin"; "RockAudio.exe"])
                       (World clash_fs []))))
     = [Ran (Convert ["bin"; "RockAudio.exe"] ["songs"; "t_temp.vgs"]
               ["songs"; "t_temp_temp.wav"]);
        Ran (Convert ["bin"; "RockAudio.exe"] ["songs"; "t_temp_temp_processed.wav"]
               ["songs"; "t_temp_temp.vgs"]);
        Ran (Convert ["bin"; "RockAudio.exe"] ["songs"; "t.vgs"] ["songs"; "t_temp.wav"]);
        Ran (Convert ["bin"; "RockAudio.exe"] ["songs"; "t_temp_processed.wav"]
               ["songs"; "t_temp.vgs"])].
Proof. repeat split; vm_compute; reflexivity. Qed.

Lemma demo_codec_contract : codec_writes_only_dst demo_codec.
Proof.
  intros exe src dst fs. unfold demo_codec.
  destruct (fs !! src) as [[|[f|b]]|]; cbn; split; auto.
  - intros p Hp. now apply lookup_insert_ne.
  - right. eexists. apply lookup_insert_eq.
  - intros p Hp. now apply lookup_insert_ne.
  - right. eexists. apply lookup_insert_eq.
Qed.

Lemma process_vgs_file_keeps_original_witness :
  codec_writes_only_dst demo_codec
  /\ name ["songs"; "t.vgs"] <> ""
  /\ track_fs !! temp_wav_of ["songs"; "t.vgs"] <> Some Dir
  /\ track_fs !! processed_wav_of ["songs"; "t.vgs"] <> Some Dir
  /\ let '(r, w') := process_vgs_file demo_codec ["songs"; "t.vgs"] (-3)
                       ["bin"; "RockAudio.exe"] (World track_fs []) in
     r = Return tt
     /\ files w' !! temp_wav_of ["songs"; "t.vgs"] = None
     /\ files w' !! processed_wav_of ["songs"; "t.vgs"] = None
     /\ files w' !! ["songs"; "t.vgs"] = Some (File (Blob [Byte.x2a])).
Proof.
  split; [exact demo_codec_contract|].
  split; [discriminate|]. split; [discriminate|]. split; [discriminate|].
  pose proof (process_vgs_file_keeps_original demo_codec ["songs"; "t.vgs"] (-3)
                ["bin"; "RockAudio.exe"] demo_codec_contract ltac:(discriminate)
                (World track_fs []) ltac:(discriminate) ltac:(discriminate)) as H.
  destruct (process_vgs_file demo_codec ["songs"; "t.vgs"] (-3)
              ["bin"; "RockAudio.exe"] (World track_fs [])) as [r w'] eqn:E.
  destruct H as (Hr & H1 & H2 & _).
  split; [exact Hr|]. split; [exact H1|]. split; [exact H2|].
  apply (f_equal snd) in E. cbn [snd] in E. subst w'. vm_compute. reflexivity.
Defined.

(* ===================================================================== *)
(** * Which failures end a run *)
(* ===================================================================== *)

(** C9 as stated fails: with no tool binary anywhere, [main] neither
    exits nor raises; it goes through the loose track and returns. *)
Lemma no_fatal_tool_check :
  ~ (forall system build_iso a script_dir stdin_line w,
       (files w !! joinpath (joinpath script_dir "z_dependencies") "RockAudio.exe" = None
        \/ files w !! joinpath (joinpath script_dir "z_dependencies") "arkhelper.exe" = None
        \/ files w !! joinpath (joinpath script_dir "z_dependencies") "7z.exe" = None) ->
       exists code, fst (main system build_iso a script_dir stdin_line w) = Raise (SystemExit code)).
Proof.
  intros H.
  destruct (H failing_system no_build_iso {| delay := Some (-60); skip := false |}
              ["app"] "" (World no_tools_fs []) (or_introl eq_refl)) as [code Hc].
  vm_compute in Hc. discriminate Hc.
Qed.

Lemma main_missing_root system build_iso a script_dir stdin_line w :
  files w !! joinpath script_dir "main" = None ->
  main system build_iso a script_dir stdin_line w
  = (Raise (SystemExit 1),
     printed w ("[ERROR] The 'main' folder does not exist at: "
                +:+ path_str (joinpath script_dir "main"))).
Proof.
  intros H. unfold main, bind at 1, path_exists, is_present. rewrite H. reflexivity.
Qed.

Lemma read_delay_outcome a stdin_line w :
  read_delay a stdin_line w =
  match delay a with
  | Some d => (Return d, w)
  | None =>
      if String.eqb (PyStr.strip stdin_line) "" then (Return (-60), prompted w)
      else
        match PyStr.parse_int (PyStr.strip stdin_line) with
        | Some d => (Return d, prompted w)
        | None => (Raise (SystemExit 1),
                   printed (prompted w) "Invalid numeric value for delay.")
        end
  end.
Proof.
  unfold read_delay. destruct (delay a) as [d|]; [reflexivity|].
  unfold bind at 1, print. unfold bind at 1. unfold bind at 1. unfold bind at 1.
  destruct (String.eqb (PyStr.strip stdin_line) ""); [reflexivity|].
  destruct (PyStr.parse_int (PyStr.strip stdin_line)); reflexivity.
Qed.

Lemma main_invalid_delay system build_iso a script_dir stdin_line w :
  is_Some (files w !! joinpath script_dir "main") ->
  delay a = None ->
  PyStr.strip stdin_line <> "" ->
  PyStr.parse_int (PyStr.strip stdin_line) = None ->
  main system build_iso a script_dir stdin_line w
  = (Raise (SystemExit 1), printed (prompted w) "Invalid numeric value for delay.").
Proof.
  intros [n Hn] Hd Hs Hp. unfold main, bind at 1, path_exists, is_present. rewrite Hn.
  cbn [negb]. unfold bind at 1, ret at 1. unfold bind at 1.
  rewrite read_delay_outcome, Hd, Hp.
  replace (String.eqb (PyStr.strip stdin_line) "") with false
    by (symmetry; apply String.eqb_neq; exact Hs).
  reflexivity.
Qed.

Lemma extract_any_isos_without_7z system main_folder seven_z w :
  files w !! seven_z = None ->
  extract_any_isos system main_folder seven_z w
  = (Return tt,
     printed w ("[WARN] 7z.exe not found at " +:+ path_str seven_z
                +:+ "; cannot extract ISO files.")).
Proof.
  intros H. unfold extract_any_isos, bind, path_exists, is_present. rewrite H. reflexivity.
Qed.

(* --------------------------------------------------------------------- *)
(** ** No part of the pipeline calls [sys.exit] *)

Lemma raises_only_weaken {S A} (P Q : exn -> Prop) (m : ST S A) :
  (forall e, P e -> Q e) -> raises_only P m -> raises_only Q m.
Proof. intros HPQ Hm s e s' H. eapply HPQ, Hm, H. Qed.

Lemma raises_only_try_except {S A} P (body : ST S A) catches handler :
  raises_only P body -> (forall e, raises_only P (handler e)) ->
  raises_only P (try_except body catches handler).
Proof.
  intros Hb Hh s e s'. unfold try_except.
  destruct (body s) as [[a|e0] s1] eqn:Eb; [discriminate|].
  destruct (catches e0).
  - apply Hh.
  - intros [= <- _]. eapply Hb, Eb.
Qed.

Lemma raises_only_try_finally {S A} P (body : ST S A) fin :
  raises_only P body -> raises_only P fin -> raises_only P (try_finally body fin).
Proof.
  intros Hb Hf s e s'. unfold try_finally.
  destruct (body s) as [r s1] eqn:Eb.
  destruct (fin s1) as [[u|e1] s2] eqn:Ef.
  - intros [= -> _]. eapply Hb, Eb.
  - intros [= <- _]. eapply Hf, Ef.
Qed.

Lemma raises_only_with_name {S} p n :
  raises_only (fun e => is_Exception e = true) (@with_name S p n).
Proof.
  unfold with_name. destruct (String.eqb _ _).
  - apply raises_only_raise. reflexivity.
  - apply raises_only_ret.
Qed.

Lemma raises_only_remove_temp_wavs a b :
  raises_only (fun e => is_Exception e = true) (remove_temp_wavs a b).
Proof.
  unfold remove_temp_wavs.
  apply raises_only_bind; [apply raises_only_path_exists|intros x].
  apply raises_only_bind; [apply raises_only_when, raises_only_unlink|intros _].
  apply raises_only_bind; [apply raises_only_path_exists|intros y].
  apply raises_only_when, raises_only_unlink.
Qed.

Lemma raises_only_process_vgs_file system vgs_path d rockaudio :
  raises_only (fun e => is_Exception e = true) (process_vgs_file system vgs_path d rockaudio).
Proof.
  unfold process_vgs_file.
  apply raises_only_bind; [apply raises_only_print|intros _].
  apply raises_only_bind; [apply raises_only_print|intros _].
  apply raises_only_bind; [apply raises_only_print|intros _].
  apply raises_only_bind; [apply raises_only_with_name|intros t1].
  apply raises_only_bind; [apply raises_only_with_name|intros t2].
  apply raises_only_bind; [apply raises_only_with_name|intros t3].
  apply raises_only_try_finally.
  - apply raises_only_try_except.
    + apply raises_only_convert_steps.
    + intros e. apply raises_only_print_exn.
  - apply raises_only_remove_temp_wavs.
Qed.

Lemma raises_only_process_vgs_files system root_dir d rockaudio :
  raises_only (fun e => is_Exception e = true) (process_vgs_files system root_dir d rockaudio).
Proof.
  unfold process_vgs_files, gather_vgs_files.
  apply raises_only_bind.
  - apply raises_only_bind; [apply raises_only_get_files|intros fs; apply raises_only_ret].
  - intros [|p l]; [apply raises_only_print|].
    apply raises_only_for_each. intros x. apply raises_only_process_vgs_file.
Qed.

Lemma raises_only_extract_ark system hdr_path arkhelper temp_dir :
  raises_only (fun e => is_Exception e = true) (extract_ark system hdr_path arkhelper temp_dir).
Proof.
  unfold extract_ark.
  apply raises_only_bind; [apply raises_only_print|intros _].
  apply raises_only_bind; [apply raises_only_mkdir_exist_ok|intros _].
  apply raises_only_bind; [apply raises_only_subprocess_run|intros _].
  apply raises_only_bind; [apply raises_only_path_exists|intros b].
  apply raises_only_when, raises_only_touch.
Qed.

Lemma raises_only_repack_ark system temp_dir hdr_folder arkhelper :
  raises_only (fun e => is_Exception e = true) (repack_ark system temp_dir hdr_folder arkhelper).
Proof.
  unfold repack_ark.
  apply raises_only_bind; [apply raises_only_path_exists|intros b].
  destruct (negb b); [apply raises_only_print|].
  apply raises_only_bind; [apply raises_only_print|intros _].
  apply raises_only_subprocess_run.
Qed.

Lemma raises_only_process_hdr system hdr_path arkhelper rockaudio d :
  raises_only (fun e => is_Exception e = true)
    (process_hdr system hdr_path arkhelper rockaudio d).
Proof.
  unfold process_hdr.
  apply raises_only_bind; [apply raises_only_get_files|intros fs].
  destruct (glob fs (parent hdr_path) "MAIN*.ARK"); [apply raises_only_ret|].
  apply raises_only_bind; [apply raises_only_print|intros _].
  apply raises_only_bind; [apply raises_only_extract_ark|intros _].
  apply raises_only_bind; [apply raises_only_print|intros _].
  apply raises_only_bind; [apply raises_only_process_vgs_files|intros _].
  apply raises_only_bind; [apply raises_only_print|intros _].
  apply raises_only_bind; [apply raises_only_repack_ark|intros _].
  apply raises_only_rmtree.
Qed.

Lemma raises_only_extract_iso system main_folder seven_z processed_folder iso_file :
  raises_only (fun e => is_Exception e = true)
    (extract_iso system main_folder seven_z processed_folder iso_file).
Proof.
  unfold extract_iso.
  destruct (bool_decide _); [apply raises_only_ret|].
  apply raises_only_bind; [apply raises_only_print|intros _].
  apply raises_only_bind; [apply raises_only_print|intros _].
  apply raises_only_bind.
  - apply raises_only_try_except.
    + apply raises_only_bind; [apply raises_only_subprocess_run|intros _; apply raises_only_ret].
    + intros e. apply raises_only_bind; [|intros _; apply raises_only_ret].
      destruct e; try apply raises_only_print_exn. apply raises_only_print.
  - intros extracted. destruct (negb extracted); [apply raises_only_ret|].
    apply raises_only_bind; [apply raises_only_os_replace|intros _].
    apply raises_only_print.
Qed.

Lemma raises_only_extract_any_isos system main_folder seven_z :
  raises_only (fun e => is_Exception e = true) (extract_any_isos system main_folder seven_z).
Proof.
  unfold extract_any_isos.
  apply raises_only_bind; [apply raises_only_path_exists|intros b].
  destruct (negb b); [apply raises_only_print|].
  apply raises_only_bind; [apply raises_only_mkdir_exist_ok|intros _].
  apply raises_only_bind; [apply raises_only_get_files|intros fs].
  apply raises_only_for_each. intros x. apply raises_only_extract_iso.
Qed.

Lemma Exception_not_exit_1 e : is_Exception e = true -> e <> SystemExit 1.
Proof. intros H ->. discriminate. Qed.

(** [main] ends with [sys.exit(1)] in no other case than its two checks,
    when the disc-authoring step does not. *)
Lemma main_exit_1_only system build_iso a script_dir stdin_line w w' :
  (forall main_folder dep_dir,
     raises_only (fun e => e <> SystemExit 1) (build_iso main_folder dep_dir)) ->
  main system build_iso a script_dir stdin_line w = (Raise (SystemExit 1), w') ->
  files w !! joinpath script_dir "main" = None
  \/ (delay a = None
      /\ PyStr.strip stdin_line <> ""
      /\ PyStr.parse_int (PyStr.strip stdin_line) = None).
Proof.
  intros Hiso. unfold main, bind at 1, path_exists, is_present.
  destruct (files w !! joinpath script_dir "main") as [n|]; [|now left].
  cbn [negb]. unfold bind at 1, ret at 1. unfold bind at 1.
  rewrite read_delay_outcome.
  assert (Hrest : forall d w1,
    (extract_any_isos system (joinpath script_dir "main")
       (joinpath (joinpath script_dir "z_dependencies") "7z.exe") ;;
     if skip a then
       print "Skipping all VGS extraction/offset processing." ;;
       build_iso (joinpath script_dir "main") (joinpath script_dir "z_dependencies") ;;
       raise (SystemExit 0)
     else
       fs <- get_files ;;
       for_each (rglob fs (joinpath script_dir "main") "MAIN.HDR")
         (fun hdr_path =>
            process_hdr system hdr_path
              (joinpath (joinpath script_dir "z_dependencies") "arkhelper.exe")
              (joinpath (joinpath script_dir "z_dependencies") "RockAudio.exe") d) ;;
       print (PyStr.nl +:+ "----- Processing VGS files in main folder (non-ARK) -----") ;;
       process_vgs_files system (joinpath script_dir "main") d
         (joinpath (joinpath script_dir "z_dependencies") "RockAudio.exe") ;;
       build_iso (joinpath script_dir "main") (joinpath script_dir "z_dependencies") ;;
       print (PyStr.nl +:+ "Done."))%py w1 = (Raise (SystemExit 1), w') -> False).
  { intros d w1 H. revert H.
    match goal with
    | |- ?m w1 = _ -> False =>
        assert (Hm : raises_only (fun e => e <> SystemExit 1) m)
    end.
    { apply raises_only_bind.
      - eapply raises_only_weaken; [apply Exception_not_exit_1|].
        apply raises_only_extract_any_isos.
      - intros _. destruct (skip a).
        + apply raises_only_bind; [apply raises_only_print|intros _].
          apply raises_only_bind; [apply Hiso|intros _].
          apply raises_only_raise. discriminate.
        + apply raises_only_bind; [apply raises_only_get_files|intros fs].
          apply raises_only_bind.
          { apply raises_only_for_each. intros x.
            eapply raises_only_weaken; [apply Exception_not_exit_1|].
            apply raises_only_process_hdr. }
          intros _.
          apply raises_only_bind; [apply raises_only_print|intros _].
          apply raises_only_bind.
          { eapply raises_only_weaken; [apply Exception_not_exit_1|].
            apply raises_only_process_vgs_files. }
          intros _.
          apply raises_only_bind; [apply Hiso|intros _].
          apply raises_only_print. }
    intros H. exact (Hm _ _ _ H eq_refl). }
  destruct (delay a) as [d|] eqn:Ed.
  - intros H. exfalso. exact (Hrest d w H).
  - destruct (String.eqb_spec (PyStr.strip stdin_line) "") as [Hs|Hs].
    + intros H. exfalso. exact (Hrest _ _ H).
    + destruct (PyStr.parse_int (PyStr.strip stdin_line)) as [d|] eqn:Ep.
      * intros H. exfalso. exact (Hrest _ _ H).
      * intros _. right. auto.
Qed.

(* --------------------------------------------------------------------- *)
(** ** What is caught where it fails *)

Lemma process_vgs_file_unfold system vgs_path d rockaudio w :
  name vgs_path <> "" ->
  process_vgs_file system vgs_path d rockaudio w
  = try_finally
      (try_except
         (convert_steps system vgs_path (temp_wav_of vgs_path) (processed_wav_of vgs_path)
            (temp_vgs_of vgs_path) d rockaudio)
         is_Exception
         (fun e => print_exn "  Error: " e ""))
      (remove_temp_wavs (temp_wav_of vgs_path) (processed_wav_of vgs_path))
      (announced w vgs_path).
Proof.
  intros Hn. unfold process_vgs_file, bind at 1, print. unfold bind at 1. unfold bind at 1.
  unfold bind at 1, with_name.
  replace (String.eqb (name vgs_path) "") with false
    by (symmetry; apply String.eqb_neq; exact Hn).
  reflexivity.
Qed.

Lemma process_vgs_file_contained system vgs_path d rockaudio w :
  codec_writes_only_dst system ->
  name vgs_path <> "" ->
  files w !! temp_wav_of vgs_path <> Some Dir ->
  files w !! processed_wav_of vgs_path <> Some Dir ->
  exists w',
    process_vgs_file system vgs_path d rockaudio w = (Return tt, w')
    /\ (forall rest,
          for_each (vgs_path :: rest)
            (fun p => process_vgs_file system p d rockaudio) w
          = for_each rest (fun p => process_vgs_file system p d rockaudio) w')
    /\ (forall e wc,
          convert_steps system vgs_path (temp_wav_of vgs_path) (processed_wav_of vgs_path)
            (temp_vgs_of vgs_path) d rockaudio (announced w vgs_path) = (Raise e, wc) ->
          is_Exception e = true
          /\ stdout w' = stdout wc ++ [PrintedExn "  Error: " e ""]
          /\ files w' !! vgs_path = files w !! vgs_path).
Proof.
  intros Hcodec Hn H1 H2.
  destruct (temp_paths_apart vgs_path Hn)
    as (N12 & N13 & N23 & NA1 & NA2 & NA3 & P31 & P32 & PA1 & PA2).
  assert (Hrun : exists w',
    process_vgs_file system vgs_path d rockaudio w = (Return tt, w')
    /\ (forall e wc,
          convert_steps system vgs_path (temp_wav_of vgs_path) (processed_wav_of vgs_path)
            (temp_vgs_of vgs_path) d rockaudio (announced w vgs_path) = (Raise e, wc) ->
          is_Exception e = true
          /\ stdout w' = stdout wc ++ [PrintedExn "  Error: " e ""]
          /\ files w' !! vgs_path = files w !! vgs_path)).
  { rewrite process_vgs_file_unfold by assumption.
    unfold try_finally, try_except.
    destruct (convert_steps system vgs_path (temp_wav_of vgs_path) (processed_wav_of vgs_path)
                (temp_vgs_of vgs_path) d rockaudio (announced w vgs_path)) as [r wc] eqn:Ec.
    pose proof (raises_only_convert_steps system vgs_path (temp_wav_of vgs_path)
                  (processed_wav_of vgs_path) (temp_vgs_of vgs_path) d rockaudio) as Hexn.
    pose proof (convert_steps_outcome system vgs_path d rockaudio Hcodec Hn
                  (announced w vgs_path) r wc H1 H2 Ec) as (G1 & G2 & Hr).
    destruct r as [[]|e].
    - destruct (remove_temp_wavs_spec _ _ wc G1 G2) as (w' & -> & _).
      exists w'. split; [reflexivity|]. intros e wc' [=].
    - rewrite (Hexn _ _ _ Ec). unfold print_exn.
      match goal with
      | |- context [remove_temp_wavs _ _ ?x] => set (wh := x)
      end.
      destruct (remove_temp_wavs_spec (temp_wav_of vgs_path)
                  (processed_wav_of vgs_path) wh G1 G2) as (w' & -> & Hout & _ & _ & Hrest).
      exists w'. split; [reflexivity|]. intros e' wc' [= <- <-].
      split; [exact (Hexn _ _ _ Ec)|]. split; [rewrite Hout; reflexivity|].
      rewrite Hrest by congruence. cbn. exact Hr. }
  destruct Hrun as (w' & Hp & Herr).
  exists w'. split; [exact Hp|]. split; [|exact Herr].
  intros rest. cbn [for_each]. unfold bind. now rewrite Hp.
Qed.

Lemma extract_iso_failure system main_folder seven_z processed_folder iso_file w e ws :
  parent iso_file <> processed_folder ->
  subprocess_run system (SevenZipX seven_z iso_file main_folder)
    (printed (printed w (PyStr.nl +:+ "Detected ISO: " +:+ name iso_file))
       "Extracting contents directly into the main folder (no subfolder)...")
  = (Raise e, ws) ->
  exists w',
    extract_iso system main_folder seven_z processed_folder iso_file w = (Return tt, w')
    /\ files w' = files ws
    /\ stdout w' = stdout ws ++ [extraction_error iso_file e]
    /\ (forall rest,
          for_each (iso_file :: rest) (extract_iso system main_folder seven_z processed_folder) w
          = for_each rest (extract_iso system main_folder seven_z processed_folder) w').
Proof.
  intros Hp Hrun.
  assert (Hone : exists w',
    extract_iso system main_folder seven_z processed_folder iso_file w = (Return tt, w')
    /\ files w' = files ws
    /\ stdout w' = stdout ws ++ [extraction_error iso_file e]).
  { unfold extract_iso.
    destruct (bool_decide_reflect (parent iso_file = processed_folder)); [contradiction|].
    unfold bind at 1, print. unfold bind at 1. unfold bind at 1, try_except. unfold bind at 1.
    unfold printed in Hrun. cbn [files stdout] in Hrun. cbn [files stdout]. rewrite Hrun.
    rewrite (raises_only_subprocess_run _ _ _ _ _ Hrun).
    destruct e; unfold bind, print, print_exn, ret; cbn; eexists;
      (split; [reflexivity|]); cbn; (split; reflexivity). }
  destruct Hone as (w' & He & Hf & Ho).
  exists w'. split; [exact He|]. split; [exact Hf|]. split; [exact Ho|].
  intros rest. cbn [for_each]. unfold bind. now rewrite He.
Qed.

(** C9 (amended): no check of a tool binary is fatal.  [main] calls
    [sys.exit(1)] when the working root is missing and when the delay
    typed at the prompt is no integer, both before any program is
    started or file changed, and in no other case, granted that the
    disc-authoring step does not; a missing [7z] binary only prints a
    warning.  With a codec that writes nothing but its destination file
    and temporary WAV paths that are not directories, whatever
    exception the conversion of one track raises is caught there: the
    turn returns, its last line is the error, the track's file is as
    before, and the loop goes on with the next track.  A disc image
    whose extraction fails is logged and left, and the loop goes on
    with the next image. *)
Theorem fatal_checks_and_containment system build_iso :
  (forall a script_dir stdin_line w,
     files w !! joinpath script_dir "main" = None ->
     main system build_iso a script_dir stdin_line w
     = (Raise (SystemExit 1),
        printed w ("[ERROR] The 'main' folder does not exist at: "
                   +:+ path_str (joinpath script_dir "main"))))
  /\ (forall a script_dir stdin_line w,
        is_Some (files w !! joinpath script_dir "main") ->
        delay a = None ->
        PyStr.strip stdin_line <> "" ->
        PyStr.parse_int (PyStr.strip stdin_line) = None ->
        main system build_iso a script_dir stdin_line w
        = (Raise (SystemExit 1), printed (prompted w) "Invalid numeric value for delay."))
  /\ ((forall main_folder dep_dir,
         raises_only (fun e => e <> SystemExit 1) (build_iso main_folder dep_dir)) ->
      forall a script_dir stdin_line w w',
        main system build_iso a script_dir stdin_line w = (Raise (SystemExit 1), w') ->
        files w !! joinpath script_dir "main" = None
        \/ (delay a = None
            /\ PyStr.strip stdin_line <> ""
            /\ PyStr.parse_int (PyStr.strip stdin_line) = None))
  /\ (forall main_folder seven_z w,
        files w !! seven_z = None ->
        extract_any_isos system main_folder seven_z w
        = (Return tt,
           printed w ("[WARN] 7z.exe not found at " +:+ path_str seven_z
                      +:+ "; cannot extract ISO files.")))
  /\ (codec_writes_only_dst system ->
      forall vgs_path d rockaudio w,
        name vgs_path <> "" ->
        files w !! temp_wav_of vgs_path <> Some Dir ->
        files w !! processed_wav_of vgs_path <> Some Dir ->
        exists w',
          process_vgs_file system vgs_path d rockaudio w = (Return tt, w')
          /\ (forall rest,
                for_each (vgs_path :: rest)
                  (fun p => process_vgs_file system p d rockaudio) w
                = for_each rest (fun p => process_vgs_file system p d rockaudio) w')
          /\ (forall e wc,
                convert_steps system vgs_path (temp_wav_of vgs_path)
                  (processed_wav_of vgs_path) (temp_vgs_of vgs_path) d rockaudio
                  (announced w vgs_path) = (Raise e, wc) ->
                is_Exception e = true
                /\ stdout w' = stdout wc ++ [PrintedExn "  Error: " e ""]
                /\ files w' !! vgs_path = files w !! vgs_path))
  /\ (forall main_folder seven_z processed_folder iso_file w e ws,
        parent iso_file <> processed_folder ->
        subprocess_run system (SevenZipX seven_z iso_file main_folder)
          (printed (printed w (PyStr.nl +:+ "Detected ISO: " +:+ name iso_file))
             "Extracting contents directly into the main folder (no subfolder)...")
        = (Raise e, ws) ->
        exists w',
          extract_iso system main_folder seven_z processed_folder iso_file w = (Return tt, w')
          /\ files w' = files ws
          /\ stdout w' = stdout ws ++ [extraction_error iso_file e]
          /\ (forall rest,
                for_each (iso_file :: rest)
                  (extract_iso system main_folder seven_z processed_folder) w
                = for_each rest (extract_iso system main_folder seven_z processed_folder) w')).
Proof.
  split; [apply main_missing_root|].
  split; [apply main_invalid_delay|].
  split; [intros Hiso a script_dir stdin_line w w'; now apply main_exit_1_only|].
  split; [apply extract_any_isos_without_7z|].
  split; [intros Hcodec vgs_path d rockaudio w; now apply process_vgs_file_contained|].
  apply extract_iso_failure.
Qed.

(* ===================================================================== *)
(** * Discovery *)
(* ===================================================================== *)

Lemma gather_loop_filter all_vgs filtered :
  gather_loop all_vgs filtered = filtered ++ List.filter keep_vgs all_vgs.
Proof.
  revert filtered. induction all_vgs as [|p l IH]; intros acc; cbn.
  - now rewrite app_nil_r.
  - destruct (keep_vgs p); rewrite IH; [now rewrite <- app_assoc|reflexivity].
Qed.

Lemma string_app_String c (a b : string) : String c a +:+ b = String c (a +:+ b).
Proof. reflexivity. Qed.

Lemma string_app_assoc (a b c : string) : (a +:+ b) +:+ c = a +:+ (b +:+ c).
Proof.
  induction a as [|x a IH]; [reflexivity|].
  rewrite !string_app_String. now f_equal.
Qed.

(** The search finds the pattern exactly when the string is some text,
    then [_p] and two digits, then nothing or one line feed. *)
Lemma re_search_practice_true s :
  re_search_practice s = true <->
  exists pre d1 d2 tl,
    s = pre +:+ String "_" (String "p" (String d1 (String d2 tl)))
    /\ PyStr.is_digit d1 = true /\ PyStr.is_digit d2 = true
    /\ (tl = "" \/ tl = PyStr.nl).
Proof.
  assert (Hhere : forall t, match_practice_here t = true <->
            exists d1 d2 tl, t = String "_" (String "p" (String d1 (String d2 tl)))
              /\ PyStr.is_digit d1 = true /\ PyStr.is_digit d2 = true
              /\ (tl = "" \/ tl = PyStr.nl)).
  { intros t. unfold match_practice_here. split.
    - destruct t as [|u [|p [|d1 [|d2 tl]]]]; try discriminate;
        try (destruct u as [[] [] [] [] [] [] [] []]; discriminate).
      1,2: destruct u as [[] [] [] [] [] [] [] []]; try discriminate;
           destruct p as [[] [] [] [] [] [] [] []]; discriminate.
      destruct u as [[] [] [] [] [] [] [] []]; try discriminate.
      destruct p as [[] [] [] [] [] [] [] []]; try discriminate.
      intros H. apply andb_prop in H as [H Htl]. apply andb_prop in H as [Hd1 Hd2].
      exists d1, d2, tl. repeat split; auto.
      destruct tl as [|c [|c' tl]]; [auto| |discriminate].
      right. apply Ascii.eqb_eq in Htl. subst c. reflexivity.
    - intros (d1 & d2 & tl & -> & Hd1 & Hd2 & Htl). rewrite Hd1, Hd2.
      destruct Htl as [->| ->]; reflexivity. }
  induction s as [|c s IH].
  - cbn. split; [discriminate|].
    intros (pre & d1 & d2 & tl & H & _). destruct pre; discriminate.
  - cbn [re_search_practice]. rewrite orb_true_iff, Hhere, IH. split.
    + intros [(d1 & d2 & tl & -> & Hd)|(pre & d1 & d2 & tl & -> & Hd)].
      * exists "", d1, d2, tl. auto.
      * exists (String c pre), d1, d2, tl. auto.
    + intros (pre & d1 & d2 & tl & H & Hd). destruct pre as [|x pre].
      * left. exists d1, d2, tl. auto.
      * right. rewrite string_app_String in H. injection H as -> ->.
        exists pre, d1, d2, tl. auto.
Qed.

Lemma list_ascii_of_string_app (a b : string) :
  list_ascii_of_string (a +:+ b) = list_ascii_of_string a ++ list_ascii_of_string b.
Proof.
  induction a as [|c a IH]; [reflexivity|].
  rewrite string_app_String. cbn. now f_equal.
Qed.

(** The string ends with the tag exactly when it is some text followed
    by [_p] and two digits. *)
Lemma ends_with_practice_tag_true t :
  ends_with_practice_tag t = true <->
  exists pre d1 d2,
    t = pre +:+ String "_" (String "p" (String d1 (String d2 "")))
    /\ PyStr.is_digit d1 = true /\ PyStr.is_digit d2 = true.
Proof.
  unfold ends_with_practice_tag. split.
  - destruct (rev (list_ascii_of_string t)) as [|d2 [|d1 [|p [|u r]]]] eqn:E; try discriminate.
    intros H. apply andb_prop in H as [H Hd2]. apply andb_prop in H as [H Hd1].
    apply andb_prop in H as [Hu Hp].
    apply Ascii.eqb_eq in Hu, Hp. subst u p.
    exists (string_of_list_ascii (rev r)), d1, d2. repeat split; auto.
    apply (f_equal (@rev ascii)) in E. rewrite rev_involutive in E. cbn in E.
    rewrite <- (string_of_list_ascii_of_string t), E.
    rewrite <- !app_assoc. cbn.
    generalize (rev r). clear. intros l. induction l as [|c l IH]; [reflexivity|].
    cbn. rewrite string_app_String. now f_equal.
  - intros (pre & d1 & d2 & -> & Hd1 & Hd2).
    rewrite list_ascii_of_string_app, rev_app_distr. cbn. now rewrite Hd1, Hd2.
Qed.

Lemma strip_final_newline_snoc s :
  strip_final_newline (s +:+ PyStr.nl) = s.
Proof.
  induction s as [|c s IH]; [reflexivity|].
  rewrite string_app_String. cbn [strip_final_newline].
  destruct (s +:+ PyStr.nl) eqn:E.
  - destruct s; discriminate.
  - now f_equal.
Qed.

Lemma strip_final_newline_other s c :
  c <> ascii_of_N 10 -> strip_final_newline (s +:+ String c "") = s +:+ String c "".
Proof.
  intros Hc. induction s as [|x s IH].
  - change (strip_final_newline (String c "") = String c ""). cbn [strip_final_newline].
    destruct (Ascii.eqb_spec c (ascii_of_N 10)); [contradiction|reflexivity].
  - rewrite string_app_String. cbn [strip_final_newline].
    destruct (s +:+ String c "") eqn:E.
    + destruct s; discriminate.
    + now f_equal.
Qed.

Lemma string_snoc_cases (s : string) :
  s = "" \/ exists t c, s = t +:+ String c "".
Proof.
  induction s as [|x s IH]; [auto|]. right.
  destruct IH as [->|(t & c & ->)].
  - exists "", x. reflexivity.
  - exists (String x t), c. reflexivity.
Qed.

Lemma string_app_inv_tail (a b : string) c d :
  a +:+ String c "" = b +:+ String d "" -> a = b /\ c = d.
Proof.
  revert b. induction a as [|x a IH]; intros [|y b]; cbn.
  - intros [= ->]. auto.
  - rewrite string_app_String. intros [= -> H]. destruct b; discriminate.
  - rewrite string_app_String. intros [= -> H]. destruct a; discriminate.
  - rewrite !string_app_String. intros [= -> H]. apply IH in H as [-> ->]. auto.
Qed.

Lemma is_digit_not_newline d : PyStr.is_digit d = true -> d <> ascii_of_N 10.
Proof. intros H ->. discriminate. Qed.

(** The regular expression, read as the spec's words: the stem, without
    a line feed that ends it, ends with [_p] and two digits. *)
Lemma re_search_practice_spec s :
  re_search_practice s = ends_with_practice_tag (strip_final_newline s).
Proof.
  apply eq_true_iff_eq. rewrite re_search_practice_true, ends_with_practice_tag_true.
  split.
  - intros (pre & d1 & d2 & tl & -> & Hd1 & Hd2 & [->| ->]).
    + exists pre, d1, d2. repeat split; auto.
      change (String "_" (String "p" (String d1 (String d2 ""))))
        with (String "_" (String "p" (String d1 "")) +:+ String d2 "").
      rewrite <- string_app_assoc.
      apply strip_final_newline_other, is_digit_not_newline, Hd2.
    + exists pre, d1, d2. repeat split; auto.
      change (String "_" (String "p" (String d1 (String d2 PyStr.nl))))
        with (String "_" (String "p" (String d1 (String d2 ""))) +:+ PyStr.nl).
      rewrite <- string_app_assoc. apply strip_final_newline_snoc.
  - intros (pre & d1 & d2 & H & Hd1 & Hd2).
    destruct (string_snoc_cases s) as [->|(t & c & ->)].
    + cbn in H. destruct pre; discriminate.
    + destruct (Ascii.eqb_spec c (ascii_of_N 10)) as [->|Hc].
      * change (String (ascii_of_N 10) "") with PyStr.nl in *.
        rewrite strip_final_newline_snoc in H. subst t.
        exists pre, d1, d2, PyStr.nl. repeat split; auto.
        rewrite string_app_assoc. reflexivity.
      * rewrite strip_final_newline_other in H by assumption.
        exists pre, d1, d2, "". repeat split; auto.
Qed.

Lemma fnmatch_star pat s :
  PyStr.fnmatch (String "*" pat) s = true <->
  exists a b, s = a +:+ b /\ PyStr.fnmatch pat b = true.
Proof.
  cbn [PyStr.fnmatch].
  induction s as [|c s IH].
  - rewrite orb_false_r. split.
    + intros H. exists "", "". auto.
    + intros (a & b & H & Hb). destruct a; [|discriminate].
      change ("" +:+ b) with b in H. now subst b.
  - rewrite orb_true_iff, IH. split.
    + intros [H|(a & b & -> & Hb)].
      * exists "", (String c s). auto.
      * exists (String c a), b. auto.
    + intros (a & b & H & Hb). destruct a as [|x a].
      * left. change ("" +:+ b) with b in H. now subst b.
      * right. rewrite string_app_String in H. injection H as -> ->. eauto.
Qed.

Lemma fnmatch_dot_vgs t : PyStr.fnmatch ".vgs" t = true <-> t = ".vgs".
Proof.
  split; [|intros ->; reflexivity].
  destruct t as [|c1 [|c2 [|c3 [|c4 [|c5 t]]]]]; cbn [PyStr.fnmatch]; try discriminate;
    repeat match goal with
           | |- context [Ascii.eqb ?a ?b] => destruct (Ascii.eqb_spec a b); cbn [andb]
           end; try discriminate.
  subst. reflexivity.
Qed.

(** A name matches [*.vgs] exactly when it ends with [.vgs]. *)
Lemma fnmatch_star_vgs n :
  PyStr.fnmatch "*.vgs" n = true <-> exists x, n = x +:+ ".vgs".
Proof.
  rewrite fnmatch_star. split.
  - intros (a & b & -> & Hb). apply fnmatch_dot_vgs in Hb. subst b. eauto.
  - intros (x & ->). exists x, ".vgs". split; [reflexivity|]. now apply fnmatch_dot_vgs.
Qed.

Lemma elem_of_rglob fs root pat p :
  p ∈ rglob fs root pat <->
  is_Some (fs !! p)
  /\ root `prefix_of` p
  /\ walkable fs root (drop (length root) p) = true
  /\ PyStr.fnmatch pat (name p) = true.
Proof.
  unfold rglob. rewrite list_elem_of_In, filter_In, <- list_elem_of_In.
  change (map fst (map_to_list fs)) with ((map_to_list fs).*1).
  rewrite list_elem_of_fmap, !andb_true_iff, bool_decide_eq_true. split.
  - intros [([k v] & -> & Hin) [[Hp Hw] Hm]]. apply elem_of_map_to_list in Hin. cbn in *. eauto.
  - intros ([v Hv] & Hp & Hw & Hm). split; [|auto].
    exists (p, v). split; [reflexivity|]. now apply elem_of_map_to_list.
Qed.

Lemma NoDup_rglob fs root pat : NoDup (rglob fs root pat).
Proof.
  unfold rglob. apply NoDup_ListNoDup, List.NoDup_filter, NoDup_ListNoDup.
  change (map fst (map_to_list fs)) with ((map_to_list fs).*1).
  apply NoDup_fst_map_to_list.
Qed.

Lemma str_in_true x l : str_in x l = true <-> x ∈ l.
Proof.
  unfold str_in. rewrite existsb_exists, list_elem_of_In. split.
  - intros (y & Hy & He). apply String.eqb_eq in He. now subst.
  - intros H. exists x. split; [exact H|apply String.eqb_refl].
Qed.

Lemma keep_vgs_spec p :
  keep_vgs p = true <->
  ("tutorial" ∉ map PyStr.lower (parts p))
  /\ ("sfx" ∉ map PyStr.lower (parts p))
  /\ "songs" ∈ map PyStr.lower (parts p)
  /\ ends_with_practice_tag (strip_final_newline (PyStr.lower (stem p))) = false.
Proof.
  unfold keep_vgs. rewrite re_search_practice_spec.
  rewrite <- !str_in_true.
  destruct (str_in "tutorial" _), (str_in "sfx" _), (str_in "songs" _),
    (ends_with_practice_tag _); cbn; intuition congruence.
Qed.

(** X1: [gather_vgs_files] reads the tree without changing anything and
    returns, each once, exactly the nodes that a walk from the root
    reaches and whose name ends with [.vgs], that have no component equal
    to [tutorial] or [sfx] and some component equal to [songs], all
    case-insensitively and counting the root's own components, and whose
    lower-cased stem, without a line feed that ends it, does not end with
    [_p] and two digits. *)
Theorem gather_vgs_files_spec root w :
  exists l,
    gather_vgs_files root w = (Return l, w)
    /\ NoDup l
    /\ forall p,
         p ∈ l <->
         is_Some (files w !! p)
         /\ root `prefix_of` p
         /\ walkable (files w) root (drop (length root) p) = true
         /\ (exists x, name p = x +:+ ".vgs")
         /\ ("tutorial" ∉ map PyStr.lower (parts p))
         /\ ("sfx" ∉ map PyStr.lower (parts p))
         /\ "songs" ∈ map PyStr.lower (parts p)
         /\ ends_with_practice_tag (strip_final_newline (PyStr.lower (stem p))) = false.
Proof.
  exists (List.filter keep_vgs (rglob (files w) root "*.vgs")).
  split; [|split].
  - unfold gather_vgs_files, bind, get_files, ret. now rewrite gather_loop_filter.
  - apply NoDup_ListNoDup, List.NoDup_filter, NoDup_ListNoDup, NoDup_rglob.
  - intros p. rewrite list_elem_of_In, filter_In, <- list_elem_of_In.
    rewrite elem_of_rglob, keep_vgs_spec, fnmatch_star_vgs. tauto.
Qed.

(* ===================================================================== *)
(** * More on [apply_offset] *)
(* ===================================================================== *)

(** X2: whatever [apply_offset] does and however it ends, it prints
    nothing, changes no node other than the destination, and leaves at
    the destination what was there or a regular file. *)
Theorem apply_offset_touches_only_destination src dst delay_ms w :
  let '(r, w') := apply_offset src dst delay_ms w in
  stdout w' = stdout w
  /\ (forall p, p <> dst -> files w' !! p = files w !! p)
  /\ (files w' !! dst = files w !! dst \/ exists c, files w' !! dst = Some (File c)).
Proof.
  destruct (apply_offset src dst delay_ms w) as [r w'] eqn:E.
  eapply apply_offset_frame, E.
Qed.

(** X4: for a frame rate that is not negative, the frame offset is never
    negative, whatever the sign of the delay. *)
Theorem offset_frames_never_negative framerate delay_ms n :
  0 <= framerate ->
  offset_frames framerate delay_ms = Return n ->
  0 <= n.
Proof. apply offset_frames_nonneg. Qed.

Lemma offset_frames_never_negative_witness :
  0 <= 44100 /\ offset_frames 44100 (-60) = Return 2646 /\ 0 <= 2646.
Proof.
  split; [lia|]. split; [reflexivity|].
  apply (offset_frames_never_negative 44100 (-60) 2646); [lia | reflexivity].
Defined.

Lemma offset_frames_opp fr d : offset_frames fr (- d) = offset_frames fr d.
Proof. unfold offset_frames. now rewrite Z.abs_opp. Qed.

Lemma can_create_insert fs mid dst c :
  can_create fs mid = true -> can_create fs dst = true ->
  can_create (<[mid := File c]> fs) dst = true.
Proof.
  unfold can_create, is_dir. intros Hm Hd.
  destruct (decide (dst = mid)) as [->|Hne].
  - now rewrite lookup_insert_eq.
  - rewrite lookup_insert_ne by congruence.
    destruct (fs !! dst) as [[|x]|] eqn:E; try discriminate; [reflexivity|].
    destruct (decide (parent dst = mid)) as [Hp|Hp].
    + rewrite Hp in Hd. destruct (fs !! mid) as [[|y]|]; discriminate.
    + now rewrite lookup_insert_ne by congruence.
Qed.

(** Header fields in range for the padded container keep the product
    of line 25 far below [2^53], where the frame offset is the exact
    floor. *)
Lemma offset_frames_of_fit f delay_ms :
  writable f ->
  0 < delay_ms ->
  fields_fit (nchannels f) (sampwidth f) (framerate f)
             ((Wave.nframes f + framerate f * delay_ms / 1000) * Wave.framesize f) ->
  offset_frames (framerate f) delay_ms = Return (framerate f * delay_ms / 1000).
Proof.
  intros (Hc & Hs & Hr) Hd Hfit.
  set (n := framerate f * delay_ms / 1000) in *.
  assert (Hfs : 0 < Wave.framesize f) by (apply framesize_pos; lia).
  assert (Htot : 0 <= Wave.nframes f) by (apply nframes_nonneg; lia).
  assert (HP : 0 <= framerate f * delay_ms) by (apply Z.mul_nonneg_nonneg; lia).
  assert (Hn : 0 <= n) by (apply Z.div_pos; lia).
  assert (Hsmall : n < 2 ^ 32).
  { destruct Hfit as (H1 & _).
    assert (n * 1 <= (Wave.nframes f + n) * Wave.framesize f)
      by (apply Z.mul_le_mono_nonneg; lia).
    lia. }
  rewrite offset_frames_small.
  - unfold n. now rewrite Z.abs_eq by lia.
  - lia.
  - rewrite Z.abs_eq by lia.
    pose proof (Z.mul_succ_div_gt (framerate f * delay_ms) 1000 ltac:(lia)) as Hdiv.
    fold n in Hdiv. change (2 ^ 32) with 4294967296 in Hsmall.
    change (2 ^ 53) with 9007199254740992. lia.
Qed.

Lemma apply_offset_pad_eq src dst delay_ms f n w :
  files w !! src = Some (File (WavData f)) ->
  pcm_ok f ->
  0 < delay_ms ->
  offset_frames (framerate f) delay_ms = Return n ->
  fields_fit (nchannels f) (sampwidth f) (framerate f)
             ((Wave.nframes f + n) * Wave.framesize f) ->
  can_create (files w) dst = true ->
  apply_offset src dst delay_ms w
  = (Return tt,
     World (<[dst := File (WavData (Wav (nchannels f) (sampwidth f) (framerate f)
                             (replicate (Z.to_nat (n * Wave.framesize f)) Byte.x00
                              ++ frames f)))]> (files w))
           (stdout w)).
Proof.
  intros Hsrc Hok Hd Hoff Hfit Hcan.
  pose proof Hok as (Hc & Hs & Hr & Hw).
  assert (Hn : 0 <= n) by (apply (offset_frames_nonneg (framerate f) delay_ms); [lia|assumption]).
  assert (Hfs : 0 < Wave.framesize f) by (apply framesize_pos; lia).
  assert (Hz : 0 <= n * Wave.framesize f) by (apply Z.mul_nonneg_nonneg; lia).
  rewrite (apply_offset_unfold src dst delay_ms f n w) by (try assumption; lia).
  replace (delay_ms <? 0) with false by (symmetry; apply Z.ltb_ge; lia).
  replace (0 <? delay_ms) with true by (symmetry; apply Z.ltb_lt; lia).
  rewrite frame_range_all by assumption.
  replace (n * nchannels f * sampwidth f) with (n * Wave.framesize f)
    by (unfold Wave.framesize; ring).
  rewrite copy_out_ok; [reflexivity|unfold writable; lia|assumption|].
  rewrite length_app, length_replicate, Nat2Z.inj_add, Z2Nat.id, Hw by lia.
  replace (n * Wave.framesize f + Wave.nframes f * Wave.framesize f)
    with ((Wave.nframes f + n) * Wave.framesize f) by ring.
  assumption.
Qed.

Lemma apply_offset_trim_eq src dst delay_ms f n w :
  files w !! src = Some (File (WavData f)) ->
  pcm_ok f ->
  fields_fit (nchannels f) (sampwidth f) (framerate f) (Z.of_nat (length (frames f))) ->
  delay_ms < 0 ->
  offset_frames (framerate f) delay_ms = Return n ->
  n < Wave.nframes f ->
  can_create (files w) dst = true ->
  apply_offset src dst delay_ms w
  = (Return tt,
     World (<[dst := File (WavData (Wav (nchannels f) (sampwidth f) (framerate f)
                             (drop (Z.to_nat (n * Wave.framesize f)) (frames f))))]>
              (files w))
           (stdout w)).
Proof.
  intros Hsrc Hok Hfit Hd Hoff Hlt Hcan.
  pose proof Hok as (Hc & Hs & Hr & Hw).
  assert (Hn : 0 <= n) by (apply (offset_frames_nonneg (framerate f) delay_ms); [lia|assumption]).
  rewrite (apply_offset_unfold src dst delay_ms f n w) by (try assumption; lia).
  replace (delay_ms <? 0) with true by (symmetry; apply Z.ltb_lt; lia).
  replace (Wave.nframes f <=? n) with false by (symmetry; apply Z.leb_gt; lia).
  rewrite frame_range_tail by (try assumption; lia).
  rewrite copy_out_ok; [reflexivity|unfold writable; lia|assumption|].
  apply (fields_fit_le _ _ _ _ (Z.of_nat (length (frames f)))); [|assumption].
  rewrite length_drop. lia.
Qed.

(** X3: for a container the [wave] module reads and writes back, with at
    least one frame, a positive delay, and header fields in range for
    the padded container: padding by the delay and then trimming the
    result by the same delay both return and give the container back:
    the silence that was put in front is what is cut off. *)
Theorem apply_offset_pad_then_trim src mid dst delay_ms f w :
  files w !! src = Some (File (WavData f)) ->
  pcm_ok f ->
  0 < Wave.nframes f ->
  0 < delay_ms ->
  fields_fit (nchannels f) (sampwidth f) (framerate f)
             ((Wave.nframes f + framerate f * delay_ms / 1000) * Wave.framesize f) ->
  can_create (files w) mid = true ->
  can_create (files w) dst = true ->
  exists w1 w2,
    apply_offset src mid delay_ms w = (Return tt, w1)
    /\ apply_offset mid dst (- delay_ms) w1 = (Return tt, w2)
    /\ files w2 !! dst = Some (File (WavData f)).
Proof.
  intros Hsrc Hok Hpos Hd Hfit Hmid Hdst.
  pose proof Hok as (Hc & Hs & Hr & Hw).
  assert (Hoff : offset_frames (framerate f) delay_ms
                 = Return (framerate f * delay_ms / 1000))
    by (apply offset_frames_of_fit; [unfold writable; lia|assumption..]).
  set (n := framerate f * delay_ms / 1000) in *.
  assert (Hn : 0 <= n) by (apply (offset_frames_nonneg (framerate f) delay_ms); [lia|assumption]).
  assert (Hfs : 0 < Wave.framesize f) by (apply framesize_pos; lia).
  assert (Hz : 0 <= n * Wave.framesize f) by (apply Z.mul_nonneg_nonneg; lia).
  set (out := Wav (nchannels f) (sampwidth f) (framerate f)
                  (replicate (Z.to_nat (n * Wave.framesize f)) Byte.x00 ++ frames f)).
  assert (Hfso : Wave.framesize out = Wave.framesize f) by reflexivity.
  assert (Hlen : Z.of_nat (length (frames out)) = (Wave.nframes f + n) * Wave.framesize f).
  { unfold out. cbn [frames].
    rewrite length_app, length_replicate, Nat2Z.inj_add, Z2Nat.id, Hw by lia. ring. }
  assert (Hcount : Wave.nframes out = Wave.nframes f + n).
  { unfold Wave.nframes. rewrite Hfso, Hlen. apply Z.div_mul. lia. }
  assert (Hokout : pcm_ok out).
  { unfold pcm_ok. rewrite Hcount, Hfso, Hlen. cbn. repeat split; lia. }
  set (w1 := World (<[mid := File (WavData out)]> (files w)) (stdout w)).
  exists w1. eexists. split; [|split].
  - apply apply_offset_pad_eq; assumption.
  - apply (apply_offset_trim_eq mid dst (- delay_ms) out n w1).
    + apply lookup_insert_eq.
    + exact Hokout.
    + rewrite Hlen. exact Hfit.
    + lia.
    + rewrite offset_frames_opp. exact Hoff.
    + lia.
    + now apply can_create_insert.
  - cbn [files]. rewrite lookup_insert_eq. do 3 f_equal.
    rewrite Hfso. unfold out. cbn [nchannels sampwidth framerate frames].
    rewrite drop_app_length' by now rewrite length_replicate.
    destruct f; reflexivity.
Qed.

Lemma apply_offset_pad_then_trim_witness :
  exists w1 w2,
    apply_offset ["a"; "in.wav"] ["a"; "mid.wav"] 3 demo_world = (Return tt, w1)
    /\ apply_offset ["a"; "mid.wav"] ["a"; "out.wav"] (- 3) w1 = (Return tt, w2)
    /\ files w2 !! ["a"; "out.wav"] = Some (File (WavData demo_wav)).
Proof.
  apply (apply_offset_pad_then_trim ["a"; "in.wav"] ["a"; "mid.wav"] ["a"; "out.wav"] 3
           demo_wav demo_world).
  - reflexivity.
  - unfold pcm_ok; cbn; repeat split; lia.
  - reflexivity.
  - lia.
  - vm_compute; repeat split; reflexivity.
  - reflexivity.
  - reflexivity.
Defined.

(** X5: a source that cannot be read as a PCM container (missing, a
    directory, other bytes, or a header without channels or sample
    width) makes [apply_offset] raise before the destination is opened:
    the world stays as it was. *)
Theorem apply_offset_unreadable_source src dst delay_ms w :
  (forall f, files w !! src = Some (File (WavData f)) ->
             nchannels f <= 0 \/ sampwidth f <= 0) ->
  exists e, apply_offset src dst delay_ms w = (Raise e, w) /\ is_Exception e = true.
Proof.
  intros Hbad. unfold apply_offset, bind at 1, Wave.open_rb.
  destruct (files w !! src) as [[|[f|b]]|] eqn:E.
  - eexists. split; reflexivity.
  - destruct (Hbad f eq_refl) as [H|H].
    + destruct (sampwidth f <=? 0); [eexists; split; reflexivity|].
      replace (nchannels f <=? 0) with true by (symmetry; apply Z.leb_le; lia).
      eexists. split; reflexivity.
    + replace (sampwidth f <=? 0) with true by (symmetry; apply Z.leb_le; lia).
      eexists. split; reflexivity.
  - eexists. split; [reflexivity|]. apply riff_error_Exception.
  - eexists. split; reflexivity.
Qed.

Lemma apply_offset_unreadable_source_witness :
  (forall f, demo_fs !! ["a"; "none.wav"] = Some (File (WavData f)) ->
             nchannels f <= 0 \/ sampwidth f <= 0)
  /\ exists e, apply_offset ["a"; "none.wav"] ["a"; "out.wav"] 5 demo_world
               = (Raise e, demo_world) /\ is_Exception e = true.
Proof.
  assert (H : forall f, demo_fs !! ["a"; "none.wav"] = Some (File (WavData f)) ->
                        nchannels f <= 0 \/ sampwidth f <= 0)
    by (intros f Hf; discriminate Hf).
  split; [exact H|].
  apply (apply_offset_unreadable_source ["a"; "none.wav"] ["a"; "out.wav"] 5 demo_world H).
Defined.

(* ===================================================================== *)
(** * [extract_ark] and its marker *)
(* ===================================================================== *)

Lemma os_mkdir_frame fs p fs' q :
  os_mkdir fs p = inr fs' -> q <> p -> fs' !! q = fs !! q.
Proof.
  unfold os_mkdir. destruct (fs !! p); [discriminate|].
  destruct p as [|s p]; [discriminate|].
  destruct (fs !! parent (s :: p)) as [[|c]|]; try discriminate.
  intros [= <-] Hq. now apply lookup_insert_ne.
Qed.

Lemma mkdir_parents_frame rp : forall fs fs' q,
  mkdir_parents fs rp = inr fs' -> ~ q `prefix_of` rev rp -> fs' !! q = fs !! q.
Proof.
  induction rp as [|s rp IH]; intros fs fs' q; cbn [mkdir_parents].
  - destruct (os_mkdir fs (rev [])) as [e|fs1] eqn:E.
    + destruct e; try (destruct (is_dir fs (rev [])); [|discriminate]); try discriminate;
        intros [= <-]; reflexivity.
    + intros [= <-] Hq. eapply os_mkdir_frame; [exact E|]. intros ->. apply Hq. reflexivity.
  - assert (Hsub : ~ q `prefix_of` rev (s :: rp) -> ~ q `prefix_of` rev rp).
    { intros Hq Hp. apply Hq. cbn. now apply prefix_app_r. }
    destruct (os_mkdir fs (rev (s :: rp))) as [e|fs1] eqn:E.
    + destruct e;
        try (destruct (is_dir fs (rev (s :: rp))); [intros [= <-]; reflexivity|discriminate]).
      destruct (mkdir_parents fs rp) as [e1|fs1] eqn:E1; [discriminate|].
      destruct (os_mkdir fs1 (rev (s :: rp))) as [e2|fs2] eqn:E2.
      * destruct (is_dir fs1 (rev (s :: rp))); [|discriminate].
        intros [= <-] Hq. eapply IH; eauto.
      * intros [= <-] Hq. erewrite os_mkdir_frame; [|exact E2|].
        -- eapply IH; eauto.
        -- intros ->. apply Hq. reflexivity.
    + intros [= <-] Hq. eapply os_mkdir_frame; [exact E|]. intros ->. apply Hq. reflexivity.
Qed.

Lemma marker_not_prefix (temp_dir : Path) : ~ joinpath temp_dir "ark.txt" `prefix_of` temp_dir.
Proof.
  unfold joinpath. intros H. apply prefix_length in H. rewrite length_app in H. cbn in H. lia.
Qed.

(** X6: when [extract_ark] returns, the marker [ark.txt] is in the
    workspace; and if the marker was not there before and the unpack
    operation does not write it itself, a marker afterwards means that
    [extract_ark] returned, that is, that the unpack exited with 0. *)
Theorem extract_ark_marker system hdr_path arkhelper temp_dir w :
  let marker := joinpath temp_dir "ark.txt" in
  let '(r, w') := extract_ark system hdr_path arkhelper temp_dir w in
  (r = Return tt -> is_Some (files w' !! marker))
  /\ (files w !! marker = None ->
      (forall fs, fs !! marker = None ->
                  (system (Ark2Dir arkhelper hdr_path temp_dir) fs).2 !! marker = None) ->
      is_Some (files w' !! marker) -> r = Return tt).
Proof.
  intros marker.
  destruct (extract_ark system hdr_path arkhelper temp_dir w) as [r w'] eqn:E.
  revert E. unfold extract_ark, bind at 1, print. unfold bind at 1.
  unfold mkdir_exist_ok at 1. cbn [files stdout].
  destruct (mkdir_parents (files w) (rev temp_dir)) as [e|fs1] eqn:Em.
  { intros [= <- <-]. cbn. split; [discriminate|].
    intros Hm _ [x Hx]. congruence. }
  assert (Hfs1 : fs1 !! marker = files w !! marker).
  { eapply mkdir_parents_frame; [exact Em|]. rewrite rev_involutive. apply marker_not_prefix. }
  unfold bind at 1, subprocess_run. cbn [executable files stdout].
  destruct (fs1 !! arkhelper) as [[|x]|].
  1,3: intros [= <- <-]; cbn; split; [discriminate|]; intros Hm _ [y Hy]; congruence.
  destruct (system (Ark2Dir arkhelper hdr_path temp_dir) fs1) as [rc fs2] eqn:Es.
  assert (Hfs2 : fs1 !! marker = None -> (forall fs, fs !! marker = None ->
                  (system (Ark2Dir arkhelper hdr_path temp_dir) fs).2 !! marker = None) ->
                 fs2 !! marker = None).
  { intros H1 Ht. specialize (Ht fs1 H1). now rewrite Es in Ht. }
  destruct (rc =? 0).
  2:{ intros [= <- <-]. cbn. split; [discriminate|].
      intros Hm Ht [y Hy]. rewrite Hfs2 in Hy by (try assumption; congruence). discriminate. }
  unfold bind at 1, path_exists, is_present. cbn [files stdout]. fold marker.
  destruct (fs2 !! marker) as [m|] eqn:E2.
  - intros [= <- <-]. cbn. rewrite E2. split; [eauto|reflexivity].
  - cbn [negb when]. unfold touch. cbn [files]. rewrite E2. unfold create_file. cbn [files stdout].
    rewrite E2. fold marker.
    destruct (fs2 !! parent marker) as [[|c]|].
    + intros [= <- <-]. cbn. rewrite lookup_insert_eq. split; [eauto|reflexivity].
    + intros [= <- <-]. cbn. rewrite E2. split; [discriminate|]. intros _ _ [y Hy]. discriminate.
    + intros [= <- <-]. cbn. rewrite E2. split; [discriminate|]. intros _ _ [y Hy]. discriminate.
Qed.

(* ===================================================================== *)
(** * Disc images *)
(* ===================================================================== *)

(** X7: when the extraction of a disc image exits with 0 and the image
    is then a regular file, the processed folder a directory and the
    target not a directory, [extract_iso] returns with the image moved
    into the processed folder under its own name, with its content, and
    with nothing else changed since the extraction. *)
Theorem extract_iso_moves_image system main_folder seven_z processed_folder iso_file w ws c :
  parent iso_file <> processed_folder ->
  subprocess_run system (SevenZipX seven_z iso_file main_folder)
    (printed (printed w (PyStr.nl +:+ "Detected ISO: " +:+ name iso_file))
       "Extracting contents directly into the main folder (no subfolder)...")
  = (Return tt, ws) ->
  files ws !! iso_file = Some (File c) ->
  files ws !! processed_folder = Some Dir ->
  files ws !! joinpath processed_folder (name iso_file) <> Some Dir ->
  extract_iso system main_folder seven_z processed_folder iso_file w
  = (Return tt,
     printed (World (<[joinpath processed_folder (name iso_file) := File c]>
                       (delete iso_file (files ws)))
                    (stdout ws))
             ("Moved original ISO to: "
              +:+ path_str (joinpath processed_folder (name iso_file)) +:+ PyStr.nl)).
Proof.
  intros Hp Hrun Hiso Hproc Htarget. unfold extract_iso.
  destruct (bool_decide_reflect (parent iso_file = processed_folder)); [contradiction|].
  unfold bind at 1, print. unfold bind at 1. unfold bind at 1, try_except. unfold bind at 1.
  unfold printed in Hrun. cbn [files stdout] in Hrun. cbn [files stdout]. rewrite Hrun.
  unfold ret at 1. cbn [negb]. unfold bind at 1, os_replace. rewrite Hiso.
  assert (Hne : iso_file <> joinpath processed_folder (name iso_file)).
  { intros H. apply Hp. rewrite H. unfold joinpath, parent.
    now rewrite removelast_last. }
  destruct (bool_decide_reflect (iso_file = joinpath processed_folder (name iso_file)));
    [contradiction|].
  assert (Hpar : parent (joinpath processed_folder (name iso_file)) = processed_folder)
    by (unfold joinpath, parent; apply removelast_last).
  rewrite Hpar, Hproc.
  destruct (files ws !! joinpath processed_folder (name iso_file)) as [[|c0]|];
    [contradiction|reflexivity|reflexivity].
Qed.

Lemma extract_iso_moves_image_witness :
  parent ["main"; "game.iso"] <> ["main"; "_processed_original_isos"]
  /\ subprocess_run succeeding_system (SevenZipX ["7z.exe"] ["main"; "game.iso"] ["main"])
       (printed (printed (World iso_fs []) (PyStr.nl +:+ "Detected ISO: " +:+ name ["main"; "game.iso"]))
          "Extracting contents directly into the main folder (no subfolder)...")
     = (Return tt, iso_extracted)
  /\ files iso_extracted !! ["main"; "game.iso"] = Some (File (Blob [Byte.x01]))
  /\ files iso_extracted !! ["main"; "_processed_original_isos"] = Some Dir
  /\ files iso_extracted !! joinpath ["main"; "_processed_original_isos"] (name ["main"; "game.iso"])
     <> Some Dir
  /\ extract_iso succeeding_system ["main"] ["7z.exe"] ["main"; "_processed_original_isos"]
       ["main"; "game.iso"] (World iso_fs [])
     = (Return tt,
        printed (World (<[joinpath ["main"; "_processed_original_isos"] (name ["main"; "game.iso"])
                          := File (Blob [Byte.x01])]>
                          (delete ["main"; "game.iso"] (files iso_extracted)))
                       (stdout iso_extracted))
                ("Moved original ISO to: "
                 +:+ path_str (joinpath ["main"; "_processed_original_isos"]
                                 (name ["main"; "game.iso"])) +:+ PyStr.nl)).
Proof.
  split; [discriminate|]. split; [reflexivity|]. split; [reflexivity|].
  split; [reflexivity|]. split; [discriminate|].
  apply (extract_iso_moves_image succeeding_system ["main"] ["7z.exe"]
           ["main"; "_processed_original_isos"] ["main"; "game.iso"] (World iso_fs [])
           iso_extracted (Blob [Byte.x01]));
    [discriminate | reflexivity | reflexivity | reflexivity | discriminate].
Defined.

(* ===================================================================== *)
(** * Nothing to do *)
(* ===================================================================== *)

Lemma filter_nil_forall {A} (f : A -> bool) (l : list A) :
  (forall x, x ∈ l -> f x = false) -> List.filter f l = [].
Proof.
  induction l as [|x l IH]; intros H; cbn; [reflexivity|].
  rewrite (H x) by (apply elem_of_cons; auto).
  apply IH. intros y Hy. apply H. apply elem_of_cons. auto.
Qed.

(** X8: when no [.vgs] node under the root passes the filter,
    [process_vgs_files] prints that it found nothing and returns: no
    program is started and no file is touched. *)
Theorem process_vgs_files_nothing_eligible system root_dir delay_ms rockaudio w :
  (forall p, p ∈ rglob (files w) root_dir "*.vgs" -> keep_vgs p = false) ->
  process_vgs_files system root_dir delay_ms rockaudio w
  = (Return tt, printed w ("No eligible .vgs files found in " +:+ path_str root_dir +:+ ".")).
Proof.
  intros H. unfold process_vgs_files, bind at 1, gather_vgs_files, bind, get_files, ret.
  rewrite gather_loop_filter, filter_nil_forall by exact H. reflexivity.
Qed.

Lemma process_vgs_files_nothing_eligible_witness :
  (forall p, p ∈ rglob (files demo_world) ["a"] "*.vgs" -> keep_vgs p = false)
  /\ process_vgs_files failing_system ["a"] (-60) ["bin"; "RockAudio.exe"] demo_world
     = (Return tt, printed demo_world "No eligible .vgs files found in /a.").
Proof.
  assert (H : forall p, p ∈ rglob (files demo_world) ["a"] "*.vgs" -> keep_vgs p = false).
  { intros p Hp. vm_compute in Hp. inversion Hp. }
  split; [exact H|].
  apply (process_vgs_files_nothing_eligible failing_system ["a"] (-60)
           ["bin"; "RockAudio.exe"] demo_world H).
Defined.

Lemma elem_of_glob fs dir pat p :
  p ∈ glob fs dir pat <->
  is_Some (fs !! p)
  /\ (exists s, p = dir ++ [s])
  /\ fs !! dir = Some Dir
  /\ PyStr.fnmatch pat (name p) = true.
Proof.
  unfold glob. rewrite list_elem_of_In, filter_In, <- list_elem_of_In.
  change (map fst (map_to_list fs)) with ((map_to_list fs).*1).
  rewrite list_elem_of_fmap, !andb_true_iff, negb_true_iff, bool_decide_eq_false,
    bool_decide_eq_true.
  assert (Hsnoc : p <> [] /\ parent p = dir <-> exists s, p = dir ++ [s]).
  { split.
    - intros [Hne <-]. exists (List.last p ""). unfold parent.
      now apply app_removelast_last.
    - intros [s ->]. split; [now destruct dir|]. unfold parent. apply removelast_last. }
  assert (Hdir : is_dir fs dir = true <-> fs !! dir = Some Dir).
  { unfold is_dir. destruct (fs !! dir) as [[|c]|]; split; congruence. }
  rewrite Hdir. split.
  - intros [([k v] & -> & Hin) [[Hp Hd] Hm]]. apply elem_of_map_to_list in Hin. cbn in *.
    split; [eauto|]. split; [apply Hsnoc; exact Hp|]. auto.
  - intros ([v Hv] & Hs & Hd & Hm). split.
    + exists (p, v). split; [reflexivity|]. now apply elem_of_map_to_list.
    + split; [split|]; [apply Hsnoc; exact Hs|exact Hd|exact Hm].
Qed.

Lemma name_snoc (d : Path) s : name (d ++ [s]) = s.
Proof. unfold name. now rewrite last_snoc. Qed.

(** X9: an archive header whose folder holds no node named [MAIN*.ARK]
    is passed over in silence: nothing is printed, started or changed. *)
Theorem process_hdr_without_data_file system hdr_path arkhelper rockaudio delay_ms w :
  (forall s, is_Some (files w !! (parent hdr_path ++ [s])) ->
             PyStr.fnmatch "MAIN*.ARK" s = false) ->
  process_hdr system hdr_path arkhelper rockaudio delay_ms w = (Return tt, w).
Proof.
  intros H. unfold process_hdr, bind at 1, get_files.
  assert (Hg : glob (files w) (parent hdr_path) "MAIN*.ARK" = []).
  { destruct (glob (files w) (parent hdr_path) "MAIN*.ARK") as [|p l] eqn:E; [reflexivity|].
    assert (Hin : p ∈ glob (files w) (parent hdr_path) "MAIN*.ARK")
      by (rewrite E; apply elem_of_cons; auto).
    apply elem_of_glob in Hin as (Hsome & [s ->] & _ & Hm).
    rewrite name_snoc in Hm. rewrite (H s Hsome) in Hm. discriminate. }
  rewrite Hg. reflexivity.
Qed.

Lemma process_hdr_without_data_file_witness :
  (forall s, is_Some (files demo_world !! (parent ["a"; "MAIN.HDR"] ++ [s])) ->
             PyStr.fnmatch "MAIN*.ARK" s = false)
  /\ process_hdr failing_system ["a"; "MAIN.HDR"] ["bin"; "arkhelper.exe"]
       ["bin"; "RockAudio.exe"] (-60) demo_world
     = (Return tt, demo_world).
Proof.
  assert (H : forall s, is_Some (files demo_world !! (parent ["a"; "MAIN.HDR"] ++ [s])) ->
                        PyStr.fnmatch "MAIN*.ARK" s = false).
  { intros s [n Hn]. destruct (decide (s = "in.wav")) as [->|Hs]; [reflexivity|].
    exfalso. revert Hn. cbn [files demo_world].
    change demo_fs with (<[[] := Dir]> (<[["a"] := Dir]>
                          (<[["a"; "in.wav"] := File (WavData demo_wav)]> (∅ : gmap Path node)))).
    cbn [parent removelast app].
    rewrite !lookup_insert_ne by (intros [=]; congruence).
    rewrite lookup_empty. discriminate. }
  split; [exact H|].
  apply (process_hdr_without_data_file failing_system ["a"; "MAIN.HDR"] ["bin"; "arkhelper.exe"]
           ["bin"; "RockAudio.exe"] (-60) demo_world H).
Defined.

(* ===================================================================== *)
(** * [cleanup_build_iso] *)
(* ===================================================================== *)

Lemma unlink_if_exists_bind {A} p (k : Py A) w :
  files w !! p <> Some Dir ->
  exists w1,
    (b <- path_exists p ;; when b (unlink p) ;; k)%py w = k w1
    /\ stdout w1 = stdout w
    /\ files w1 !! p = None
    /\ (forall q, q <> p -> files w1 !! q = files w !! q)
    /\ (files w !! p = None -> w1 = w).
Proof.
  intros Hp. destruct (unlink_if_exists_spec p w Hp) as (w1 & E & Ho & Hn & Hf).
  exists w1. split; [|split; [exact Ho|split; [exact Hn|split; [exact Hf|]]]].
  - unfold bind, path_exists. cbv beta iota. now rewrite E.
  - intros Hnone. revert E. unfold is_present. rewrite Hnone.
    unfold when, ret. intros E. now inversion E.
Qed.

Lemma still_not_dir (w w1 : world) (p q : Path) :
  files w1 !! p = None ->
  (forall x, x <> p -> files w1 !! x = files w !! x) ->
  files w !! q <> Some Dir -> files w1 !! q <> Some Dir.
Proof.
  intros Hn Hf Hq. destruct (decide (q = p)) as [->|Hne]; [congruence|]. now rewrite Hf.
Qed.

Lemma still_absent (w w1 : world) (p q : Path) :
  files w1 !! p = None ->
  (forall x, x <> p -> files w1 !! x = files w !! x) ->
  files w !! q = None -> files w1 !! q = None.
Proof.
  intros Hn Hf Hq. destruct (decide (q = p)) as [->|Hne]; [congruence|]. now rewrite Hf.
Qed.

(** X10: when none of the four leftovers of an ISO build is a directory,
    [cleanup_build_iso] returns, prints nothing, leaves none of the four
    behind and nothing else changed; running it again changes nothing. *)
Theorem cleanup_build_iso_clears main_folder w :
  (forall p, p ∈ build_leftovers main_folder -> files w !! p <> Some Dir) ->
  exists w',
    cleanup_build_iso main_folder w = (Return tt, w')
    /\ stdout w' = stdout w
    /\ (forall p, p ∈ build_leftovers main_folder -> files w' !! p = None)
    /\ (forall q, q ∉ build_leftovers main_folder -> files w' !! q = files w !! q)
    /\ cleanup_build_iso main_folder w' = (Return tt, w').
Proof.
  intros H. unfold build_leftovers in *.
  set (p1 := joinpath main_folder "imgburn.exe") in *.
  set (p2 := joinpath main_folder "imgburn.ini") in *.
  set (p3 := joinpath main_folder "DELETEME") in *.
  set (p4 := joinpath (parent main_folder) "DVD_Sectors.Bin") in *.
  assert (H1 : files w !! p1 <> Some Dir) by (apply H; set_solver).
  assert (H2 : files w !! p2 <> Some Dir) by (apply H; set_solver).
  assert (H3 : files w !! p3 <> Some Dir) by (apply H; set_solver).
  assert (H4 : files w !! p4 <> Some Dir) by (apply H; set_solver).
  assert (Hrun : forall v,
            files v !! p1 <> Some Dir -> files v !! p2 <> Some Dir ->
            files v !! p3 <> Some Dir -> files v !! p4 <> Some Dir ->
            exists v',
              cleanup_build_iso main_folder v = (Return tt, v')
              /\ stdout v' = stdout v
              /\ (files v' !! p1 = None /\ files v' !! p2 = None
                  /\ files v' !! p3 = None /\ files v' !! p4 = None)
              /\ (forall q, q <> p1 -> q <> p2 -> q <> p3 -> q <> p4 ->
                            files v' !! q = files v !! q)
              /\ (files v !! p1 = None -> files v !! p2 = None ->
                  files v !! p3 = None -> files v !! p4 = None -> v' = v)).
  { clear. intros v G1 G2 G3 G4. unfold cleanup_build_iso. fold p1 p2 p3 p4.
    destruct (unlink_if_exists_bind p1
                (b <- path_exists p2 ;; when b (unlink p2) ;;
                 b <- path_exists p3 ;; when b (unlink p3) ;;
                 b <- path_exists p4 ;; when b (unlink p4))%py v G1)
      as (v1 & -> & O1 & N1 & F1 & S1).
    pose proof (still_not_dir v v1 p1 p2 N1 F1 G2) as G2'.
    destruct (unlink_if_exists_bind p2
                (b <- path_exists p3 ;; when b (unlink p3) ;;
                 b <- path_exists p4 ;; when b (unlink p4))%py v1 G2')
      as (v2 & -> & O2 & N2 & F2 & S2).
    pose proof (still_not_dir v1 v2 p2 p3 N2 F2 (still_not_dir v v1 p1 p3 N1 F1 G3)) as G3'.
    destruct (unlink_if_exists_bind p3
                (b <- path_exists p4 ;; when b (unlink p4))%py v2 G3')
      as (v3 & -> & O3 & N3 & F3 & S3).
    pose proof (still_not_dir v2 v3 p3 p4 N3 F3
                  (still_not_dir v1 v2 p2 p4 N2 F2 (still_not_dir v v1 p1 p4 N1 F1 G4))) as G4'.
    destruct (unlink_if_exists_spec p4 v3 G4') as (v4 & E4 & O4 & N4 & F4).
    exists v4. split.
    { unfold bind, path_exists. cbv beta iota. exact E4. }
    split; [congruence|]. split; [|split].
    - repeat split.
      + eapply still_absent; [exact N4|exact F4|].
        eapply still_absent; [exact N3|exact F3|].
        eapply still_absent; [exact N2|exact F2|exact N1].
      + eapply still_absent; [exact N4|exact F4|].
        eapply still_absent; [exact N3|exact F3|exact N2].
      + eapply still_absent; [exact N4|exact F4|exact N3].
      + exact N4.
    - intros q Q1 Q2 Q3 Q4. now rewrite F4, F3, F2, F1.
    - intros Z1 Z2 Z3 Z4.
      assert (v1 = v) as -> by auto.
      assert (v2 = v) as -> by auto.
      assert (v3 = v) as -> by auto.
      revert E4. unfold is_present. rewrite Z4.
      unfold when, ret. intros E4. now inversion E4. }
  destruct (Hrun w H1 H2 H3 H4) as (w' & E & Ho & (N1 & N2 & N3 & N4) & Hf & _).
  exists w'. split; [exact E|]. split; [exact Ho|]. split; [|split].
  - intros p Hp.
    repeat (apply elem_of_cons in Hp as [->|Hp]; [assumption|]). inversion Hp.
  - intros q Hq. apply Hf; set_solver.
  - destruct (Hrun w') as (w'' & E' & _ & _ & _ & Hsame); try congruence.
    rewrite E'. now rewrite Hsame.
Qed.

Lemma cleanup_build_iso_clears_witness :
  (forall p, p ∈ build_leftovers ["work"; "main"] ->
             exists c, files (World leftovers_fs []) !! p = Some (File c))
  /\ exists w',
       cleanup_build_iso ["work"; "main"] (World leftovers_fs []) = (Return tt, w')
       /\ stdout w' = stdout (World leftovers_fs [])
       /\ (forall p, p ∈ build_leftovers ["work"; "main"] -> files w' !! p = None)
       /\ (forall q, q ∉ build_leftovers ["work"; "main"] ->
                     files w' !! q = files (World leftovers_fs []) !! q)
       /\ cleanup_build_iso ["work"; "main"] w' = (Return tt, w').
Proof.
  assert (H : forall p, p ∈ build_leftovers ["work"; "main"] ->
                        exists c, files (World leftovers_fs []) !! p = Some (File c)).
  { intros p Hp. unfold build_leftovers in Hp.
    repeat (apply elem_of_cons in Hp as [->|Hp]; [eexists; vm_compute; reflexivity|]).
    inversion Hp. }
  split; [exact H|].
  apply (cleanup_build_iso_clears ["work"; "main"] (World leftovers_fs [])).
  intros p Hp. destruct (H p Hp) as [c ->]. discriminate.
Defined.

(* ===================================================================== *)
(** * [parse_system_cnf_for_label] *)
(* ===================================================================== *)

Lemma has_char_app c (a b : string) :
  has_char c (a +:+ b) = has_char c a || has_char c b.
Proof.
  induction a as [|x a IH]; [reflexivity|].
  rewrite string_app_String. cbn. rewrite IH. now rewrite orb_assoc.
Qed.

Lemma has_char_lstrip c s : has_char c s = false -> has_char c (PyStr.lstrip s) = false.
Proof.
  induction s as [|x s IH]; [reflexivity|]. cbn.
  destruct (PyStr.is_space x).
  - intros H. apply orb_false_iff in H as [_ H]. auto.
  - auto.
Qed.

Lemma lstrip_shape s :
  PyStr.lstrip s = "" \/ exists c t, PyStr.lstrip s = String c t /\ PyStr.is_space c = false.
Proof.
  induction s as [|x s IH]; [now left|]. cbn.
  destruct (PyStr.is_space x) eqn:E; [exact IH|]. right. eauto.
Qed.

Lemma lstrip_snoc (a : string) c :
  PyStr.lstrip (a +:+ String c "") =
  match PyStr.lstrip a with
  | EmptyString => if PyStr.is_space c then "" else String c ""
  | r => r +:+ String c ""
  end.
Proof.
  induction a as [|x a IH].
  - change ("" +:+ String c "") with (String c ""). cbn. now destruct (PyStr.is_space c).
  - rewrite string_app_String. cbn. destruct (PyStr.is_space x); [exact IH|].
    now rewrite string_app_String.
Qed.

Lemma string_of_list_ascii_app (a b : list ascii) :
  string_of_list_ascii (a ++ b) = string_of_list_ascii a +:+ string_of_list_ascii b.
Proof.
  induction a as [|x a IH]; [reflexivity|].
  cbn. rewrite string_app_String. now f_equal.
Qed.

Lemma rev_string_cons c s :
  PyStr.rev_string (String c s) = PyStr.rev_string s +:+ String c "".
Proof. unfold PyStr.rev_string. cbn. now rewrite string_of_list_ascii_app. Qed.

Lemma rev_string_snoc c s :
  PyStr.rev_string (s +:+ String c "") = String c (PyStr.rev_string s).
Proof.
  unfold PyStr.rev_string. rewrite list_ascii_of_string_app. cbn.
  now rewrite rev_app_distr.
Qed.

(** [rstrip] read from the left. *)
Lemma rstrip_cons c s :
  PyStr.rstrip (String c s) =
  match PyStr.rstrip s with
  | EmptyString => if PyStr.is_space c then "" else String c ""
  | r => String c r
  end.
Proof.
  unfold PyStr.rstrip. rewrite rev_string_cons, lstrip_snoc.
  destruct (PyStr.lstrip (PyStr.rev_string s)) as [|x r].
  - cbn. now destruct (PyStr.is_space c).
  - rewrite rev_string_snoc. rewrite rev_string_cons.
    now destruct (PyStr.rev_string r).
Qed.

Lemma rstrip_nil : PyStr.rstrip "" = "".
Proof. reflexivity. Qed.

Lemma rstrip_nonspace c s :
  PyStr.is_space c = false -> PyStr.rstrip (String c s) = String c (PyStr.rstrip s).
Proof. intros H. rewrite rstrip_cons, H. now destruct (PyStr.rstrip s). Qed.

Lemma has_char_rstrip c s : has_char c s = false -> has_char c (PyStr.rstrip s) = false.
Proof.
  induction s as [|x s IH]; [reflexivity|].
  intros H. cbn in H. apply orb_false_iff in H as [Hx Hs].
  rewrite rstrip_cons. specialize (IH Hs).
  destruct (PyStr.rstrip s) as [|y r].
  - destruct (PyStr.is_space x); [reflexivity|]. cbn. now rewrite Hx.
  - cbn in *. now rewrite Hx, IH.
Qed.

Lemma rstrip_idem s : PyStr.rstrip (PyStr.rstrip s) = PyStr.rstrip s.
Proof.
  induction s as [|x s IH]; [reflexivity|].
  rewrite rstrip_cons. destruct (PyStr.rstrip s) as [|y r] eqn:E.
  - destruct (PyStr.is_space x) eqn:Ex; [reflexivity|].
    now rewrite rstrip_cons, rstrip_nil, Ex.
  - rewrite rstrip_cons, IH. reflexivity.
Qed.

Lemma rstrip_app (a b : string) :
  PyStr.rstrip b <> "" -> PyStr.rstrip (a +:+ b) = a +:+ PyStr.rstrip b.
Proof.
  intros Hb. induction a as [|x a IH]; [reflexivity|].
  rewrite !string_app_String, rstrip_cons, IH.
  destruct (a +:+ PyStr.rstrip b) eqn:E; [|reflexivity].
  destruct a; [|discriminate]. now destruct Hb.
Qed.

Lemma has_char_strip c s : has_char c s = false -> has_char c (PyStr.strip s) = false.
Proof. intros H. now apply has_char_rstrip, has_char_lstrip. Qed.

Lemma strip_idem s : PyStr.strip (PyStr.strip s) = PyStr.strip s.
Proof.
  unfold PyStr.strip.
  destruct (lstrip_shape s) as [->|(c & t & -> & Hc)]; [reflexivity|].
  rewrite (rstrip_nonspace c t Hc). cbn [PyStr.lstrip]. rewrite Hc.
  rewrite <- (rstrip_nonspace c t Hc). apply rstrip_idem.
Qed.

Lemma split_on_nonempty sep s : PyStr.split_on sep s <> [].
Proof.
  destruct s as [|c s]; [discriminate|]. cbn.
  destruct (Ascii.eqb c sep); [discriminate|].
  now destruct (PyStr.split_on sep s).
Qed.

Lemma split_on_parts_free sep s :
  Forall (fun p => has_char sep p = false) (PyStr.split_on sep s).
Proof.
  induction s as [|c s IH]; [now repeat constructor|]. cbn.
  destruct (Ascii.eqb c sep) eqn:E.
  - now constructor.
  - destruct (PyStr.split_on sep s) as [|p ps].
    + repeat constructor. cbn. now rewrite Ascii.eqb_sym, E.
    + inversion IH; subst. constructor; [|assumption].
      cbn. rewrite Ascii.eqb_sym, E. assumption.
Qed.

Lemma split_on_hd_subset c sep s :
  has_char c s = false -> has_char c (hd "" (PyStr.split_on sep s)) = false.
Proof.
  induction s as [|x s IH]; [reflexivity|]. cbn.
  intros H. apply orb_false_iff in H as [Hx Hs].
  destruct (Ascii.eqb x sep); [reflexivity|].
  specialize (IH Hs). destruct (PyStr.split_on sep s) as [|p ps].
  - cbn. now rewrite Hx.
  - cbn in *. now rewrite Hx, IH.
Qed.

Lemma split_on_absent sep s : has_char sep s = false -> PyStr.split_on sep s = [s].
Proof.
  induction s as [|x s IH]; [reflexivity|]. cbn.
  intros H. apply orb_false_iff in H as [Hx Hs].
  rewrite Ascii.eqb_sym, Hx. now rewrite (IH Hs).
Qed.

Lemma split_on_last sep (pre rest : string) :
  has_char sep rest = false ->
  (1 < length (PyStr.split_on sep (pre +:+ String sep rest)))%nat
  /\ List.last (PyStr.split_on sep (pre +:+ String sep rest)) "" = rest.
Proof.
  intros Hr. induction pre as [|x pre [IHl IHr]].
  - change ("" +:+ String sep rest) with (String sep rest). cbn.
    rewrite Ascii.eqb_refl, (split_on_absent _ _ Hr). cbn. split; [lia|reflexivity].
  - rewrite string_app_String. cbn [PyStr.split_on].
    destruct (PyStr.split_on sep (pre +:+ String sep rest)) as [|p [|q ps]];
      [cbn in IHl; lia|cbn in IHl; lia|].
    destruct (Ascii.eqb x sep); split; cbn [length]; try lia; exact IHr.
Qed.

Lemma split_on_hd sep (a b : string) :
  has_char sep a = false -> hd "" (PyStr.split_on sep (a +:+ String sep b)) = a.
Proof.
  induction a as [|x a IH].
  - intros _. change ("" +:+ String sep b) with (String sep b). cbn.
    now rewrite Ascii.eqb_refl.
  - cbn. intros H. apply orb_false_iff in H as [Hx Ha].
    rewrite string_app_String. cbn [PyStr.split_on]. rewrite Ascii.eqb_sym, Hx.
    specialize (IH Ha).
    destruct (PyStr.split_on sep (a +:+ String sep b)) as [|p ps] eqn:E.
    + now destruct (split_on_nonempty sep (a +:+ String sep b)).
    + cbn in *. now subst.
Qed.

Lemma has_char_last sep s :
  has_char sep (List.last (PyStr.split_on sep s) "") = false.
Proof.
  pose proof (split_on_parts_free sep s) as H.
  induction H as [|p ps Hp H IH]; [reflexivity|].
  destruct ps; [exact Hp|exact IH].
Qed.

Lemma parse_boot2_lines_clean file_lines :
  has_char backslash (parse_boot2_lines file_lines) = false
  /\ has_char ";" (parse_boot2_lines file_lines) = false
  /\ PyStr.strip (parse_boot2_lines file_lines) = parse_boot2_lines file_lines.
Proof.
  induction file_lines as [|line rest IH]; [now repeat split|].
  cbn [parse_boot2_lines].
  destruct (PyStr.startswith _ _); [|exact IH].
  destruct (_ <? _)%nat; [|exact IH].
  split; [|split].
  - apply has_char_strip, split_on_hd_subset, has_char_last.
  - apply has_char_strip.
    pose proof (split_on_parts_free ";"
                  (List.last (PyStr.split_on (ascii_of_N 92) (PyStr.strip line)) "")) as H.
    destruct (PyStr.split_on ";" _); [reflexivity|]. now inversion H.
  - apply strip_idem.
Qed.

(** X11: [parse_system_cnf_for_label] only reads: the world is as
    before.  On a missing path it returns the empty string; on a regular
    file it returns a label with no backslash and no semicolon in it and
    no white space around it. *)
Theorem parse_system_cnf_for_label_clean (read_text : content -> string) system_cnf w :
  exists r,
    parse_system_cnf_for_label read_text system_cnf w = (r, w)
    /\ match files w !! system_cnf with
       | None => r = Return ""
       | Some Dir => exists e, r = Raise e
       | Some (File _) =>
           exists label,
             r = Return label
             /\ has_char backslash label = false
             /\ has_char ";" label = false
             /\ PyStr.strip label = label
       end.
Proof.
  unfold parse_system_cnf_for_label, bind, path_exists, is_present, ret.
  destruct (files w !! system_cnf) as [[|c]|] eqn:E; cbn; rewrite ?E.
  - eexists. split; [reflexivity|]. eauto.
  - eexists. split; [reflexivity|]. eexists. split; [reflexivity|].
    apply parse_boot2_lines_clean.
  - eexists. split; reflexivity.
Qed.

Lemma startswith_BOOT2 (x : string) :
  PyStr.startswith (PyStr.upper ("BOOT2" +:+ x)) "BOOT2" = true.
Proof.
  change (PyStr.upper ("BOOT2" +:+ x)) with ("BOOT2" +:+ PyStr.upper x).
  unfold PyStr.startswith. now destruct (PyStr.upper x).
Qed.

Lemma skip_line line rest :
  PyStr.startswith (PyStr.upper (PyStr.strip line)) "BOOT2" = false
  \/ has_char backslash line = false ->
  parse_boot2_lines (line :: rest) = parse_boot2_lines rest.
Proof.
  intros H. cbn [parse_boot2_lines].
  destruct (PyStr.startswith _ _) eqn:E; [|reflexivity].
  destruct H as [H|H]; [congruence|].
  pose proof (split_on_absent _ _ (has_char_strip _ _ H)) as Hs.
  unfold backslash in Hs. rewrite Hs. reflexivity.
Qed.

(** X12: the loop of [parse_system_cnf_for_label] returns the text between
    the last backslash and the first semicolon after it of the first line
    that begins with [BOOT2] and holds a backslash, as in
    [BOOT2 = cdrom0:\SLUS_215.86;1]: lines before it that do not begin with
    [BOOT2], or hold no backslash, are passed over, and the lines after it
    are not looked at. *)
Theorem parse_boot2_lines_finds_label (before after : list string) (mid label tail : string) :
  Forall (fun l => PyStr.startswith (PyStr.upper (PyStr.strip l)) "BOOT2" = false
                   \/ has_char backslash l = false) before ->
  has_char backslash label = false ->
  has_char ";" label = false ->
  PyStr.strip label = label ->
  has_char backslash tail = false ->
  parse_boot2_lines
    (before ++ ("BOOT2" +:+ mid +:+ String backslash (label +:+ String ";" tail)) :: after)
  = label.
Proof.
  intros Hb Hl1 Hl2 Hl3 Ht.
  induction Hb as [|l before Hl Hb IH].
  2:{ change ((l :: before) ++ ?x) with (l :: (before ++ x)). now rewrite skip_line. }
  change ([] ++ ?x) with x.
  set (rest := label +:+ String ";" (PyStr.rstrip tail)).
  assert (Hstrip : PyStr.strip ("BOOT2" +:+ mid +:+ String backslash (label +:+ String ";" tail))
                   = "BOOT2" +:+ mid +:+ String backslash rest).
  { unfold PyStr.strip.
    change (PyStr.lstrip ("BOOT2" +:+ ?x)) with ("BOOT2" +:+ x).
    replace ("BOOT2" +:+ mid +:+ String backslash (label +:+ String ";" tail))
      with (("BOOT2" +:+ mid +:+ String backslash label) +:+ String ";" tail).
    2:{ rewrite !string_app_assoc. reflexivity. }
    rewrite rstrip_app.
    - rewrite (rstrip_nonspace ";" tail eq_refl). unfold rest.
      rewrite !string_app_assoc. reflexivity.
    - now rewrite (rstrip_nonspace ";" tail eq_refl). }
  assert (Hrest : has_char backslash rest = false).
  { unfold rest. rewrite has_char_app, Hl1. cbn. now apply has_char_rstrip. }
  cbn [parse_boot2_lines]. rewrite Hstrip.
  rewrite startswith_BOOT2.
  replace ("BOOT2" +:+ mid +:+ String backslash rest)
    with (("BOOT2" +:+ mid) +:+ String backslash rest) by apply string_app_assoc.
  destruct (split_on_last backslash ("BOOT2" +:+ mid) rest Hrest) as [Hlen Hlast].
  apply Nat.ltb_lt in Hlen. unfold backslash in Hlen, Hlast |- *.
  rewrite Hlen, Hlast. unfold rest.
  rewrite (split_on_hd ";" label _ Hl2). exact Hl3.
Qed.

Lemma parse_boot2_lines_finds_label_witness :
  parse_boot2_lines
    (["; disc" +:+ PyStr.nl; "boot2 = none" +:+ PyStr.nl] ++
     ("BOOT2" +:+ " = cdrom0:" +:+ String backslash ("SLUS_215.86" +:+ String ";" ("1" +:+ PyStr.nl)))
     :: ["VER = 1.00" +:+ PyStr.nl])
  = "SLUS_215.86".
Proof.
  apply (parse_boot2_lines_finds_label
           ["; disc" +:+ PyStr.nl; "boot2 = none" +:+ PyStr.nl]
           ["VER = 1.00" +:+ PyStr.nl]
           " = cdrom0:" "SLUS_215.86" ("1" +:+ PyStr.nl)).
  - constructor; [left; vm_compute; reflexivity|].
    constructor; [right; vm_compute; reflexivity|]. constructor.
  - vm_compute; reflexivity.
  - vm_compute; reflexivity.
  - vm_compute; reflexivity.
  - vm_compute; reflexivity.
Defined.

(* ===================================================================== *)
(** * Unpacking, then packing *)
(* ===================================================================== *)

Lemma extract_ark_returned_marker system hdr_path arkhelper temp_dir w w1 :
  extract_ark system hdr_path arkhelper temp_dir w = (Return tt, w1) ->
  is_Some (files w1 !! joinpath temp_dir "ark.txt").
Proof.
  set (marker := joinpath temp_dir "ark.txt").
  unfold extract_ark, bind at 1, print. unfold bind at 1.
  unfold mkdir_exist_ok at 1. cbn [files stdout].
  destruct (mkdir_parents (files w) (rev temp_dir)) as [e|fs1]; [discriminate|].
  unfold bind at 1, subprocess_run. cbn [executable files stdout].
  destruct (fs1 !! arkhelper) as [[|x]|]; [discriminate| |discriminate].
  destruct (system (Ark2Dir arkhelper hdr_path temp_dir) fs1) as [rc fs2].
  destruct (rc =? 0); [|discriminate].
  unfold bind at 1, path_exists, is_present. cbn [files stdout]. fold marker.
  destruct (fs2 !! marker) as [m|] eqn:E2.
  - intros [= <-]. cbn. rewrite E2. eauto.
  - cbn [negb when]. unfold touch. cbn [files]. rewrite E2. unfold create_file. cbn [files stdout].
    rewrite E2. fold marker.
    destruct (fs2 !! parent marker) as [[|c]|]; [|discriminate|discriminate].
    intros [= <-]. cbn. rewrite lookup_insert_eq. eauto.
Qed.

(** X13: a workspace that [extract_ark] returned from is one that
    [repack_ark] packs: with the archive tool still in place it prints
    that it repacks and starts the pack operation of that workspace into
    the given folder, under the name [MAIN], and nothing else. *)
Theorem repack_ark_after_extract_ark system hdr_path arkhelper temp_dir hdr_folder w w1 :
  extract_ark system hdr_path arkhelper temp_dir w = (Return tt, w1) ->
  (exists c, files w1 !! arkhelper = Some (File c)) ->
  exists r w2,
    repack_ark system temp_dir hdr_folder arkhelper w1 = (r, w2)
    /\ stdout w2 =
       stdout w1 ++
       [Printed ("Repacking from " +:+ path_str temp_dir +:+ " into " +:+ path_str hdr_folder);
        Ran (Dir2Ark arkhelper temp_dir hdr_folder "MAIN" "4073741823")]
    /\ files w2 = (system (Dir2Ark arkhelper temp_dir hdr_folder "MAIN" "4073741823") (files w1)).2
    /\ (r = Return tt <->
        (system (Dir2Ark arkhelper temp_dir hdr_folder "MAIN" "4073741823") (files w1)).1 = 0).
Proof.
  intros He [c Hc]. apply extract_ark_returned_marker in He as [m Hm].
  unfold repack_ark, bind at 1, path_exists, is_present. cbn [files stdout].
  rewrite Hm. cbn [negb]. unfold bind, print, subprocess_run. cbn [executable files stdout].
  rewrite Hc.
  destruct (system _ (files w1)) as [rc fs2]. cbn [fst snd].
  destruct (rc =? 0) eqn:Erc; do 2 eexists; (split; [reflexivity|]); cbn [files stdout];
    rewrite <- app_assoc; (split; [reflexivity|]); (split; [reflexivity|]).
  - split; [intros _; now apply Z.eqb_eq|reflexivity].
  - split; [discriminate|]. intros ->. discriminate.
Qed.

Lemma repack_ark_after_extract_ark_witness :
  exists r w2,
    repack_ark succeeding_system ["app"; "main"; "d1"; "temp_out"] ["app"; "main"; "d1"]
      ["app"; "z_dependencies"; "arkhelper.exe"]
      (extract_ark succeeding_system ["app"; "main"; "d1"; "MAIN.HDR"]
         ["app"; "z_dependencies"; "arkhelper.exe"] ["app"; "main"; "d1"; "temp_out"]
         (World two_units_fs [])).2 = (r, w2)
    /\ stdout w2 =
       stdout (extract_ark succeeding_system ["app"; "main"; "d1"; "MAIN.HDR"]
                 ["app"; "z_dependencies"; "arkhelper.exe"] ["app"; "main"; "d1"; "temp_out"]
                 (World two_units_fs [])).2 ++
       [Printed ("Repacking from " +:+ path_str ["app"; "main"; "d1"; "temp_out"]
                 +:+ " into " +:+ path_str ["app"; "main"; "d1"]);
        Ran (Dir2Ark ["app"; "z_dependencies"; "arkhelper.exe"] ["app"; "main"; "d1"; "temp_out"]
               ["app"; "main"; "d1"] "MAIN" "4073741823")]
    /\ files w2 =
       (succeeding_system
          (Dir2Ark ["app"; "z_dependencies"; "arkhelper.exe"] ["app"; "main"; "d1"; "temp_out"]
             ["app"; "main"; "d1"] "MAIN" "4073741823")
          (files (extract_ark succeeding_system ["app"; "main"; "d1"; "MAIN.HDR"]
                    ["app"; "z_dependencies"; "arkhelper.exe"] ["app"; "main"; "d1"; "temp_out"]
                    (World two_units_fs [])).2)).2
    /\ (r = Return tt <->
        (succeeding_system
           (Dir2Ark ["app"; "z_dependencies"; "arkhelper.exe"] ["app"; "main"; "d1"; "temp_out"]
              ["app"; "main"; "d1"] "MAIN" "4073741823")
           (files (extract_ark succeeding_system ["app"; "main"; "d1"; "MAIN.HDR"]
                     ["app"; "z_dependencies"; "arkhelper.exe"] ["app"; "main"; "d1"; "temp_out"]
                     (World two_units_fs [])).2)).1 = 0).
Proof.
  apply (repack_ark_after_extract_ark succeeding_system ["app"; "main"; "d1"; "MAIN.HDR"]
           ["app"; "z_dependencies"; "arkhelper.exe"] ["app"; "main"; "d1"; "temp_out"]
           ["app"; "main"; "d1"] (World two_units_fs [])).
  - vm_compute. reflexivity.
  - eexists. vm_compute. reflexivity.
Defined.
